(** * applovin_report: the report fetch engine

    A shallow embedding of
      - [applovin_report/services/revenue_reporting_api.py]
        ([RevenueReport.get_report], [RevenueReport.get_report_batch]) and
      - [applovin_report/user_ad_revenue_reporting_api.py]
        ([UserAdRevenueReport.__init__], [UserAdRevenueReport.get_report]).

    Python values are an inductive type, request parameters (a [dict] with
    string keys) are a [gmap string PyVal], and the effects of the code (HTTP
    round trips, [time.sleep], [print], [logging], the clock) are threaded
    through a state-and-exception monad that keeps a log of what was done. *)

From Stdlib Require Import ZArith Ascii String List Lia.
From stdpp Require Import base strings gmap list pretty.

Set Warnings "-register-all".
Local Open Scope string_scope.
Local Open Scope Z_scope.
Local Open Scope list_scope.

(** ** Python values *)

(** What travels in request parameters, in JSON bodies and in the cells of a
    table. A [PDict] keeps the insertion order of its keys, as a Python
    [dict] does. [PFloat z] is the floating-point number that the integer
    [z] converts to, and [PNaN] is the floating-point not-a-number that
    pandas puts where a value is missing. *)
Inductive PyVal : Type :=
| PNone
| PBool (b : bool)
| PInt (z : Z)
| PFloat (z : Z)
| PNaN
| PStr (s : string)
| PList (l : list PyVal)
| PDict (kvs : list (string * PyVal)).

(** Exceptions that the modelled code can let escape. *)
Inductive exn : Type :=
| Exception (msg : string)           (* raise Exception(msg) *)
| UnboundLocalError (var : string)   (* a local read before assignment *)
| AttributeError (attr : string)     (* None.attr *)
| KeyError (key : string)            (* d[key], key absent *)
| TypeError (what : string)
| ValueError (what : string)
| JSONDecodeError                    (* response.json() on a body that is no JSON *)
| RequestException (kind : string).  (* requests.exceptions.*: ConnectionError, Timeout, ... *)

Inductive Res (A : Type) : Type :=
| Ok (a : A)
| Raise (e : exn).
Arguments Ok {A} a.
Arguments Raise {A} e.

(** [requests.Response]: [json] is the parsed body, [None] when the body is
    not JSON (then [response.json()] raises). *)
Record Response : Type := mkResponse {
  status_code : Z;
  text : string;
  json : option PyVal
}.

(** A [pandas.DataFrame], kept as the data it was built from: the value
    handed to the constructor (see [DataFrame_call] for when the constructor
    refuses it and [table_records] for the records of the table that pandas
    makes of it), or the records themselves for a table that a reader made.
    [pd.DataFrame()] is the frame of no data. *)
Record DataFrame : Type := pd_DataFrame { df_data : PyVal }.

(** The elements of the list a frame was built from, one per row of the
    table. *)
Definition df_rows (df : DataFrame) : list PyVal :=
  match df_data df with
  | PList rows => rows
  | _ => []
  end.

Definition df_columns_of_row (row : PyVal) : list string :=
  match row with
  | PDict kvs => map fst kvs
  | _ => []
  end.

(** The [dtype] argument of [pandas.read_csv]. *)
Inductive Dtype : Type :=
| DtypeInfer          (* the default: pandas infers numeric columns *)
| DtypeObject.        (* dtype='object' *)

(** [urllib3.util.Retry(total, backoff_factor, status_forcelist)]. *)
Record Retry : Type := mkRetry {
  total : Z;
  backoff_factor : Z;
  status_forcelist : list Z
}.

(** [requests.Session] with the adapters mounted on it, by URL prefix. *)
Record Session : Type := mkSession {
  adapters : list (string * Retry)
}.

(** ** The world outside the program *)

(** The service, the clock and pandas' CSV reader. Each operation may change
    the world; an HTTP call answers with a response or raises. *)
Class World (W : Type) : Type := {
  (* requests.get(url=..., params=...) *)
  requests_get : string → gmap string PyVal → W → Res Response * W;
  (* session.get(url=..., params=...), through the session's adapters *)
  session_get : Session → string → gmap string PyVal → W → Res Response * W;
  (* pandas.read_csv(url, dtype=...) *)
  pd_read_csv : string → Dtype → W → Res DataFrame * W;
  (* pandas.DataFrame(d) for a dict d that holds lists or dicts: the
     exception it raises, if any *)
  pandas_rejects : PyVal → option exn;
  (* datetime.now(), as a day number *)
  datetime_now : W → Z * W;
  (* time.sleep(secs) for secs >= 0 *)
  time_sleep : Z → W → W;
  (* d.strftime("%Y-%m-%d") for the day number d *)
  strftime_ymd : Z → string
}.

(** What the program did, in order. *)
Inductive Event : Type :=
| EvGet (url : string) (params : gmap string PyVal)
| EvSessionGet (url : string) (params : gmap string PyVal)
| EvReadCsv (url : string) (dtype : Dtype)
| EvNow
| EvSleep (secs : Z)
| EvPrint (line : string)
| EvLogWarning (msg : string)
| EvLogInfo (msg : string).

Record St (W : Type) : Type := mkSt {
  world : W;
  log : list Event
}.
Arguments mkSt {W} world log.
Arguments world {W} s.
Arguments log {W} s.

(** ** The monad of the embedding: state and exceptions *)

Definition M (W A : Type) : Type := St W → Res A * St W.

Definition ret {W A} (a : A) : M W A := fun st => (Ok a, st).

Definition raise {W A} (e : exn) : M W A := fun st => (Raise e, st).

Definition bind {W A B} (c : M W A) (k : A → M W B) : M W B :=
  fun st =>
    match c st with
    | (Ok a, st') => k a st'
    | (Raise e, st') => (Raise e, st')
    end.

Declare Scope py_scope.
Delimit Scope py_scope with py.
Notation "x <- c ;; k" := (bind c (fun x => k))
  (at level 100, c at next level, right associativity) : py_scope.
Notation "c ;;; k" := (bind c (fun _ => k))
  (at level 100, right associativity) : py_scope.
Local Open Scope py_scope.

Definition lift_res {W A} (r : Res A) : M W A := fun st => (r, st).

Definition emit {W} (ev : Event) : M W unit :=
  fun st => (Ok tt, mkSt (world st) (log st ++ [ev])).

Section Primitives.
Context {W : Type} `{World W}.

Definition do_requests_get (url : string) (params : gmap string PyVal)
  : M W Response :=
  fun st =>
    let (r, w') := requests_get url params (world st) in
    (r, mkSt w' (log st ++ [EvGet url params])).

Definition do_session_get (s : Session) (url : string)
    (params : gmap string PyVal) : M W Response :=
  fun st =>
    let (r, w') := session_get s url params (world st) in
    (r, mkSt w' (log st ++ [EvSessionGet url params])).

Definition do_read_csv (url : string) (dtype : Dtype) : M W DataFrame :=
  fun st =>
    let (r, w') := pd_read_csv url dtype (world st) in
    (r, mkSt w' (log st ++ [EvReadCsv url dtype])).

Definition do_now : M W Z :=
  fun st =>
    let (d, w') := datetime_now (world st) in
    (Ok d, mkSt w' (log st ++ [EvNow])).

(** [time.sleep(secs)] raises [ValueError] on a negative length. *)
Definition do_sleep (secs : Z) : M W unit :=
  fun st =>
    if secs <? 0 then (Raise (ValueError "sleep length must be non-negative"), st)
    else (Ok tt, mkSt (time_sleep secs (world st)) (log st ++ [EvSleep secs])).

Definition print (line : string) : M W unit := emit (EvPrint line).
Definition logging_warning (msg : string) : M W unit := emit (EvLogWarning msg).
Definition logging_info (msg : string) : M W unit := emit (EvLogInfo msg).
End Primitives.

(** ** Python helpers *)

(** [str(n)] for an [int]. *)
Definition str_of_int (n : Z) : string := pretty n.

(** [sep.join(parts)]. *)
Fixpoint str_join (sep : string) (parts : list string) : string :=
  match parts with
  | [] => ""
  | [p] => p
  | p :: rest => p +:+ sep +:+ str_join sep rest
  end.

(** [range(n)]. *)
Definition range (n : Z) : list Z := map Z.of_nat (seq 0 (Z.to_nat n)).

Fixpoint assoc_get (k : string) (kvs : list (string * PyVal)) : option PyVal :=
  match kvs with
  | [] => None
  | (k', v) :: rest => if String.eqb k k' then Some v else assoc_get k rest
  end.

(** [v[key]] for a string [key]. *)
Definition py_getitem (v : PyVal) (key : string) : Res PyVal :=
  match v with
  | PDict kvs =>
      match assoc_get key kvs with
      | Some x => Ok x
      | None => Raise (KeyError key)
      end
  | PList _ => Raise (TypeError "list indices must be integers or slices, not str")
  | PStr _ => Raise (TypeError "string indices must be integers, not 'str'")
  | PNone => Raise (TypeError "'NoneType' object is not subscriptable")
  | PBool _ => Raise (TypeError "'bool' object is not subscriptable")
  | PInt _ => Raise (TypeError "'int' object is not subscriptable")
  | PFloat _ | PNaN => Raise (TypeError "'float' object is not subscriptable")
  end.

(** [len(v)]. *)
Definition py_len (v : PyVal) : Res Z :=
  match v with
  | PList l => Ok (Z.of_nat (length l))
  | PDict kvs => Ok (Z.of_nat (length kvs))
  | PStr s => Ok (Z.of_nat (String.length s))
  | PNone => Raise (TypeError "object of type 'NoneType' has no len()")
  | PBool _ => Raise (TypeError "object of type 'bool' has no len()")
  | PInt _ => Raise (TypeError "object of type 'int' has no len()")
  | PFloat _ | PNaN => Raise (TypeError "object of type 'float' has no len()")
  end.

(** [response.json()]. *)
Definition response_json (r : Response) : Res PyVal :=
  match json r with
  | Some v => Ok v
  | None => Raise JSONDecodeError
  end.

(** [not s] for an optional string argument: [None] and [""] are falsy. *)
Definition falsy (s : option string) : bool :=
  match s with
  | None => true
  | Some s' => String.eqb s' ""
  end.

Definition str_or_empty (s : option string) : string :=
  match s with
  | Some s' => s'
  | None => ""
  end.

(** The line feed. *)
Definition newline : string := String "010"%char "".

(** [traceback.format_exc()] outside an [except] block: the text
    ["NoneType: None"] and a line feed. *)
Definition format_exc_no_exception : string := "NoneType: None" +:+ newline.

(** A value that is neither a list nor a dict. *)
Definition is_scalar (v : PyVal) : bool :=
  match v with
  | PList _ | PDict _ => false
  | _ => true
  end.

(** [pandas.DataFrame(data)]. A list and [None] give a frame; a string, a
    number or a boolean is refused, and so is a dict that holds only scalar
    values, unless it is empty. For a dict that holds lists or dicts the
    constructor's verdict is the world's. Of the lists, the ones a report
    holds are lists of dicts (records), which pandas always takes; the model
    takes every other list too. *)
Definition DataFrame_call {W : Type} `{World W} (data : PyVal) : Res DataFrame :=
  match data with
  | PNone | PList _ | PDict [] => Ok (pd_DataFrame data)
  | PDict kvs =>
      if forallb (fun kv => is_scalar kv.2) kvs
      then Raise (ValueError "If using all scalar values, you must pass an index")
      else match pandas_rejects data with
           | Some e => Raise e
           | None => Ok (pd_DataFrame data)
           end
  | _ => Raise (ValueError "DataFrame constructor not properly called!")
  end.

(** [{**d, **kwargs}]: the entries of [kwargs] come last in the dict display,
    so on a shared key the value of [kwargs] replaces the earlier one. *)
Definition dict_update (d kwargs : gmap string PyVal) : gmap string PyVal :=
  kwargs ∪ d.

(** The HTTP requests in a log, in order. *)
Definition requests_made (l : list Event) : list (string * gmap string PyVal) :=
  omap (fun ev => match ev with
                  | EvGet url params => Some (url, params)
                  | _ => None
                  end) l.

Definition sleeps_made (l : list Event) : list Z :=
  omap (fun ev => match ev with EvSleep secs => Some secs | _ => None end) l.

(** ** services/revenue_reporting_api.py *)

Module RevenueReport.

Definition ENDPOINT : string := "https://r.applovin.com/maxReport".

Record t : Type := mk { api_key : PyVal }.

Definition retrying_line (i max_retries : Z) : string :=
  "Retrying... (" +:+ str_of_int (i + 1) +:+ "/" +:+ str_of_int max_retries +:+ ")".

Section Methods.
Context {W : Type} `{World W}.

(** Lines 55-57 and 110-112: the date defaults. *)
Definition default_dates (start_date end_date : option string)
  : M W (string * string) :=
  if falsy start_date || falsy end_date then
    now1 <- do_now ;;
    let start_date := strftime_ymd (now1 - 2) in
    now2 <- do_now ;;
    let end_date := strftime_ymd (now2 - 1) in
    ret (start_date, end_date)
  else ret (str_or_empty start_date, str_or_empty end_date).

(** Lines 59-67. [columns] is taken at its annotated type [list[str]], and
    the dates are the strings that [default_dates] decided on. *)
Definition get_report_params (self : t) (start_date end_date : string)
    (columns : list string) (limit : Z) (kwargs : gmap string PyVal)
  : gmap string PyVal :=
  dict_update
    (<["limit" := PInt limit]>
     (<["format" := PStr "json"]>
      (<["columns" := PStr (str_join "," columns)]>
       (<["end" := PStr end_date]>
        (<["start" := PStr start_date]>
         (<["api_key" := api_key self]> ∅))))))
    kwargs.

(** Lines 69-76: the [for] loop over the remaining indices. [inl df] is
    the [return] inside the loop, [inr response] the loop running out,
    with the local [response] as it then is. *)
Fixpoint get_report_attempts (params : gmap string PyVal)
    (max_retries retry_interval : Z) (idxs : list Z)
    (response : option Response) : M W (DataFrame + option Response) :=
  match idxs with
  | [] => ret (inr response)
  | i :: rest =>
      response <- do_requests_get ENDPOINT params ;;
      if status_code response =? 200 then
        body <- lift_res (response_json response) ;;
        results <- lift_res (py_getitem body "results") ;;
        df <- lift_res (DataFrame_call results) ;;
        ret (inl df)
      else
        print (retrying_line i max_retries) ;;;
        do_sleep retry_interval ;;;
        get_report_attempts params max_retries retry_interval rest
          (Some response)
  end.

Definition get_report (self : t) (start_date end_date : option string)
    (columns : list string) (limit max_retries retry_interval : Z)
    (kwargs : gmap string PyVal) : M W DataFrame :=
  dates <- default_dates start_date end_date ;;
  let params :=
    get_report_params self (fst dates) (snd dates) columns limit kwargs in
  r <- get_report_attempts params max_retries retry_interval
         (range (max_retries + 1)) None ;;
  match r with
  | inl df => ret df
  | inr response =>
      print format_exc_no_exception ;;;
      match response with
      | None => raise (UnboundLocalError "response")
      | Some response =>
          raise (Exception ("Error: " +:+ str_of_int (status_code response)))
      end
  end.

(** The locals of [get_report_batch] that live across a [yield]. *)
Record BatchFrame : Type := mkFrame {
  f_self : t;
  f_start_date : string;
  f_end_date : string;
  f_columns : list string;
  f_batch_size : Z;
  f_max_retries : Z;
  f_retry_interval : Z;
  f_kwargs : gmap string PyVal;
  f_offset : Z;
  f_has_next_batch : bool
}.

(** The generator object: not yet started, paused at the [yield], or
    finished. *)
Inductive Generator : Type :=
| GenCreated (self : t) (start_date end_date : option string)
    (columns : list string) (batch_size max_retries retry_interval : Z)
    (kwargs : gmap string PyVal)
| GenSuspended (fr : BatchFrame)
| GenClosed.

(** Calling the generator function runs none of its body. *)
Definition get_report_batch (self : t) (start_date end_date : option string)
    (columns : list string) (batch_size max_retries retry_interval : Z)
    (kwargs : gmap string PyVal) : Generator :=
  GenCreated self start_date end_date columns batch_size max_retries
    retry_interval kwargs.

(** Lines 117-126. *)
Definition batch_params (fr : BatchFrame) : gmap string PyVal :=
  dict_update
    (<["limit" := PInt (f_batch_size fr)]>
     (<["offset" := PInt (f_offset fr)]>
      (<["format" := PStr "json"]>
       (<["columns" := PStr (str_join "," (f_columns fr))]>
        (<["end" := PStr (f_end_date fr)]>
         (<["start" := PStr (f_start_date fr)]>
          (<["api_key" := api_key (f_self fr)]> ∅)))))))
    (f_kwargs fr).

(** Lines 129-134: the [for] loop, left by [break] on status 200. *)
Fixpoint batch_attempts (params : gmap string PyVal)
    (max_retries retry_interval : Z) (idxs : list Z)
    (response : option Response) : M W (option Response) :=
  match idxs with
  | [] => ret response
  | i :: rest =>
      response <- do_requests_get ENDPOINT params ;;
      if status_code response =? 200 then ret (Some response)
      else
        print (retrying_line i max_retries) ;;;
        do_sleep retry_interval ;;;
        batch_attempts params max_retries retry_interval rest (Some response)
  end.

Definition batch_error_message (status offset batch_size : Z) : string :=
  "Error: " +:+ str_of_int status +:+
  "Last offset: " +:+ str_of_int offset +:+
  "Batch size: " +:+ str_of_int batch_size.

(** Lines 117-146: one turn of the [while] loop, up to the [yield]. *)
Definition batch_iteration (fr : BatchFrame) : M W (DataFrame * BatchFrame) :=
  let params := batch_params fr in
  response <- batch_attempts params (f_max_retries fr) (f_retry_interval fr)
                (range (f_max_retries fr + 1)) None ;;
  match response with
  | None => raise (AttributeError "status_code")
  | Some response =>
      if negb (status_code response =? 200) then
        print format_exc_no_exception ;;;
        raise (Exception (batch_error_message (status_code response)
                            (f_offset fr) (f_batch_size fr)))
      else
        body <- lift_res (response_json response) ;;
        results <- lift_res (py_getitem body "results") ;;
        n <- lift_res (py_len results) ;;
        let has_next_batch := n =? f_batch_size fr in
        let offset := f_offset fr + f_batch_size fr in
        df <- lift_res (DataFrame_call results) ;;
        ret (df,
             mkFrame (f_self fr) (f_start_date fr) (f_end_date fr)
               (f_columns fr) (f_batch_size fr) (f_max_retries fr)
               (f_retry_interval fr) (f_kwargs fr) offset has_next_batch)
  end.

(** Line 116: the test of the [while] loop; [None] is [StopIteration]. *)
Definition batch_loop (fr : BatchFrame) : M W (option DataFrame * Generator) :=
  if f_has_next_batch fr then
    r <- batch_iteration fr ;;
    ret (Some (fst r), GenSuspended (snd r))
  else ret (None, GenClosed).

(** [next(gen)]. An exception raised inside leaves the generator
    finished. *)
Definition next (g : Generator) : M W (option DataFrame * Generator) :=
  match g with
  | GenCreated self start_date end_date columns batch_size max_retries
      retry_interval kwargs =>
      dates <- default_dates start_date end_date ;;
      batch_loop (mkFrame self (fst dates) (snd dates) columns batch_size
                    max_retries retry_interval kwargs 0 true)
  | GenSuspended fr => batch_loop fr
  | GenClosed => ret (None, GenClosed)
  end.

(** [list(gen)], with at most [fuel] calls of [next]: [None] when the
    generator has not finished by then. *)
Fixpoint collect (fuel : nat) (g : Generator) : M W (option (list DataFrame)) :=
  match fuel with
  | O => ret None
  | S fuel' =>
      r <- next g ;;
      match r with
      | (None, _) => ret (Some [])
      | (Some df, g') =>
          rest <- collect fuel' g' ;;
          ret (option_map (cons df) rest)
      end
  end.
End Methods.
End RevenueReport.

(** ** user_ad_revenue_reporting_api.py *)

Module UserAdRevenueReport.

Definition STATUS_RETRIES : list Z := [500; 502; 503; 504].

Definition ENDPOINT : string := "https://r.applovin.com/max/userAdRevenueReport".

Record t : Type := mk { api_key : PyVal; session : Session }.

(** [requests.Session()]: both prefixes carry the default adapter, which
    retries nothing. *)
Definition requests_Session : Session :=
  mkSession [("https://", mkRetry 0 0 []); ("http://", mkRetry 0 0 [])].

(** [session.mount(prefix, HTTPAdapter(max_retries=retries))]. *)
Definition mount (prefix : string) (retries : Retry) (s : Session) : Session :=
  mkSession ((prefix, retries) ::
             filter (fun a => negb (String.eqb (fst a) prefix)) (adapters s)).

(** Lines 22-41; the defaults of the signature are [STATUS_RETRIES], 5
    and 1. *)
Definition __init__ (api_key : PyVal) (status_retries : list Z)
    (max_retries retry_delay : Z) : t :=
  let session := requests_Session in
  let retries := mkRetry max_retries retry_delay status_retries in
  mk api_key (mount "https://" retries session).

(** Lines 71-77. *)
Definition base_params (self : t) (date : string) (aggregated : bool)
    (platform : string) (kwargs : gmap string PyVal) : gmap string PyVal :=
  dict_update
    (<["platform" := PStr platform]>
     (<["aggregated" := PBool aggregated]>
      (<["date" := PStr date]>
       (<["api_key" := api_key self]> ∅))))
    kwargs.

(** Lines 78-86, the request parameters and [app_id] after the branch on
    [platform]; the third component says whether the warning is logged. *)
Definition platform_params (self : t) (date : string) (aggregated : bool)
    (application store_id platform : string) (kwargs : gmap string PyVal)
  : gmap string PyVal * string * bool :=
  let params := base_params self date aggregated platform kwargs in
  let app_id := "no_platform_app_id" in
  if String.eqb platform "android" then
    (<["application" := PStr application]> params, application, false)
  else if String.eqb platform "ios" then
    (<["store_id" := PStr store_id]> params, store_id, false)
  else (params, app_id, true).

Section Methods.
Context {W : Type} `{World W}.

Definition get_report (self : t) (date : string) (aggregated : bool)
    (application store_id platform : string) (kwargs : gmap string PyVal)
  : M W DataFrame :=
  let '(params, app_id, wrong_platform) :=
    platform_params self date aggregated application store_id platform
      kwargs in
  (if wrong_platform
   then logging_warning ("Wrong platform: " +:+ platform +:+ "!")
   else ret tt) ;;;
  response <- do_session_get (session self) ENDPOINT params ;;
  if status_code response =? 404 then
    logging_warning (text response +:+ ". Skipped it.") ;;;
    ret (pd_DataFrame PNone)
  else
    body <- lift_res (response_json response) ;;
    url <- lift_res (py_getitem body "ad_revenue_report_url") ;;
    result <- match url with
              | PStr url => do_read_csv url DtypeObject
              | _ => raise (ValueError "Invalid file path or buffer object type")
              end ;;
    logging_info ("Collected successful ad revenue report of App id: " +:+
                  app_id +:+ ", Platform: " +:+ platform +:+ ".") ;;;
    ret result.
End Methods.
End UserAdRevenueReport.

(** ** Servers used in the scenarios *)

(** A service that holds a fixed list of rows and answers every request with
    status 200 and the slice of the rows selected by the [offset] and
    [limit] parameters of the request. *)
Definition param_nat (params : gmap string PyVal) (key : string) (default : nat)
  : nat :=
  match params !! key with
  | Some (PInt z) => Z.to_nat z
  | _ => default
  end.

Definition dataset_page (rows : list PyVal) (params : gmap string PyVal)
  : list PyVal :=
  take (param_nat params "limit" (length rows))
       (drop (param_nat params "offset" 0) rows).

Definition dataset_response (rows : list PyVal) (params : gmap string PyVal)
  : Response :=
  mkResponse 200 "" (Some (PDict [("results", PList (dataset_page rows params))])).

Definition dataset_world (rows : list PyVal) : World unit := {|
  requests_get := fun _ params w => (Ok (dataset_response rows params), w);
  session_get := fun _ _ params w => (Ok (dataset_response rows params), w);
  pd_read_csv := fun _ _ w => (Ok (pd_DataFrame (PList rows)), w);
  pandas_rejects := fun _ => None;
  datetime_now := fun w => (19500, w);
  time_sleep := fun _ w => w;
  strftime_ymd := fun d => "day " +:+ str_of_int d
|}.

(** A service that plays a script: the [n]-th HTTP call gets the [n]-th
    outcome of the list, and a connection error once the script is over. *)
Definition script_world : World (list (Res Response)) := {|
  requests_get := fun _ _ w =>
    match w with
    | o :: w' => (o, w')
    | [] => (Raise (RequestException "ConnectionError"), [])
    end;
  session_get := fun _ _ _ w =>
    match w with
    | o :: w' => (o, w')
    | [] => (Raise (RequestException "ConnectionError"), [])
    end;
  pd_read_csv := fun _ _ w => (Raise (RequestException "ConnectionError"), w);
  pandas_rejects := fun _ => None;
  datetime_now := fun w => (19500, w);
  time_sleep := fun _ w => w;
  strftime_ymd := fun d => "day " +:+ str_of_int d
|}.

(** A service that answers every request with the same response. *)
Definition constant_world (r : Response) : World unit := {|
  requests_get := fun _ _ w => (Ok r, w);
  session_get := fun _ _ _ w => (Ok r, w);
  pd_read_csv := fun _ _ w => (Raise (RequestException "ConnectionError"), w);
  pandas_rejects := fun _ => None;
  datetime_now := fun w => (19500, w);
  time_sleep := fun _ w => w;
  strftime_ymd := fun d => "day " +:+ str_of_int d
|}.

(** A service that cannot be reached: every HTTP call raises [e]. *)
Definition down_world (e : exn) : World unit := {|
  requests_get := fun _ _ w => (Raise e, w);
  session_get := fun _ _ _ w => (Raise e, w);
  pd_read_csv := fun _ _ w => (Raise e, w);
  pandas_rejects := fun _ => None;
  datetime_now := fun w => (19500, w);
  time_sleep := fun _ w => w;
  strftime_ymd := fun d => "day " +:+ str_of_int d
|}.

Definition init_state {W : Type} (w : W) : St W := mkSt w [].

(** A service that answers every request with a response of status [code]. *)
Definition always_status {W : Type} `{World W} (code : Z) : Prop :=
  ∀ url params w, ∃ r w',
    requests_get url params w = (Ok r, w') ∧ status_code r = code.

(** The answers of a service that is down, and of one that rejects the
    request. *)
Definition response_503 : Response := mkResponse 503 "Service Unavailable" None.
Definition response_400 : Response := mkResponse 400 "Bad Request" None.

(** The answer of the per-user endpoint when it has nothing for the slice. *)
Definition response_404 : Response := mkResponse 404 "No data found" None.

(** The calls of [pandas.read_csv] in a log, in order. *)
Definition csv_reads (l : list Event) : list (string * Dtype) :=
  omap (fun ev => match ev with
                  | EvReadCsv url dtype => Some (url, dtype)
                  | _ => None
                  end) l.

(** [UserAdRevenueReport("KEY")], with the defaults of the signature. *)
Definition default_user_service : UserAdRevenueReport.t :=
  UserAdRevenueReport.__init__ (PStr "KEY") UserAdRevenueReport.STATUS_RETRIES 5 1.

(** The calls of [session.get] in a log, in order. *)
Definition session_gets (l : list Event) : list (string * gmap string PyVal) :=
  omap (fun ev => match ev with
                  | EvSessionGet url params => Some (url, params)
                  | _ => None
                  end) l.

(** A service that cannot be reached: every [requests.get] raises [e]. *)
Definition unreachable {W : Type} `{World W} (e : exn) : Prop :=
  ∀ url params w, ∃ w', requests_get url params w = (Raise e, w').

(** [RevenueReport("KEY")]. *)
Definition default_service : RevenueReport.t := RevenueReport.mk (PStr "KEY").

(** [get_report(start_date="2023-05-14", end_date="2023-05-16",
    columns=["day"], max_retries=3, retry_interval=0)] against a service
    that answers 400 to everything. *)
Definition run_against_400 : Res DataFrame * St unit :=
  @RevenueReport.get_report unit (constant_world response_400) default_service
    (Some "2023-05-14") (Some "2023-05-16") ["day"] 100000 3 0 ∅ (init_state tt).

(** The same call when every request ends in a connection error. *)
Definition run_against_unreachable : Res DataFrame * St unit :=
  @RevenueReport.get_report unit
    (down_world (RequestException "ConnectionError")) default_service
    (Some "2023-05-14") (Some "2023-05-16") ["day"] 100000 3 0 ∅ (init_state tt).

(** Extra arguments that carry the names of the identity fields. *)
Definition identity_kwargs : gmap string PyVal :=
  <["api_key" := PStr "OTHER"]> (<["start" := PStr "1999-01-01"]> ∅).

(** [get_report(start_date="2023-05-14", end_date="2023-05-16",
    columns=["day"], api_key="OTHER", start="1999-01-01")] against a service
    with no rows. *)
Definition run_with_identity_kwargs : Res DataFrame * St unit :=
  @RevenueReport.get_report unit (dataset_world []) default_service
    (Some "2023-05-14") (Some "2023-05-16") ["day"] 100000 3 0 identity_kwargs
    (init_state tt).

(** Rows of a report. *)
Definition report_row (n : Z) : PyVal :=
  PDict [("day", PStr "2023-05-14"); ("impressions", PInt n)].

Definition five_rows : list PyVal := map report_row [1; 2; 3; 4; 5].
Definition four_rows : list PyVal := map report_row [1; 2; 3; 4].
Definition three_rows : list PyVal := map report_row [1; 2; 3].

(** [list(get_report_batch(start_date="2023-05-14", end_date="2023-05-16",
    columns=["day", "impressions"], batch_size=2))] against a service that
    holds [rows]. *)
Definition pages_of_two (rows : list PyVal)
  : Res (option (list DataFrame)) * St unit :=
  @RevenueReport.collect unit (dataset_world rows) 10
    (RevenueReport.get_report_batch default_service (Some "2023-05-14")
       (Some "2023-05-16") ["day"; "impressions"] 2 3 30 ∅)
    (init_state tt).

(** The same call against a service that answers every request with the
    same three rows. *)
Definition pages_of_two_overfull : Res (option (list DataFrame)) * St unit :=
  @RevenueReport.collect unit
    (constant_world
       (mkResponse 200 "" (Some (PDict [("results", PList three_rows)]))))
    10
    (RevenueReport.get_report_batch default_service (Some "2023-05-14")
       (Some "2023-05-16") ["day"; "impressions"] 2 3 30 ∅)
    (init_state tt).

(** The [offset] and [limit] of each request in a log. *)
Definition offsets_and_limits (l : list Event)
  : list (option PyVal * option PyVal) :=
  map (fun req => (req.2 !! "offset", req.2 !! "limit")) (requests_made l).

(** The number of rows of each table. *)
Definition page_sizes (pages : list DataFrame) : list nat :=
  map (fun df => length (df_rows df)) pages.

(** The first [next] of the generator of [pages_of_two five_rows]. *)
Definition first_page_of_two : Res (option DataFrame * RevenueReport.Generator) * St unit :=
  @RevenueReport.next unit (dataset_world five_rows)
    (RevenueReport.get_report_batch default_service (Some "2023-05-14")
       (Some "2023-05-16") ["day"; "impressions"] 2 3 30 ∅)
    (init_state tt).

(** The frame of [get_report_batch] when it is about to ask for the page at
    [offset]. *)
Definition frame_at (self : RevenueReport.t) (start_date end_date : string)
    (columns : list string) (batch_size max_retries retry_interval : Z)
    (kwargs : gmap string PyVal) (offset : Z) (has_next_batch : bool)
  : RevenueReport.BatchFrame :=
  RevenueReport.mkFrame self start_date end_date columns batch_size max_retries
    retry_interval kwargs offset has_next_batch.

(** A value that is a Python [str]. *)
Definition is_str (v : PyVal) : bool :=
  match v with
  | PStr _ => true
  | _ => false
  end.

(** Every cell of every row of the table is a [str]. *)
Definition all_cells_str (df : DataFrame) : bool :=
  forallb (fun row => match row with
                      | PDict kvs => forallb (fun kv => is_str kv.2) kvs
                      | _ => false
                      end) (df_rows df).

(** *** The table that pandas makes of a list of records *)

Definition record_items (row : PyVal) : option (list (string * PyVal)) :=
  match row with
  | PDict kvs => Some kvs
  | _ => None
  end.

Definition has_column (cols : list string) (c : string) : bool :=
  existsb (String.eqb c) cols.

(** The columns of the table: the keys of the records, each where it first
    appears. *)
Definition add_columns (cols keys : list string) : list string :=
  foldl (fun acc k => if has_column acc k then acc else acc ++ [k]) cols keys.

Definition table_columns (records : list (list (string * PyVal))) : list string :=
  foldl (fun acc kvs => add_columns acc (map fst kvs)) [] records.

(** The cell of a record in a column: its value, or NaN where the record has
    no such key. *)
Definition record_cell (kvs : list (string * PyVal)) (c : string) : PyVal :=
  match assoc_get c kvs with
  | Some v => v
  | None => PNaN
  end.

Definition is_object (v : PyVal) : bool :=
  match v with
  | PStr _ | PList _ | PDict _ => true
  | _ => false
  end.

Definition is_bool (v : PyVal) : bool :=
  match v with PBool _ => true | _ => false end.

Definition is_int (v : PyVal) : bool :=
  match v with PInt _ => true | _ => false end.

Definition is_float (v : PyVal) : bool :=
  match v with PFloat _ => true | _ => false end.

Definition is_nan (v : PyVal) : bool :=
  match v with PNaN => true | _ => false end.

Definition is_null (v : PyVal) : bool :=
  match v with PNone => true | _ => false end.

(** A column becomes floating-point when it holds numbers and nothing else
    but missing values, and a float, a NaN, or a [None] beside an integer is
    among them. *)
Definition float_column (cells : list PyVal) : bool :=
  negb (existsb (fun v => is_object v || is_bool v) cells)
  && (existsb is_float cells || existsb is_nan cells
      || (existsb is_null cells && existsb is_int cells)).

Definition to_float (v : PyVal) : PyVal :=
  match v with
  | PInt z => PFloat z
  | PNone => PNaN
  | _ => v
  end.

(** The records of [pandas.DataFrame(data)] for a list of records: every row
    has every column, with NaN where its record had no such key, and the
    values of a floating-point column converted. [None] stands for data that
    is not a list of records. *)
Definition table_records (data : PyVal) : option (list PyVal) :=
  match data with
  | PNone => Some []
  | PList rows =>
      match mapM record_items rows with
      | Some records =>
          let cols := table_columns records in
          Some (map (fun kvs =>
                       PDict (map (fun c =>
                                     let v := record_cell kvs c in
                                     (c, if float_column
                                              (map (fun r => record_cell r c)
                                                 records)
                                         then to_float v else v))
                                cols))
                  records)
      | None => None
      end
  | _ => None
  end.

(** A value that pandas leaves as it is in any column: not a [None], not a
    float. *)
Definition plain (v : PyVal) : bool :=
  negb (is_null v || is_nan v || is_float v).

(** Records that all have the columns [cols], in that order, and plain
    values. *)
Definition uniform_rows (cols : list string) (rows : list PyVal) : Prop :=
  NoDup cols
  ∧ Forall (fun row => ∃ kvs, row = PDict kvs ∧ map fst kvs = cols
                              ∧ Forall (fun kv => plain kv.2 = true) kvs) rows.

(** The strings that [pandas.read_csv] takes for a missing value. *)
Definition STR_NA_VALUES : list string :=
  [""; "#N/A"; "#N/A N/A"; "#NA"; "-1.#IND"; "-1.#QNAN"; "-NaN"; "-nan";
   "1.#IND"; "1.#QNAN"; "<NA>"; "N/A"; "NA"; "NULL"; "NaN"; "None"; "n/a";
   "nan"; "null"].

Definition is_na (field : string) : bool :=
  existsb (String.eqb field) STR_NA_VALUES.

(** A service that answers every request with [r], whatever the state. *)
Definition always_answers {W : Type} `{World W} (r : Response) : Prop :=
  ∀ url params w, ∃ w', requests_get url params w = (Ok r, w').

(** The body [{"results": [{"day": "2023-05-14", "impressions": "10"}]}]. *)
Definition one_row_body : PyVal :=
  PDict [("results",
          PList [PDict [("day", PStr "2023-05-14"); ("impressions", PStr "10")]])].

Definition one_row_response : Response := mkResponse 200 "" (Some one_row_body).

(** [get_report(columns=["day", "impressions"])] against a service that
    answers with [one_row_body]. *)
Definition run_one_row : Res DataFrame * St unit :=
  @RevenueReport.get_report unit (constant_world one_row_response)
    default_service None None ["day"; "impressions"] 100000 3 30 ∅
    (init_state tt).

(** A CSV file as the reader sees it: per row, the column, the text of the
    field and the number that type inference would read it as, if any. *)
Definition CsvFile : Type := list (list (string * (string * option Z))).

(** The cell that the reader makes of a field: NaN for a missing value;
    otherwise, under [dtype='object'], the text as it stands. *)
Definition csv_cell (dtype : Dtype) (field : string * option Z) : PyVal :=
  if is_na field.1 then PNaN
  else match dtype, field.2 with
       | DtypeInfer, Some z => PInt z
       | _, _ => PStr field.1
       end.

Definition csv_frame (dtype : Dtype) (file : CsvFile) : DataFrame :=
  pd_DataFrame
    (PList (map (fun row => PDict (map (fun c => (c.1, csv_cell dtype c.2)) row))
              file)).

Definition report_url : string := "https://reports.example/user_ad_revenue.csv".

(** The per-user endpoint when it has a report: status 200 and the URL of a
    CSV file, which the reader then parses. *)
Definition csv_world (file : CsvFile) : World unit := {|
  requests_get := fun _ _ w => (Raise (RequestException "ConnectionError"), w);
  session_get := fun _ _ _ w =>
    (Ok (mkResponse 200 ""
           (Some (PDict [("ad_revenue_report_url", PStr report_url)]))), w);
  pd_read_csv := fun _ dtype w => (Ok (csv_frame dtype file), w);
  pandas_rejects := fun _ => None;
  datetime_now := fun w => (19500, w);
  time_sleep := fun _ w => w;
  strftime_ymd := fun d => "day " +:+ str_of_int d
|}.

(** One row whose identifier is all digits. *)
Definition user_csv : CsvFile :=
  [[("User ID", ("00123456789012345678", Some 123456789012345678));
    ("Revenue", ("0.25", None))]].

(** [get_report(start_date="2023-05-14", end_date="2023-05-16",
    columns=["day"], max_retries=3, retry_interval=0)] against a service
    that plays [script]. *)
Definition run_script (script : list (Res Response))
  : Res DataFrame * St (list (Res Response)) :=
  @RevenueReport.get_report _ script_world default_service
    (Some "2023-05-14") (Some "2023-05-16") ["day"] 100000 3 0 ∅
    (init_state script).

(** The lines printed, the warnings and the info messages in a log, and the
    number of times the clock was read. *)
Definition prints_made (l : list Event) : list string :=
  omap (fun ev => match ev with EvPrint line => Some line | _ => None end) l.

Definition warnings_logged (l : list Event) : list string :=
  omap (fun ev => match ev with EvLogWarning msg => Some msg | _ => None end) l.

Definition infos_logged (l : list Event) : list string :=
  omap (fun ev => match ev with EvLogInfo msg => Some msg | _ => None end) l.

Definition clock_reads (l : list Event) : list unit :=
  omap (fun ev => match ev with EvNow => Some tt | _ => None end) l.

(** A service whose every answer is a page of exactly [batch_size] rows. *)
Definition always_full_page {W : Type} `{World W} (batch_size : Z) : Prop :=
  ∀ url params w, ∃ r w' body rows,
    requests_get url params w = (Ok r, w')
    ∧ status_code r = 200 ∧ json r = Some body
    ∧ py_getitem body "results" = Ok (PList rows)
    ∧ Z.of_nat (length rows) = batch_size.

(** The state of the scripted service: the outcomes still to play. *)
Definition script_state (script : list (Res Response)) (l : list Event)
  : St (list (Res Response)) := mkSt script l.

(** A 200 answer whose JSON body has no [results] entry, and one whose body
    is not JSON. *)
Definition response_without_results : Response :=
  mkResponse 200 "{}" (Some (PDict [])).

Definition response_not_json : Response := mkResponse 200 "<html>" None.

(** The 200 answer that carries [three_rows]. *)
Definition three_rows_response : Response :=
  mkResponse 200 "" (Some (PDict [("results", PList three_rows)])).

(** A refusal of the per-user endpoint, with a JSON body that names no
    report. *)
Definition response_403 : Response :=
  mkResponse 403 "Forbidden" (Some (PDict [("error", PStr "forbidden")])).

(** A service that answers every request, and never with status 200. *)
Definition always_fails {W : Type} `{World W} : Prop :=
  ∀ url params w, ∃ r w',
    requests_get url params w = (Ok r, w') ∧ status_code r ≠ 200.

(** A service that counts: its [n]-th answer (from 0) has status [500 + n]
    and no body. *)
Definition counting_world : World nat := {|
  requests_get := fun _ _ n => (Ok (mkResponse (500 + Z.of_nat n) "" None), S n);
  session_get := fun _ _ _ n => (Ok (mkResponse (500 + Z.of_nat n) "" None), S n);
  pd_read_csv := fun _ _ n => (Raise (RequestException "ConnectionError"), n);
  pandas_rejects := fun _ => None;
  datetime_now := fun n => (19500, n);
  time_sleep := fun _ n => n;
  strftime_ymd := fun d => "day " +:+ str_of_int d
|}.

(** One row whose revenue field is empty. *)
Definition gapped_csv : CsvFile :=
  [[("User ID", ("00123456789012345678", Some 123456789012345678));
    ("Revenue", ("", None))]].

(** [UserAdRevenueReport("KEY").get_report(date="2023-05-14",
    application="com.example.app", platform="android")] when the report is
    [gapped_csv]. *)
Definition run_gapped_csv : Res DataFrame * St unit :=
  @UserAdRevenueReport.get_report unit (csv_world gapped_csv)
    default_user_service "2023-05-14" true "com.example.app" "" "android" ∅
    (init_state tt).

(** Two rows that do not have the same columns. *)
Definition two_odd_rows : list PyVal :=
  [PDict [("a", PInt 1)]; PDict [("b", PInt 2)]].

(** Two rows with the same column, the second with a JSON [null] in it. *)
Definition two_null_rows : list PyVal :=
  [PDict [("a", PInt 1)]; PDict [("a", PNone)]].

(** [get_report(start_date="2023-05-14", end_date="2023-05-16",
    columns=["a", "b"])] against a service that holds [rows], and
    [list(get_report_batch(..., batch_size=1))] against the same service. *)
Definition single_fetch (rows : list PyVal) : Res DataFrame * St unit :=
  @RevenueReport.get_report unit (dataset_world rows) default_service
    (Some "2023-05-14") (Some "2023-05-16") ["a"; "b"] 100000 3 30 ∅
    (init_state tt).

Definition pages_of_one (rows : list PyVal)
  : Res (option (list DataFrame)) * St unit :=
  @RevenueReport.collect unit (dataset_world rows) 10
    (RevenueReport.get_report_batch default_service (Some "2023-05-14")
       (Some "2023-05-16") ["a"; "b"] 1 3 30 ∅)
    (init_state tt).

(** The records of the table of a fetch, and the records of the tables of a
    paginated fetch, one table after the other. *)
Definition records_of_fetch (r : Res DataFrame) : option (list PyVal) :=
  match r with
  | Ok df => table_records (df_data df)
  | Raise _ => None
  end.

Definition records_of_pages (r : Res (option (list DataFrame)))
  : option (list PyVal) :=
  match r with
  | Ok (Some pages) =>
      match mapM (fun df => table_records (df_data df)) pages with
      | Some tables => Some (concat tables)
      | None => None
      end
  | _ => None
  end.

(** ** Reasoning about runs *)

Ltac unfold_monad :=
  unfold bind, ret, raise, lift_res, print, logging_warning, logging_info,
    emit, do_requests_get, do_session_get, do_read_csv, do_now, do_sleep.

Lemma has_column_true (cols : list string) (c : string) :
  has_column cols c = true ↔ c ∈ cols.
Proof.
  unfold has_column. rewrite existsb_exists. split.
  - intros (x & Hin & Heq). apply String.eqb_eq in Heq as ->.
    by apply list_elem_of_In.
  - intros Hin. exists c. split; [by apply list_elem_of_In|].
    apply String.eqb_refl.
Qed.

Lemma add_columns_fresh (keys cols : list string) :
  NoDup (cols ++ keys) → add_columns cols keys = cols ++ keys.
Proof.
  revert cols. induction keys as [|k keys IH]; intros cols Hnd.
  - by rewrite app_nil_r.
  - unfold add_columns. simpl. fold (add_columns).
    assert (Hk : has_column cols k = false).
    { apply not_true_is_false. rewrite has_column_true.
      apply NoDup_app in Hnd as (_ & Hdisj & _). intros Hin.
      apply (Hdisj k Hin). by left. }
    rewrite Hk.
    change (foldl _ (cols ++ [k]) keys) with (add_columns (cols ++ [k]) keys).
    rewrite IH; [by rewrite <- app_assoc|]. by rewrite <- app_assoc.
Qed.

Lemma add_columns_known (keys cols : list string) :
  (∀ k, k ∈ keys → k ∈ cols) → add_columns cols keys = cols.
Proof.
  induction keys as [|k keys IH]; intros Hin; [done|].
  unfold add_columns. simpl.
  assert (Hk : has_column cols k = true).
  { apply has_column_true, Hin. by left. }
  rewrite Hk. apply IH. intros k' Hk'. apply Hin. by right.
Qed.

Lemma table_columns_known (cols : list string)
    (records : list (list (string * PyVal))) :
  Forall (fun kvs => map fst kvs = cols) records →
  foldl (fun acc kvs => add_columns acc (map fst kvs)) cols records = cols.
Proof.
  induction 1 as [|kvs records Hkvs Hall IH]; [done|].
  simpl. rewrite Hkvs, add_columns_known by done. exact IH.
Qed.

Lemma table_columns_uniform (cols : list string)
    (records : list (list (string * PyVal))) :
  NoDup cols → records ≠ [] →
  Forall (fun kvs => map fst kvs = cols) records →
  table_columns records = cols.
Proof.
  intros Hnd Hne Hall. destruct records as [|kvs records]; [done|].
  apply Forall_cons in Hall as [Hkvs Hall].
  unfold table_columns. simpl. rewrite Hkvs.
  rewrite (add_columns_fresh cols []) by done. simpl.
  by apply table_columns_known.
Qed.

Lemma assoc_get_absent (c : string) (kvs : list (string * PyVal)) :
  c ∉ map fst kvs → assoc_get c kvs = None.
Proof.
  induction kvs as [|[k v] kvs IH]; [done|]. simpl. intros Hc.
  apply not_elem_of_cons in Hc as [Hne Hc].
  apply String.eqb_neq in Hne. rewrite Hne. by apply IH.
Qed.

Lemma record_cells_rebuild (kvs : list (string * PyVal)) :
  NoDup (map fst kvs) →
  map (fun c => (c, record_cell kvs c)) (map fst kvs) = kvs.
Proof.
  induction kvs as [|[k v] kvs IH]; [done|]. simpl. intros Hnd.
  apply NoDup_cons in Hnd as [Hk Hnd].
  unfold record_cell at 1. simpl. rewrite String.eqb_refl. f_equal.
  rewrite <- (IH Hnd) at 2. apply map_ext_in. intros c Hc.
  unfold record_cell. simpl.
  assert (Hne : c ≠ k).
  { intros ->. apply Hk. by apply list_elem_of_In. }
  apply String.eqb_neq in Hne. by rewrite Hne.
Qed.

Lemma record_cell_plain (kvs : list (string * PyVal)) (c : string) :
  Forall (fun kv => plain kv.2 = true) kvs → c ∈ map fst kvs →
  plain (record_cell kvs c) = true.
Proof.
  intros Hall. induction Hall as [|[k v] kvs Hv Hall IH]; simpl.
  - intros Hc. by apply elem_of_nil in Hc.
  - intros Hc. unfold record_cell. simpl.
    destruct (String.eqb c k) eqn:Heq; [exact Hv|].
    apply String.eqb_neq in Heq. apply elem_of_cons in Hc as [Hc|Hc]; [done|].
    by apply IH.
Qed.

Lemma float_column_plain (cells : list PyVal) :
  Forall (fun v => plain v = true) cells → float_column cells = false.
Proof.
  intros Hall. unfold float_column.
  assert (Hf : existsb is_float cells = false
               ∧ existsb is_nan cells = false
               ∧ existsb is_null cells = false).
  { induction Hall as [|v cells Hv Hall (IH1 & IH2 & IH3)]; [done|].
    simpl. rewrite IH1, IH2, IH3. unfold plain in Hv.
    by destruct v. }
  destruct Hf as (-> & -> & ->). simpl. apply andb_false_r.
Qed.

(** Records that all have the same columns and plain values come out of
    [pandas.DataFrame] as they went in. *)
Lemma table_records_uniform (cols : list string) (rows : list PyVal) :
  uniform_rows cols rows → table_records (PList rows) = Some rows.
Proof.
  intros [Hnd Hrows].
  assert (Hrecs : ∃ records,
            mapM record_items rows = Some records
            ∧ rows = map PDict records
            ∧ Forall (fun kvs => map fst kvs = cols) records
            ∧ Forall (fun kvs => Forall (fun kv => plain kv.2 = true) kvs)
                records).
  { induction Hrows as [|row rows (kvs & -> & Hk & Hp) Hrows (recs & Hm & -> & Hks & Hps)].
    - by exists [].
    - exists (kvs :: recs). simpl. rewrite Hm. simpl.
      split_and!; try done; by constructor. }
  destruct Hrecs as (records & Hm & -> & Hks & Hps).
  unfold table_records. rewrite Hm. f_equal.
  destruct records as [|kvs0 records0] eqn:Hrec; [done|].
  rewrite <- Hrec in *.
  rewrite (table_columns_uniform cols records Hnd) by (by subst).
  clear Hm Hrows. apply map_ext_Forall.
  assert (Hboth : Forall (fun kvs => map fst kvs = cols
                    ∧ Forall (fun kv => plain kv.2 = true) kvs) records).
  { apply Forall_and. by split. }
  eapply Forall_impl; [exact Hboth|]. intros kvs [Hk Hp]. simpl. f_equal.
  transitivity (map (fun c => (c, record_cell kvs c)) cols).
  - apply map_ext_in. intros c Hc. f_equal.
    rewrite float_column_plain; [done|].
    apply Forall_fmap. eapply Forall_impl; [exact Hboth|].
    intros r [Hrk Hrp]. simpl. apply record_cell_plain; [done|].
    rewrite Hrk. by apply list_elem_of_In.
  - rewrite <- Hk. apply record_cells_rebuild. by rewrite Hk.
Qed.

Lemma DataFrame_call_ok {W : Type} `{World W} (data : PyVal) (df : DataFrame) :
  DataFrame_call data = Ok df → df = pd_DataFrame data.
Proof.
  unfold DataFrame_call.
  destruct data as [| | | | | |l|kvs]; try (intros [=]; done).
  destruct kvs as [|kv kvs]; [by intros [= <-]|].
  destruct (forallb _ _); [intros [=]|].
  destruct (pandas_rejects _); [intros [=]|by intros [= <-]].
Qed.

Lemma requests_made_app (l1 l2 : list Event) :
  requests_made (l1 ++ l2) = requests_made l1 ++ requests_made l2.
Proof. unfold requests_made. apply (omap_app _ l1 l2). Qed.

Lemma sleeps_made_app (l1 l2 : list Event) :
  sleeps_made (l1 ++ l2) = sleeps_made l1 ++ sleeps_made l2.
Proof. unfold sleeps_made. apply (omap_app _ l1 l2). Qed.

Lemma csv_reads_app (l1 l2 : list Event) :
  csv_reads (l1 ++ l2) = csv_reads l1 ++ csv_reads l2.
Proof. unfold csv_reads. apply (omap_app _ l1 l2). Qed.

Lemma session_gets_app (l1 l2 : list Event) :
  session_gets (l1 ++ l2) = session_gets l1 ++ session_gets l2.
Proof. unfold session_gets. apply (omap_app _ l1 l2). Qed.

Lemma range_length (n : Z) : length (range n) = Z.to_nat n.
Proof. unfold range. by rewrite length_map, length_seq. Qed.

Lemma range_succ (n : Z) : 0 <= n → range (n + 1) = range n ++ [n].
Proof.
  intros Hn. unfold range.
  replace (Z.to_nat (n + 1)) with (S (Z.to_nat n)) by lia.
  rewrite seq_S, map_app. simpl. by rewrite Z2Nat.id.
Qed.

Lemma range_nonpos (n : Z) : n <= 0 → range n = [].
Proof.
  intros Hn. unfold range. by replace (Z.to_nat n) with O by lia.
Qed.

Lemma range_attempts_cons (max_retries : Z) :
  0 <= max_retries → ∃ i rest, range (max_retries + 1) = i :: rest.
Proof.
  intros Hmax. rewrite range_succ by lia.
  destruct (range max_retries); simpl; eauto.
Qed.

Lemma always_status_fails {W : Type} `{World W} (code : Z) :
  always_status code → code ≠ 200 → always_fails.
Proof.
  intros Hs Hc url params w.
  destruct (Hs url params w) as (r & w' & Hget & Hr).
  exists r, w'. split; [done|]. by rewrite Hr.
Qed.

Lemma always_status_answer {W : Type} `{World W} (code : Z) url params w r w' :
  always_status code → requests_get url params w = (Ok r, w') →
  status_code r = code.
Proof.
  intros Hs Hget. destruct (Hs url params w) as (r0 & w0 & Hget0 & Hr).
  rewrite Hget in Hget0. by injection Hget0 as -> _.
Qed.

Section Failing.
Context {W : Type} `{World W}.
Hypothesis Hfails : always_fails.

Import RevenueReport.

(** On a service that never answers with 200, the loop of [get_report] uses
    every index: one request and one sleep per index, and it ends with
    [response] holding the answer to the last request. *)
Lemma get_report_attempts_failing params max_retries retry_interval :
  0 <= retry_interval →
  ∀ idxs response st, ∃ response' st',
    get_report_attempts params max_retries retry_interval idxs response st
      = (Ok (inr response'), st')
    ∧ requests_made (log st')
      = requests_made (log st) ++ replicate (length idxs) (ENDPOINT, params)
    ∧ sleeps_made (log st')
      = sleeps_made (log st) ++ replicate (length idxs) retry_interval
    ∧ match idxs with
      | [] => response' = response
      | _ :: _ =>
          ∃ r w0 w1,
            response' = Some r ∧ status_code r ≠ 200
            ∧ requests_get ENDPOINT params w0 = (Ok r, w1)
            ∧ world st' = time_sleep retry_interval w1
      end.
Proof using All.
  intros Hri idxs. induction idxs as [|i rest IH]; intros response st.
  - exists response, st. simpl. by rewrite !app_nil_r.
  - destruct (Hfails ENDPOINT params (world st)) as (r & w' & Hget & Hr).
    simpl. unfold bind at 1. unfold do_requests_get. rewrite Hget.
    assert (Hne : (status_code r =? 200) = false) by (apply Z.eqb_neq; lia).
    rewrite Hne. unfold_monad. simpl.
    assert (Hlt : (retry_interval <? 0) = false) by (apply Z.ltb_ge; lia).
    rewrite Hlt.
    match goal with
    | |- context [get_report_attempts _ _ _ rest (Some r) ?s] =>
        destruct (IH (Some r) s) as (resp' & st' & Hrun & Hreq & Hsl & Hlast)
    end.
    exists resp', st'. split; [exact Hrun|].
    simpl in Hreq, Hsl.
    rewrite !requests_made_app in Hreq. rewrite !sleeps_made_app in Hsl.
    simpl in Hreq, Hsl. rewrite !app_nil_r in Hreq. rewrite !app_nil_r in Hsl.
    rewrite Hreq, Hsl, <- !app_assoc. simpl.
    split; [done|]. split; [done|].
    destruct rest; [|exact Hlast]. subst resp'.
    simpl in Hrun. unfold ret in Hrun. injection Hrun as <-.
    by exists r, (world st), w'.
Qed.

(** The same for the loop of [get_report_batch]. *)
Lemma batch_attempts_failing params max_retries retry_interval :
  0 <= retry_interval →
  ∀ idxs response st, ∃ response' st',
    batch_attempts params max_retries retry_interval idxs response st
      = (Ok response', st')
    ∧ requests_made (log st')
      = requests_made (log st) ++ replicate (length idxs) (ENDPOINT, params)
    ∧ sleeps_made (log st')
      = sleeps_made (log st) ++ replicate (length idxs) retry_interval
    ∧ match idxs with
      | [] => response' = response
      | _ :: _ =>
          ∃ r w0 w1,
            response' = Some r ∧ status_code r ≠ 200
            ∧ requests_get ENDPOINT params w0 = (Ok r, w1)
            ∧ world st' = time_sleep retry_interval w1
      end.
Proof using All.
  intros Hri idxs. induction idxs as [|i rest IH]; intros response st.
  - exists response, st. simpl. by rewrite !app_nil_r.
  - destruct (Hfails ENDPOINT params (world st)) as (r & w' & Hget & Hr).
    simpl. unfold bind at 1. unfold do_requests_get. rewrite Hget.
    assert (Hne : (status_code r =? 200) = false) by (apply Z.eqb_neq; lia).
    rewrite Hne. unfold_monad. simpl.
    assert (Hlt : (retry_interval <? 0) = false) by (apply Z.ltb_ge; lia).
    rewrite Hlt.
    match goal with
    | |- context [batch_attempts _ _ _ rest (Some r) ?s] =>
        destruct (IH (Some r) s) as (resp' & st' & Hrun & Hreq & Hsl & Hlast)
    end.
    exists resp', st'. split; [exact Hrun|].
    simpl in Hreq, Hsl.
    rewrite !requests_made_app in Hreq. rewrite !sleeps_made_app in Hsl.
    simpl in Hreq, Hsl. rewrite !app_nil_r in Hreq. rewrite !app_nil_r in Hsl.
    rewrite Hreq, Hsl, <- !app_assoc. simpl.
    split; [done|]. split; [done|].
    destruct rest; [|exact Hlast]. subst resp'.
    simpl in Hrun. unfold ret in Hrun. injection Hrun as <-.
    by exists r, (world st), w'.
Qed.
End Failing.

Section Dates.
Context {W : Type} `{World W}.
Import RevenueReport.

(** What [default_dates] does, in one equation: two reads of the clock
    when a date is missing, nothing otherwise. *)
Lemma default_dates_run (start_date end_date : option string) (st : St W) :
  default_dates start_date end_date st =
  if falsy start_date || falsy end_date then
    let (now1, w1) := datetime_now (world st) in
    let (now2, w2) := datetime_now w1 in
    (Ok (strftime_ymd (now1 - 2), strftime_ymd (now2 - 1)),
     mkSt w2 (log st ++ [EvNow; EvNow]))
  else (Ok (str_or_empty start_date, str_or_empty end_date), st).
Proof.
  unfold default_dates. destruct (falsy start_date || falsy end_date); [|done].
  unfold_monad. simpl.
  destruct (datetime_now (world st)) as [now1 w1]. simpl.
  destruct (datetime_now w1) as [now2 w2]. simpl.
  by rewrite <- app_assoc.
Qed.

(** [default_dates] never fails and issues no request and no sleep. *)
Lemma default_dates_quiet (start_date end_date : option string) (st : St W) :
  ∃ dates st',
    default_dates start_date end_date st = (Ok dates, st')
    ∧ requests_made (log st') = requests_made (log st)
    ∧ sleeps_made (log st') = sleeps_made (log st).
Proof.
  rewrite default_dates_run.
  destruct (falsy start_date || falsy end_date).
  - destruct (datetime_now (world st)) as [now1 w1].
    destruct (datetime_now w1) as [now2 w2].
    eexists _, _. split; [reflexivity|]. simpl.
    rewrite requests_made_app, sleeps_made_app. simpl.
    by rewrite !app_nil_r.
  - by eexists _, _.
Qed.
End Dates.

Section FailingCalls.
Context {W : Type} `{World W}.
Variables max_retries retry_interval : Z.
Hypothesis Hfails : always_fails.
Hypothesis Hmax : 0 <= max_retries.
Hypothesis Hinterval : 0 <= retry_interval.

Import RevenueReport.

(** One turn of the [while] loop of [get_report_batch] on a service that
    never answers with 200: a full round of attempts, and an exception that
    names the status of the answer to the last of them. *)
Lemma batch_loop_failing (fr : BatchFrame) (st : St W) :
  f_has_next_batch fr = true →
  f_max_retries fr = max_retries →
  f_retry_interval fr = retry_interval →
  ∃ st' r w0 w1,
    batch_loop fr st
    = (Raise (Exception ("Error: " +:+ str_of_int (status_code r) +:+
                         "Last offset: " +:+ str_of_int (f_offset fr) +:+
                         "Batch size: " +:+ str_of_int (f_batch_size fr))),
       st')
    ∧ status_code r ≠ 200
    ∧ requests_get ENDPOINT (batch_params fr) w0 = (Ok r, w1)
    ∧ world st' = time_sleep retry_interval w1
    ∧ requests_made (log st')
      = requests_made (log st)
        ++ replicate (Z.to_nat (max_retries + 1)) (ENDPOINT, batch_params fr)
    ∧ sleeps_made (log st')
      = sleeps_made (log st)
        ++ replicate (Z.to_nat (max_retries + 1)) retry_interval.
Proof using All.
  intros Hnext Hm Hr. unfold batch_loop, batch_iteration.
  rewrite Hnext, Hm, Hr. unfold bind at 1. unfold bind at 1.
  destruct (range_attempts_cons max_retries Hmax) as (i0 & rest0 & Hidx).
  destruct (batch_attempts_failing Hfails (batch_params fr) max_retries
              retry_interval Hinterval (range (max_retries + 1)) None st)
    as (resp & st1 & Hrun & Hreq & Hsl & Hlast).
  rewrite Hrun. rewrite Hidx in Hlast.
  destruct Hlast as (r & w0 & w1 & -> & Hne & Hget & Hworld).
  replace (status_code r =? 200) with false
    by (symmetry; apply Z.eqb_neq; lia).
  unfold_monad. simpl.
  eexists _, r, w0, w1. split; [reflexivity|]. simpl.
  rewrite requests_made_app, sleeps_made_app, Hreq, Hsl, range_length. simpl.
  by rewrite !app_nil_r.
Qed.

Lemma get_report_failing self start_date end_date columns limit kwargs
    (st : St W) :
  ∃ st' dates st0 r w0 w1,
    default_dates start_date end_date st = (Ok dates, st0)
    ∧ get_report self start_date end_date columns limit max_retries
        retry_interval kwargs st
      = (Raise (Exception ("Error: " +:+ str_of_int (status_code r))), st')
    ∧ status_code r ≠ 200
    ∧ requests_get ENDPOINT
        (get_report_params self dates.1 dates.2 columns limit kwargs) w0
      = (Ok r, w1)
    ∧ world st' = time_sleep retry_interval w1
    ∧ requests_made (log st')
      = requests_made (log st)
        ++ replicate (Z.to_nat (max_retries + 1))
             (ENDPOINT,
              get_report_params self dates.1 dates.2 columns limit kwargs)
    ∧ sleeps_made (log st')
      = sleeps_made (log st)
        ++ replicate (Z.to_nat (max_retries + 1)) retry_interval.
Proof using All.
  unfold get_report. unfold bind at 1.
  destruct (default_dates_quiet start_date end_date st)
    as (dates & st0 & Hdates & Hreq0 & Hsl0).
  rewrite Hdates. unfold bind at 1.
  destruct (range_attempts_cons max_retries Hmax) as (i0 & rest0 & Hidx).
  destruct (get_report_attempts_failing Hfails
              (get_report_params self dates.1 dates.2 columns limit kwargs)
              max_retries retry_interval Hinterval (range (max_retries + 1))
              None st0)
    as (resp & st1 & Hrun & Hreq & Hsl & Hlast).
  rewrite Hrun. rewrite Hidx in Hlast.
  destruct Hlast as (r & w0 & w1 & -> & Hne & Hget & Hworld).
  unfold_monad. simpl.
  eexists _, dates, st0, r, w0, w1. split; [reflexivity|].
  split; [reflexivity|]. simpl.
  rewrite requests_made_app, sleeps_made_app, Hreq, Hsl, Hreq0, Hsl0,
    range_length. simpl.
  by rewrite !app_nil_r.
Qed.

Lemma first_page_failing self start_date end_date columns batch_size kwargs
    (st : St W) :
  ∃ st' dates st0 r w0 w1,
    default_dates start_date end_date st = (Ok dates, st0)
    ∧ next (get_report_batch self start_date end_date columns batch_size
              max_retries retry_interval kwargs) st
      = (Raise (Exception ("Error: " +:+ str_of_int (status_code r) +:+
                           "Last offset: " +:+ str_of_int 0 +:+
                           "Batch size: " +:+ str_of_int batch_size)), st')
    ∧ status_code r ≠ 200
    ∧ requests_get ENDPOINT
        (batch_params
           (mkFrame self dates.1 dates.2 columns batch_size max_retries
              retry_interval kwargs 0 true)) w0
      = (Ok r, w1)
    ∧ world st' = time_sleep retry_interval w1
    ∧ requests_made (log st')
      = requests_made (log st)
        ++ replicate (Z.to_nat (max_retries + 1))
             (ENDPOINT,
              batch_params
                (mkFrame self dates.1 dates.2 columns batch_size max_retries
                   retry_interval kwargs 0 true))
    ∧ sleeps_made (log st')
      = sleeps_made (log st)
        ++ replicate (Z.to_nat (max_retries + 1)) retry_interval.
Proof using All.
  unfold get_report_batch, next. unfold bind at 1.
  destruct (default_dates_quiet start_date end_date st)
    as (dates & st0 & Hdates & Hreq0 & Hsl0).
  rewrite Hdates.
  match goal with
  | |- context [batch_loop ?fr st0] =>
      destruct (batch_loop_failing fr st0 eq_refl eq_refl eq_refl)
        as (st' & r & w0 & w1 & Hrun & Hne & Hget & Hworld & Hreq & Hsl)
  end.
  simpl in Hrun, Hreq, Hsl, Hget. rewrite Hrun.
  eexists _, dates, st0, r, w0, w1. split; [reflexivity|].
  split; [reflexivity|]. by rewrite Hreq, Hsl, Hreq0, Hsl0.
Qed.
End FailingCalls.

Section ExhaustedRetries.
Context {W : Type} `{World W}.
Import RevenueReport.

(** C1. With [max_retries = N >= 0] and a service that answers every
    request with a status other than 200 (always 503, say),
    [RevenueReport.get_report] and every page of [get_report_batch] (the
    first one and any later one) make exactly [N + 1] requests, all with
    the same parameters, and then raise an [Exception] whose message is
    ["Error: "] and the status of the answer to the last of these requests
    (for a page, followed by ["Last offset: "], the offset, ["Batch size: "]
    and the page size); on a service that always answers with the same
    status, that status. *)
Theorem retries_exhausted_after_all_attempts (max_retries retry_interval : Z) :
  always_fails → 0 <= max_retries → 0 <= retry_interval →
  (∀ self start_date end_date columns limit kwargs (st : St W),
     ∃ st' params r w_before w_after,
       get_report self start_date end_date columns limit max_retries
         retry_interval kwargs st
       = (Raise (Exception ("Error: " +:+ str_of_int (status_code r))), st')
       ∧ requests_made (log st')
         = requests_made (log st)
           ++ replicate (Z.to_nat (max_retries + 1)) (ENDPOINT, params)
       ∧ requests_get ENDPOINT params w_before = (Ok r, w_after)
       ∧ world st' = time_sleep retry_interval w_after
       ∧ ∀ code, always_status code → status_code r = code)
  ∧ (∀ fr (st : St W),
       f_has_next_batch fr = true →
       f_max_retries fr = max_retries →
       f_retry_interval fr = retry_interval →
       ∃ st' r w_before w_after,
         next (GenSuspended fr) st
         = (Raise (Exception ("Error: " +:+ str_of_int (status_code r) +:+
                              "Last offset: " +:+ str_of_int (f_offset fr) +:+
                              "Batch size: " +:+
                              str_of_int (f_batch_size fr))), st')
         ∧ requests_made (log st')
           = requests_made (log st)
             ++ replicate (Z.to_nat (max_retries + 1))
                  (ENDPOINT, batch_params fr)
         ∧ requests_get ENDPOINT (batch_params fr) w_before = (Ok r, w_after)
         ∧ world st' = time_sleep retry_interval w_after
         ∧ ∀ code, always_status code → status_code r = code)
  ∧ (∀ self start_date end_date columns batch_size kwargs (st : St W),
       ∃ st' params r w_before w_after,
         next (get_report_batch self start_date end_date columns batch_size
                 max_retries retry_interval kwargs) st
         = (Raise (Exception ("Error: " +:+ str_of_int (status_code r) +:+
                              "Last offset: " +:+ str_of_int 0 +:+
                              "Batch size: " +:+ str_of_int batch_size)), st')
         ∧ requests_made (log st')
           = requests_made (log st)
             ++ replicate (Z.to_nat (max_retries + 1)) (ENDPOINT, params)
         ∧ requests_get ENDPOINT params w_before = (Ok r, w_after)
         ∧ world st' = time_sleep retry_interval w_after
         ∧ ∀ code, always_status code → status_code r = code).
Proof.
  intros Hfails Hmax Hri. split; [|split].
  - intros self start_date end_date columns limit kwargs st.
    destruct (get_report_failing max_retries retry_interval Hfails Hmax Hri
                self start_date end_date columns limit kwargs st)
      as (st' & dates & st0 & r & w0 & w1 & _ & Hrun & _ & Hget & Hw & Hreq
          & _).
    exists st', (get_report_params self dates.1 dates.2 columns limit kwargs),
      r, w0, w1.
    split_and!; try done.
    intros code Hs. by apply (always_status_answer code _ _ _ _ _ Hs Hget).
  - intros fr st Hnext Hm Hr. simpl.
    destruct (batch_loop_failing max_retries retry_interval Hfails Hmax Hri
                fr st Hnext Hm Hr)
      as (st' & r & w0 & w1 & Hrun & _ & Hget & Hw & Hreq & _).
    exists st', r, w0, w1. split_and!; try done.
    intros code Hs. by apply (always_status_answer code _ _ _ _ _ Hs Hget).
  - intros self start_date end_date columns batch_size kwargs st.
    destruct (first_page_failing max_retries retry_interval Hfails Hmax Hri
                self start_date end_date columns batch_size kwargs st)
      as (st' & dates & st0 & r & w0 & w1 & _ & Hrun & _ & Hget & Hw & Hreq
          & _).
    exists st',
      (batch_params
         (mkFrame self dates.1 dates.2 columns batch_size max_retries
            retry_interval kwargs 0 true)), r, w0, w1.
    split_and!; try done.
    intros code Hs. by apply (always_status_answer code _ _ _ _ _ Hs Hget).
Qed.
End ExhaustedRetries.

Lemma retries_exhausted_witness :
  @always_fails nat counting_world ∧ 0 <= 3 ∧ 0 <= 0
  ∧ (∃ st',
       @RevenueReport.get_report nat counting_world
         (RevenueReport.mk (PStr "KEY")) None None ["day"] 100000 3 0 ∅
         (init_state O)
       = (Raise (Exception "Error: 503"), st')
       ∧ length (requests_made (log st')) = 4%nat)
  ∧ ∃ st',
      @RevenueReport.next nat counting_world
        (RevenueReport.get_report_batch (RevenueReport.mk (PStr "KEY")) None
           None ["day"] 2 3 0 ∅)
        (init_state O)
      = (Raise (Exception "Error: 503Last offset: 0Batch size: 2"), st')
      ∧ length (requests_made (log st')) = 4%nat.
Proof.
  assert (Hs : @always_fails nat counting_world).
  { intros url params w. eexists _, _. split; [reflexivity|]. simpl. lia. }
  assert (H3 : 0 <= 3) by lia.
  assert (H0 : 0 <= 0) by lia.
  split; [exact Hs|]. split; [exact H3|]. split; [exact H0|].
  destruct (@retries_exhausted_after_all_attempts nat counting_world 3 0
              Hs H3 H0) as (Hget & _ & Hfirst).
  split.
  - destruct (Hget (RevenueReport.mk (PStr "KEY")) None None ["day"] 100000 ∅
                (init_state O))
      as (st' & params & r & w0 & w1 & Hrun & Hreq & _).
    exists st'. split; [|by rewrite Hreq].
    rewrite Hrun. vm_compute in Hrun. by injection Hrun as -> _.
  - destruct (Hfirst (RevenueReport.mk (PStr "KEY")) None None ["day"] 2 ∅
                (init_state O))
      as (st' & params & r & w0 & w1 & Hrun & Hreq & _).
    exists st'. split; [|by rewrite Hreq].
    rewrite Hrun. vm_compute in Hrun. by injection Hrun as -> _.
Defined.

Section AnyService.
Context {W : Type} `{World W}.
Import RevenueReport.

(** Whatever the service does, the loop of [get_report] sends the same
    request each time, at least once when there is an index and at most
    once per index. *)
Lemma get_report_attempts_requests params max_retries retry_interval :
  ∀ idxs response st res st',
    get_report_attempts params max_retries retry_interval idxs response st
      = (res, st') →
    ∃ n : nat,
      (n ≤ length idxs)%nat ∧ (idxs ≠ [] → (1 ≤ n)%nat)
      ∧ requests_made (log st')
        = requests_made (log st) ++ replicate n (ENDPOINT, params).
Proof.
  induction idxs as [|i rest IH]; intros response st res st' Hrun.
  - exists O. simpl in *. unfold ret in Hrun. inversion Hrun; subst.
    rewrite app_nil_r. repeat split; [lia|done].
  - simpl in Hrun. unfold bind at 1 in Hrun. unfold do_requests_get in Hrun.
    destruct (requests_get ENDPOINT params (world st)) as [[r|e] w'].
    + destruct (status_code r =? 200).
      * exists 1%nat. simpl. repeat split; [lia|lia|].
        revert Hrun. unfold_monad.
        destruct (response_json r) as [body|e]; simpl;
          [destruct (py_getitem body "results") as [results0|]; simpl;
           [destruct (DataFrame_call results0); simpl|]|];
          intros Hrun; inversion Hrun; subst; simpl;
          rewrite requests_made_app; reflexivity.
      * revert Hrun. unfold bind at 1. unfold print, emit. simpl.
        unfold bind at 1. unfold do_sleep. simpl.
        destruct (retry_interval <? 0).
        -- intros Hrun. inversion Hrun; subst. exists 1%nat. simpl.
           repeat split; [lia|lia|]. rewrite !requests_made_app. simpl.
           by rewrite app_nil_r.
        -- intros Hrun. apply IH in Hrun as (n & Hle & _ & Hreq).
           exists (S n). simpl. repeat split; [lia|lia|].
           rewrite Hreq. simpl. rewrite !requests_made_app. simpl.
           by rewrite !app_nil_r, <- app_assoc.
    + inversion Hrun; subst. exists 1%nat. simpl. repeat split; [lia|lia|].
      by rewrite requests_made_app.
Qed.
(** Whatever the service does, the loop of [get_report_batch] sends the
    same request each time, at least once when there is an index; and with
    no index it ends without a response. *)
Lemma batch_attempts_requests params max_retries retry_interval :
  ∀ idxs response (st : St W) res st',
    batch_attempts params max_retries retry_interval idxs response st
      = (res, st') →
    (idxs = [] → res = Ok response)
    ∧ ∃ n : nat,
        (n ≤ length idxs)%nat ∧ (idxs ≠ [] → (1 ≤ n)%nat)
        ∧ requests_made (log st')
          = requests_made (log st) ++ replicate n (ENDPOINT, params).
Proof.
  induction idxs as [|i rest IH]; intros response st res st' Hrun.
  - simpl in Hrun. unfold ret in Hrun. inversion Hrun; subst.
    split; [done|]. exists O. rewrite app_nil_r. repeat split; [lia|done].
  - split; [done|].
    simpl in Hrun. unfold bind at 1 in Hrun. unfold do_requests_get in Hrun.
    destruct (requests_get ENDPOINT params (world st)) as [[r|e] w'].
    + destruct (status_code r =? 200).
      * exists 1%nat. simpl. repeat split; [lia|lia|].
        unfold ret in Hrun. inversion Hrun; subst; simpl.
        by rewrite requests_made_app.
      * revert Hrun. unfold bind at 1. unfold print, emit. simpl.
        unfold bind at 1. unfold do_sleep. simpl.
        destruct (retry_interval <? 0).
        -- intros Hrun. inversion Hrun; subst. exists 1%nat. simpl.
           repeat split; [lia|lia|]. rewrite !requests_made_app. simpl.
           by rewrite app_nil_r.
        -- intros Hrun. apply IH in Hrun as (_ & n & Hle & _ & Hreq).
           exists (S n). simpl. repeat split; [lia|lia|].
           rewrite Hreq. simpl. rewrite !requests_made_app. simpl.
           by rewrite !app_nil_r, <- app_assoc.
    + inversion Hrun; subst. exists 1%nat. simpl. repeat split; [lia|lia|].
      by rewrite requests_made_app.
Qed.

(** A turn of the [while] loop that yields a table leaves the frame with
    [has_next_batch] set by the comparison of line 144 and the offset moved
    on by the page size; and it can only have happened with an attempt to
    make. *)
Lemma batch_loop_yield (fr : BatchFrame) (st st' : St W) df g' :
  batch_loop fr st = (Ok (Some df, g'), st') →
  ∃ n,
    py_len (df_data df) = Ok n
    ∧ g' = GenSuspended
             (mkFrame (f_self fr) (f_start_date fr) (f_end_date fr)
                (f_columns fr) (f_batch_size fr) (f_max_retries fr)
                (f_retry_interval fr) (f_kwargs fr)
                (f_offset fr + f_batch_size fr) (n =? f_batch_size fr))
    ∧ range (f_max_retries fr + 1) ≠ [].
Proof.
  unfold batch_loop, batch_iteration.
  destruct (f_has_next_batch fr); [|unfold ret; intros [=]].
  unfold bind at 1. unfold bind at 1.
  destruct (batch_attempts _ _ _ _ _ st) as [res st1] eqn:Hloop.
  apply batch_attempts_requests in Hloop as [Hnil _].
  destruct res as [[response|]|e]; [| |intros [=]].
  - destruct (negb (status_code response =? 200)).
    + unfold_monad. simpl. intros [=].
    + unfold_monad. simpl.
      destruct (response_json response) as [body|e]; simpl; [|intros [=]].
      destruct (py_getitem body "results") as [results|e]; simpl;
        [|intros [=]].
      destruct (py_len results) as [n|e] eqn:Hlen; simpl; [|intros [=]].
      destruct (DataFrame_call results) as [df0|e] eqn:Hdf; simpl;
        [|intros [=]].
      apply DataFrame_call_ok in Hdf as ->.
      intros [= <- <- <-]. exists n. simpl. repeat split; [done|].
      intros Hempty. specialize (Hnil Hempty). discriminate Hnil.
  - unfold raise. intros [=].
Qed.

(** Every request of a call of [get_report] carries the parameters built
    from the dates that [default_dates] decided, and there is at least one
    when [max_retries] is not negative. *)
Lemma get_report_requests self start_date end_date columns limit max_retries
    retry_interval kwargs (st : St W) res st' :
  0 <= max_retries →
  get_report self start_date end_date columns limit max_retries
    retry_interval kwargs st = (res, st') →
  ∃ dates st0 (n : nat),
    default_dates start_date end_date st = (Ok dates, st0)
    ∧ requests_made (log st')
      = requests_made (log st)
        ++ replicate (S n)
             (ENDPOINT,
              get_report_params self dates.1 dates.2 columns limit kwargs).
Proof.
  intros Hmax.
  unfold get_report. unfold bind at 1.
  destruct (default_dates_quiet start_date end_date st)
    as (dates & st0 & Hdates & Hreq0 & _).
  rewrite Hdates. unfold bind at 1.
  destruct (get_report_attempts _ _ _ _ _ st0) as [r st1] eqn:Hloop.
  apply get_report_attempts_requests in Hloop as (n & _ & Hpos & Hreq).
  assert (Hn : (1 ≤ n)%nat).
  { apply Hpos. rewrite range_succ by lia. by destruct (range max_retries). }
  destruct n as [|n]; [lia|].
  intros Hrun. exists dates, st0, n. split; [done|].
  rewrite <- Hreq0, <- Hreq.
  destruct r as [a|e]; [destruct a as [df|response]|].
  - inversion Hrun; by subst.
  - revert Hrun. unfold_monad. simpl.
    destruct response; intros Hrun; inversion Hrun; subst; simpl;
      rewrite requests_made_app; simpl; by rewrite app_nil_r.
  - inversion Hrun; by subst.
Qed.

(** Every request of a turn of the [while] loop carries the parameters
    built from the frame, and there is at least one when [max_retries] is
    not negative. *)
Lemma batch_loop_requests (fr : BatchFrame) (st : St W) res st' :
  0 <= f_max_retries fr →
  f_has_next_batch fr = true →
  batch_loop fr st = (res, st') →
  ∃ n : nat,
    requests_made (log st')
    = requests_made (log st) ++ replicate (S n) (ENDPOINT, batch_params fr).
Proof.
  intros Hmax Hnext. unfold batch_loop, batch_iteration. rewrite Hnext.
  unfold bind at 1. unfold bind at 1.
  destruct (batch_attempts _ _ _ _ _ st) as [r st1] eqn:Hloop.
  apply batch_attempts_requests in Hloop as (_ & n & _ & Hpos & Hreq).
  assert (Hn : (1 ≤ n)%nat).
  { apply Hpos. rewrite range_succ by lia.
    by destruct (range (f_max_retries fr)). }
  destruct n as [|n]; [lia|].
  intros Hrun. exists n. rewrite <- Hreq.
  destruct r as [[response|]|e].
  - revert Hrun. destruct (negb (status_code response =? 200)).
    + unfold_monad. simpl. intros [= <- <-]. simpl.
      rewrite requests_made_app. simpl. by rewrite app_nil_r.
    + unfold_monad. simpl.
      destruct (response_json response) as [body|]; simpl;
        [destruct (py_getitem body "results") as [results|]; simpl;
         [destruct (py_len results); simpl;
          [destruct (DataFrame_call results); simpl|]|]|];
        intros [= <- <-]; done.
  - revert Hrun. unfold raise. intros [= <- <-]. done.
  - inversion Hrun; by subst.
Qed.

(** The first [next] on a new generator: the dates are decided as in
    [get_report], the requests carry the parameters of the first frame, and
    the frame kept across the [yield] still holds those dates. *)
Lemma first_page_requests self start_date end_date columns batch_size
    max_retries retry_interval kwargs (st : St W) res st' :
  0 <= max_retries →
  next (get_report_batch self start_date end_date columns batch_size
          max_retries retry_interval kwargs) st = (res, st') →
  ∃ dates st0 (n : nat),
    default_dates start_date end_date st = (Ok dates, st0)
    ∧ requests_made (log st')
      = requests_made (log st)
        ++ replicate (S n)
             (ENDPOINT,
              batch_params
                (mkFrame self dates.1 dates.2 columns batch_size max_retries
                   retry_interval kwargs 0 true))
    ∧ ∀ df g',
        res = Ok (Some df, g') →
        ∃ size,
          py_len (df_data df) = Ok size
          ∧ g' = GenSuspended
                   (mkFrame self dates.1 dates.2 columns batch_size
                      max_retries retry_interval kwargs (0 + batch_size)
                      (size =? batch_size)).
Proof.
  intros Hmax. unfold get_report_batch, next. unfold bind at 1.
  destruct (default_dates_quiet start_date end_date st)
    as (dates & st0 & Hdates & Hreq0 & _).
  rewrite Hdates. intros Hrun. exists dates, st0.
  pose proof Hrun as Hloop.
  apply batch_loop_requests in Hloop as (n & Hreq); [|exact Hmax|reflexivity].
  exists n. split; [done|]. split; [by rewrite <- Hreq0|].
  intros df g' ->. apply batch_loop_yield in Hrun as (size & Hlen & -> & _).
  by exists size.
Qed.
End AnyService.

Section DateDefaults.
Context {W : Type} `{World W}.
Import RevenueReport.

(** C10. In [get_report] and in [get_report_batch] alike, when either date
    is missing ([None] or empty) both dates are replaced: the start by the
    day two before a first reading of the clock, the end by the day one
    before a second reading, so that a date supplied for the other one is
    dropped and the call behaves as if no date had been given. Only when
    both are non-empty are they used as given, with no reading of the
    clock. The dates so decided are the ones that the requests are built
    from: every request of [get_report], and every request of the first page
    of [get_report_batch], of which there is at least one, carries them as
    [start] and [end] (the extra arguments not naming these), and the
    generator keeps them for the pages that follow. *)
Theorem date_defaults_are_coupled
    (start_date end_date : option string) (st : St W) :
  (falsy start_date = true ∨ falsy end_date = true →
     default_dates start_date end_date st
     = (let (now1, w1) := datetime_now (world st) in
        let (now2, w2) := datetime_now w1 in
        (Ok (strftime_ymd (now1 - 2), strftime_ymd (now2 - 1)),
         mkSt w2 (log st ++ [EvNow; EvNow])))
     ∧ (∀ self columns limit max_retries retry_interval kwargs,
          get_report self start_date end_date columns limit max_retries
            retry_interval kwargs st
          = get_report self None None columns limit max_retries
              retry_interval kwargs st)
     ∧ (∀ self columns batch_size max_retries retry_interval kwargs,
          next (get_report_batch self start_date end_date columns batch_size
                  max_retries retry_interval kwargs) st
          = next (get_report_batch self None None columns batch_size
                    max_retries retry_interval kwargs) st))
  ∧ (falsy start_date = false → falsy end_date = false →
       ∃ s e, start_date = Some s ∧ end_date = Some e ∧ s ≠ "" ∧ e ≠ ""
              ∧ default_dates start_date end_date st = (Ok (s, e), st))
  ∧ (∀ self columns limit max_retries retry_interval kwargs res st',
       0 <= max_retries →
       get_report self start_date end_date columns limit max_retries
         retry_interval kwargs st = (res, st') →
       ∃ dates st0 (n : nat),
         default_dates start_date end_date st = (Ok dates, st0)
         ∧ requests_made (log st')
           = requests_made (log st)
             ++ replicate (S n)
                  (ENDPOINT,
                   get_report_params self dates.1 dates.2 columns limit
                     kwargs))
  ∧ (∀ self columns batch_size max_retries retry_interval kwargs res st',
       0 <= max_retries →
       next (get_report_batch self start_date end_date columns batch_size
               max_retries retry_interval kwargs) st = (res, st') →
       ∃ dates st0 (n : nat),
         default_dates start_date end_date st = (Ok dates, st0)
         ∧ requests_made (log st')
           = requests_made (log st)
             ++ replicate (S n)
                  (ENDPOINT,
                   batch_params
                     (mkFrame self dates.1 dates.2 columns batch_size
                        max_retries retry_interval kwargs 0 true))
         ∧ ∀ df g',
             res = Ok (Some df, g') →
             ∃ fr, g' = GenSuspended fr
                   ∧ f_start_date fr = dates.1 ∧ f_end_date fr = dates.2)
  ∧ (∀ fr res st',
       0 <= f_max_retries fr → f_has_next_batch fr = true →
       next (GenSuspended fr) st = (res, st') →
       (∃ n : nat,
          requests_made (log st')
          = requests_made (log st)
            ++ replicate (S n) (ENDPOINT, batch_params fr))
       ∧ ∀ df g',
           res = Ok (Some df, g') →
           ∃ fr', g' = GenSuspended fr'
                  ∧ f_start_date fr' = f_start_date fr
                  ∧ f_end_date fr' = f_end_date fr)
  ∧ (∀ self s e columns limit batch_size max_retries retry_interval kwargs
       offset has_next,
       kwargs !! "start" = None → kwargs !! "end" = None →
       get_report_params self s e columns limit kwargs !! "start"
       = Some (PStr s)
       ∧ get_report_params self s e columns limit kwargs !! "end"
         = Some (PStr e)
       ∧ batch_params (mkFrame self s e columns batch_size max_retries
                         retry_interval kwargs offset has_next) !! "start"
         = Some (PStr s)
       ∧ batch_params (mkFrame self s e columns batch_size max_retries
                         retry_interval kwargs offset has_next) !! "end"
         = Some (PStr e)).
Proof.
  split_and!.
  - intros Hmissing.
    assert (Hor : falsy start_date || falsy end_date = true).
    { destruct Hmissing as [-> | ->]; [done|by rewrite orb_true_r]. }
    assert (Hsame : default_dates start_date end_date st
                    = default_dates None None st).
    { rewrite !default_dates_run, Hor. reflexivity. }
    split; [|split].
    + by rewrite default_dates_run, Hor.
    + intros. unfold get_report, bind. by rewrite Hsame.
    + intros. unfold get_report_batch, next, bind. by rewrite Hsame.
  - intros Hs He. destruct start_date as [s|]; [|done].
    destruct end_date as [e|]; [|done].
    exists s, e. simpl in Hs, He.
    repeat split; try (intros ->; discriminate).
    rewrite default_dates_run. simpl. by rewrite Hs, He.
  - intros self columns limit max_retries retry_interval kwargs res st' Hmax
      Hrun.
    by apply get_report_requests in Hrun.
  - intros self columns batch_size max_retries retry_interval kwargs res st'
      Hmax Hrun.
    apply first_page_requests in Hrun
      as (dates & st0 & n & Hdates & Hreq & Hgen); [|exact Hmax].
    exists dates, st0, n. split; [done|]. split; [done|].
    intros df g' Hres. destruct (Hgen df g' Hres) as (size & _ & ->).
    by eexists.
  - intros fr res st' Hmax Hnext Hrun. simpl in Hrun. split.
    + by eapply batch_loop_requests.
    + intros df g' ->.
      apply batch_loop_yield in Hrun as (size & _ & -> & _). by eexists.
  - intros self s e columns limit batch_size max_retries retry_interval kwargs
      offset has_next Hstart Hend.
    unfold get_report_params, batch_params, dict_update. simpl.
    rewrite !lookup_union_r by done. split_and!; by simplify_map_eq.
Qed.
End DateDefaults.

Lemma date_defaults_witness :
  (falsy (Some "2023-05-14") = true ∨ falsy None = true)
  ∧ @RevenueReport.default_dates unit (dataset_world []) (Some "2023-05-14") None
      (init_state tt)
    = (Ok ("day 19498", "day 19499"), mkSt tt [EvNow; EvNow]).
Proof.
  assert (Hm : falsy (Some "2023-05-14") = true ∨ falsy None = true)
    by (right; reflexivity).
  split; [exact Hm|].
  destruct (@date_defaults_are_coupled unit (dataset_world [])
              (Some "2023-05-14") None (init_state tt)) as [Hmissing _].
  destruct (Hmissing Hm) as [Hrun _]. exact Hrun.
Defined.

Section NoData.
Context {W : Type} `{World W}.
Import UserAdRevenueReport.

(** C5. When the per-user-revenue endpoint answers the request of
    [UserAdRevenueReport.get_report] with status 404, whatever the
    arguments, the call returns normally with [pd.DataFrame()], a table of
    no rows; it does not raise, and it does not go on to read any CSV. *)
Theorem user_report_404_gives_empty_table
    (self : t) (date : string) (aggregated : bool)
    (application store_id platform : string) (kwargs : gmap string PyVal)
    (st : St W) (r : Response) (w' : W) :
  session_get (session self) ENDPOINT
    (platform_params self date aggregated application store_id platform
       kwargs).1.1 (world st) = (Ok r, w') →
  status_code r = 404 →
  ∃ df st',
    get_report self date aggregated application store_id platform kwargs st
      = (Ok df, st')
    ∧ df = pd_DataFrame PNone
    ∧ df_rows df = []
    ∧ world st' = w'
    ∧ csv_reads (log st') = csv_reads (log st).
Proof.
  intros Hget H404. unfold get_report.
  destruct (platform_params self date aggregated application store_id
              platform kwargs) as [[params app_id] wrong].
  simpl in Hget.
  destruct wrong; unfold_monad; simpl; rewrite Hget, H404; simpl;
    eexists _, _; (split; [reflexivity|]); repeat split; simpl;
    rewrite !csv_reads_app; simpl; by rewrite !app_nil_r.
Qed.
End NoData.

Lemma user_report_404_witness :
  ∃ st',
    @UserAdRevenueReport.get_report unit (constant_world response_404)
      default_user_service "2023-05-14" true "com.example.app" "" "android" ∅ (init_state tt)
    = (Ok (pd_DataFrame PNone), st').
Proof.
  destruct (@user_report_404_gives_empty_table unit (constant_world response_404)
              default_user_service "2023-05-14" true "com.example.app" "" "android" ∅
              (init_state tt) response_404 tt eq_refl eq_refl)
    as (df & st' & Hrun & -> & _).
  by exists st'.
Defined.

Section UserReportCalls.
Context {W : Type} `{World W}.
Import UserAdRevenueReport.

(** [UserAdRevenueReport.get_report] has no loop: whatever the outcome, it
    calls [session.get] once, with the parameters it built, and never
    [requests.get]; an exception of [session.get] leaves it unchanged. *)
Lemma user_get_report_single_call self date aggregated application store_id
    platform kwargs (st : St W) :
  ∃ res st',
    get_report self date aggregated application store_id platform kwargs st
      = (res, st')
    ∧ session_gets (log st')
      = session_gets (log st)
        ++ [(ENDPOINT,
             (platform_params self date aggregated application store_id
                platform kwargs).1.1)]
    ∧ requests_made (log st') = requests_made (log st)
    ∧ ∀ e w',
        session_get (session self) ENDPOINT
          (platform_params self date aggregated application store_id
             platform kwargs).1.1 (world st) = (Raise e, w') →
        res = Raise e.
Proof.
  unfold get_report.
  destruct (platform_params self date aggregated application store_id
              platform kwargs) as [[params app_id] wrong].
  simpl.
  destruct wrong; unfold_monad; simpl;
    destruct (session_get (session self) ENDPOINT params (world st))
      as [[r|e] w1]; simpl;
    try (eexists _, _; split; [reflexivity|]; simpl;
         rewrite ?session_gets_app, ?requests_made_app; simpl;
         rewrite ?app_nil_r, <- ?app_assoc;
         repeat split; try done; intros ? ? [=]; by subst).
  all: destruct (status_code r =? 404); simpl;
    [|destruct (response_json r) as [body|e]; simpl;
      [destruct (py_getitem body "ad_revenue_report_url") as [url|e]; simpl;
       [destruct url; simpl;
        try destruct (pd_read_csv s DtypeObject w1) as [[df|e] w2]; simpl|]|]];
    eexists _, _; (split; [reflexivity|]); simpl;
    rewrite ?session_gets_app, ?requests_made_app; simpl;
    rewrite ?app_nil_r, <- ?app_assoc; repeat split; try done;
    intros ? ? [=].
Qed.
End UserReportCalls.

(** C3, the claim at a concrete call: with [max_retries = 3] and a service
    that answers 400, [RevenueReport.get_report] does not stop at the first
    response; it makes four requests, three of them after the first 400,
    before it raises. *)
Lemma status_400_is_retried :
  run_against_400.1 = Raise (Exception "Error: 400")
  ∧ length (requests_made (log run_against_400.2)) = 4%nat
  ∧ ¬ (length (requests_made (log run_against_400.2)) = 1%nat).
Proof. vm_compute. repeat split. discriminate. Qed.

Section NoTerminalStatus.
Context {W : Type} `{World W}.

(** C3, amended. [RevenueReport] knows no terminal status: any status other
    than 200, 400 included, is handled like every other failure. With
    [max_retries = N >= 0] and a service that keeps answering it,
    [get_report] and every page of [get_report_batch], the first one as much
    as a later one, make [N + 1] requests and sleep [retry_interval] after
    each of them before they raise an [Exception] whose message is
    ["Error: "] and that status (for a page, followed by the offset and the
    page size), so the attempts after the first are [N], not zero.
    [UserAdRevenueReport.get_report] has no retry loop of its own: it calls
    [session.get] once, whatever the answer, on a session whose [https]
    adapter carries [Retry(total=max_retries, backoff_factor=retry_delay,
    status_forcelist=status_retries)], and 400 is not among the default
    [STATUS_RETRIES]. *)
Theorem any_non_200_status_uses_all_attempts
    (code max_retries retry_interval : Z) :
  always_status code → code ≠ 200 → 0 <= max_retries → 0 <= retry_interval →
  (∀ self start_date end_date columns limit kwargs (st : St W),
     ∃ st' params,
       RevenueReport.get_report self start_date end_date columns limit
         max_retries retry_interval kwargs st
       = (Raise (Exception ("Error: " +:+ str_of_int code)), st')
       ∧ requests_made (log st')
         = requests_made (log st)
           ++ replicate (S (Z.to_nat max_retries))
                (RevenueReport.ENDPOINT, params)
       ∧ sleeps_made (log st')
         = sleeps_made (log st)
           ++ replicate (S (Z.to_nat max_retries)) retry_interval)
  ∧ (∀ fr (st : St W),
       RevenueReport.f_has_next_batch fr = true →
       RevenueReport.f_max_retries fr = max_retries →
       RevenueReport.f_retry_interval fr = retry_interval →
       ∃ st',
         RevenueReport.next (RevenueReport.GenSuspended fr) st
         = (Raise (Exception
                     ("Error: " +:+ str_of_int code +:+
                      "Last offset: " +:+
                      str_of_int (RevenueReport.f_offset fr) +:+
                      "Batch size: " +:+
                      str_of_int (RevenueReport.f_batch_size fr))), st')
         ∧ requests_made (log st')
           = requests_made (log st)
             ++ replicate (S (Z.to_nat max_retries))
                  (RevenueReport.ENDPOINT, RevenueReport.batch_params fr)
         ∧ sleeps_made (log st')
           = sleeps_made (log st)
             ++ replicate (S (Z.to_nat max_retries)) retry_interval)
  ∧ (∀ self start_date end_date columns batch_size kwargs (st : St W),
       ∃ st' params,
         RevenueReport.next
           (RevenueReport.get_report_batch self start_date end_date columns
              batch_size max_retries retry_interval kwargs) st
         = (Raise (Exception
                     ("Error: " +:+ str_of_int code +:+
                      "Last offset: " +:+ str_of_int 0 +:+
                      "Batch size: " +:+ str_of_int batch_size)), st')
         ∧ requests_made (log st')
           = requests_made (log st)
             ++ replicate (S (Z.to_nat max_retries))
                  (RevenueReport.ENDPOINT, params)
         ∧ sleeps_made (log st')
           = sleeps_made (log st)
             ++ replicate (S (Z.to_nat max_retries)) retry_interval)
  ∧ (∀ self date aggregated application store_id platform kwargs (st : St W),
       ∃ res st' params,
         UserAdRevenueReport.get_report self date aggregated application
           store_id platform kwargs st = (res, st')
         ∧ session_gets (log st')
           = session_gets (log st) ++ [(UserAdRevenueReport.ENDPOINT, params)])
  ∧ (∀ api_key status_retries user_max_retries retry_delay,
       adapters (UserAdRevenueReport.session
                   (UserAdRevenueReport.__init__ api_key status_retries
                      user_max_retries retry_delay)) !! 0%nat
       = Some ("https://", mkRetry user_max_retries retry_delay status_retries))
  ∧ 400 ∉ UserAdRevenueReport.STATUS_RETRIES.
Proof.
  intros Hserver Hcode Hmax Hri.
  assert (Hfails : always_fails) by (by apply (always_status_fails code)).
  assert (HS : Z.to_nat (max_retries + 1) = S (Z.to_nat max_retries)) by lia.
  split; [|split; [|split; [|split; [|split]]]].
  - intros self start_date end_date columns limit kwargs st.
    destruct (get_report_failing max_retries retry_interval Hfails Hmax Hri
                self start_date end_date columns limit kwargs st)
      as (st' & dates & st0 & r & w0 & w1 & _ & Hrun & _ & Hget & _ & Hreq
          & Hsl).
    rewrite (always_status_answer code _ _ _ _ _ Hserver Hget) in Hrun.
    rewrite HS in Hreq, Hsl. by eexists st', _.
  - intros fr st Hnext Hm Hr. simpl.
    destruct (batch_loop_failing max_retries retry_interval Hfails Hmax Hri
                fr st Hnext Hm Hr)
      as (st' & r & w0 & w1 & Hrun & _ & Hget & _ & Hreq & Hsl).
    rewrite (always_status_answer code _ _ _ _ _ Hserver Hget) in Hrun.
    rewrite HS in Hreq, Hsl. by exists st'.
  - intros self start_date end_date columns batch_size kwargs st.
    destruct (first_page_failing max_retries retry_interval Hfails Hmax Hri
                self start_date end_date columns batch_size kwargs st)
      as (st' & dates & st0 & r & w0 & w1 & _ & Hrun & _ & Hget & _ & Hreq
          & Hsl).
    rewrite (always_status_answer code _ _ _ _ _ Hserver Hget) in Hrun.
    rewrite HS in Hreq, Hsl. by eexists st', _.
  - intros self date aggregated application store_id platform kwargs st.
    destruct (user_get_report_single_call self date aggregated application
                store_id platform kwargs st) as (res & st' & Hrun & Hcalls & _).
    by eexists res, st', _.
  - reflexivity.
  - unfold UserAdRevenueReport.STATUS_RETRIES.
    rewrite !elem_of_cons, elem_of_nil. lia.
Qed.
End NoTerminalStatus.

Lemma any_non_200_status_witness :
  @always_status unit (constant_world response_400) 400
  ∧ 400 ≠ 200 ∧ 0 <= 3 ∧ 0 <= 0
  ∧ (∃ st',
       @RevenueReport.get_report unit (constant_world response_400)
         default_service None None ["day"] 100000 3 0 ∅ (init_state tt)
       = (Raise (Exception "Error: 400"), st')
       ∧ length (requests_made (log st')) = 4%nat
       ∧ sleeps_made (log st') = [0; 0; 0; 0])
  ∧ ∃ st',
      @RevenueReport.next unit (constant_world response_400)
        (RevenueReport.get_report_batch default_service None None ["day"] 2 3
           0 ∅) (init_state tt)
      = (Raise (Exception "Error: 400Last offset: 0Batch size: 2"), st')
      ∧ length (requests_made (log st')) = 4%nat.
Proof.
  assert (Hs : @always_status unit (constant_world response_400) 400).
  { intros url params w. by exists response_400, w. }
  assert (Hc : 400 ≠ 200) by lia.
  assert (H3 : 0 <= 3) by lia.
  assert (H0 : 0 <= 0) by lia.
  split; [exact Hs|]. split; [exact Hc|]. split; [exact H3|].
  split; [exact H0|].
  destruct (@any_non_200_status_uses_all_attempts unit
              (constant_world response_400) 400 3 0 Hs Hc H3 H0)
    as (Hget & _ & Hfirst & _).
  split.
  - destruct (Hget default_service None None ["day"] 100000 ∅ (init_state tt))
      as (st' & params & Hrun & Hreq & Hsl).
    exists st'. split; [exact Hrun|]. rewrite Hreq, Hsl. split; reflexivity.
  - destruct (Hfirst default_service None None ["day"] 2 ∅ (init_state tt))
      as (st' & params & Hrun & Hreq & _).
    exists st'. split; [exact Hrun|]. by rewrite Hreq.
Defined.

(** C6, the claim at a concrete call: with [max_retries = 3] and every
    request ending in a connection error, [RevenueReport.get_report] lets the
    first error escape: one request, no sleep, none of the three retries. *)
Lemma connection_error_is_not_retried :
  run_against_unreachable.1 = Raise (RequestException "ConnectionError")
  ∧ length (requests_made (log run_against_unreachable.2)) = 1%nat
  ∧ sleeps_made (log run_against_unreachable.2) = []
  ∧ ¬ (length (requests_made (log run_against_unreachable.2)) = 4%nat).
Proof. vm_compute. repeat split. discriminate. Qed.

Section TransportErrors.
Context {W : Type} `{World W}.

(** At whichever attempt [requests.get] raises, the loop of [get_report]
    ends there with that exception. *)
Lemma get_report_attempts_error params max_retries retry_interval i rest
    response (st : St W) e w' :
  requests_get RevenueReport.ENDPOINT params (world st) = (Raise e, w') →
  RevenueReport.get_report_attempts params max_retries retry_interval
    (i :: rest) response st
  = (Raise e, mkSt w' (log st ++ [EvGet RevenueReport.ENDPOINT params])).
Proof.
  intros Hget. simpl. unfold bind at 1. unfold do_requests_get.
  by rewrite Hget.
Qed.

Lemma batch_attempts_error params max_retries retry_interval i rest
    response (st : St W) e w' :
  requests_get RevenueReport.ENDPOINT params (world st) = (Raise e, w') →
  RevenueReport.batch_attempts params max_retries retry_interval
    (i :: rest) response st
  = (Raise e, mkSt w' (log st ++ [EvGet RevenueReport.ENDPOINT params])).
Proof.
  intros Hget. simpl. unfold bind at 1. unfold do_requests_get.
  by rewrite Hget.
Qed.

(** C6, amended. [RevenueReport] catches nothing: when [requests.get]
    raises (a connection error, a timeout), at whichever attempt, the loop
    ends there and the exception reaches the caller. So against a service
    that cannot be reached, [get_report] and every page of
    [get_report_batch] make one request, sleep not at all and raise that
    exception, whatever [max_retries >= 0] is. Neither does
    [UserAdRevenueReport.get_report] retry: it calls [session.get] once and
    an exception of that call escapes as it is; retrying such errors is
    left to the [Retry] policy mounted on the session. *)
Theorem transport_error_escapes_at_once (e : exn) (max_retries : Z) :
  0 <= max_retries →
  (∀ params retry_interval i rest response (st : St W) w',
     requests_get RevenueReport.ENDPOINT params (world st) = (Raise e, w') →
     RevenueReport.get_report_attempts params max_retries retry_interval
       (i :: rest) response st
     = (Raise e, mkSt w' (log st ++ [EvGet RevenueReport.ENDPOINT params]))
     ∧ RevenueReport.batch_attempts params max_retries retry_interval
         (i :: rest) response st
       = (Raise e, mkSt w' (log st ++ [EvGet RevenueReport.ENDPOINT params])))
  ∧ (unreachable e →
     ∀ self start_date end_date columns limit retry_interval kwargs
       (st : St W),
       ∃ st' params,
         RevenueReport.get_report self start_date end_date columns limit
           max_retries retry_interval kwargs st = (Raise e, st')
         ∧ requests_made (log st')
           = requests_made (log st) ++ [(RevenueReport.ENDPOINT, params)]
         ∧ sleeps_made (log st') = sleeps_made (log st))
  ∧ (unreachable e →
     ∀ fr (st : St W),
       RevenueReport.f_has_next_batch fr = true →
       RevenueReport.f_max_retries fr = max_retries →
       ∃ st',
         RevenueReport.next (RevenueReport.GenSuspended fr) st = (Raise e, st')
         ∧ requests_made (log st')
           = requests_made (log st)
             ++ [(RevenueReport.ENDPOINT, RevenueReport.batch_params fr)]
         ∧ sleeps_made (log st') = sleeps_made (log st))
  ∧ (∀ self date aggregated application store_id platform kwargs (st : St W)
       w',
       session_get (UserAdRevenueReport.session self)
         UserAdRevenueReport.ENDPOINT
         (UserAdRevenueReport.platform_params self date aggregated
            application store_id platform kwargs).1.1 (world st)
       = (Raise e, w') →
       ∃ st',
         UserAdRevenueReport.get_report self date aggregated application
           store_id platform kwargs st = (Raise e, st')
         ∧ length (session_gets (log st'))
           = S (length (session_gets (log st)))).
Proof.
  intros Hmax.
  assert (Hidx : ∃ i rest, range (max_retries + 1) = i :: rest).
  { rewrite range_succ by lia. destruct (range max_retries); simpl; eauto. }
  destruct Hidx as (i0 & rest0 & Hidx).
  split; [|split; [|split]].
  - intros params retry_interval i rest response st w' Hget. split.
    + by apply get_report_attempts_error.
    + by apply batch_attempts_error.
  - intros Hdown self start_date end_date columns limit retry_interval kwargs
      st.
    unfold RevenueReport.get_report. unfold bind at 1.
    destruct (default_dates_quiet start_date end_date st)
      as (dates & st0 & Hdates & Hreq0 & Hsl0).
    rewrite Hdates. unfold bind at 1. rewrite Hidx.
    match goal with
    | |- context [RevenueReport.get_report_attempts ?p _ _ _ _ _] =>
        destruct (Hdown RevenueReport.ENDPOINT p (world st0)) as (w' & Hget);
        rewrite (get_report_attempts_error p _ _ _ _ _ _ _ _ Hget)
    end.
    eexists _, _. split; [reflexivity|]. simpl.
    rewrite requests_made_app, sleeps_made_app, Hreq0, Hsl0. simpl.
    by rewrite app_nil_r.
  - intros Hdown fr st Hnext Hm. simpl.
    unfold RevenueReport.batch_loop, RevenueReport.batch_iteration.
    rewrite Hnext, Hm. unfold bind at 1. unfold bind at 1. rewrite Hidx.
    destruct (Hdown RevenueReport.ENDPOINT (RevenueReport.batch_params fr)
                (world st)) as (w' & Hget).
    rewrite (batch_attempts_error _ _ _ _ _ _ _ _ _ Hget).
    eexists. split; [reflexivity|]. simpl.
    rewrite requests_made_app, sleeps_made_app. simpl.
    by rewrite app_nil_r.
  - intros self date aggregated application store_id platform kwargs st w'
      Hget.
    destruct (user_get_report_single_call self date aggregated application
                store_id platform kwargs st)
      as (res & st' & Hrun & Hcalls & _ & Hraise).
    exists st'. rewrite Hrun, (Hraise e w' Hget), Hcalls, length_app. simpl.
    split; [done|lia].
Qed.
End TransportErrors.

Lemma transport_error_witness :
  0 <= 3
  ∧ @unreachable unit (down_world (RequestException "ConnectionError"))
      (RequestException "ConnectionError")
  ∧ ∃ st',
      run_against_unreachable
      = (Raise (RequestException "ConnectionError"), st')
      ∧ length (requests_made (log st')) = 1%nat.
Proof.
  assert (H3 : 0 <= 3) by lia.
  assert (Hdown : @unreachable unit
                    (down_world (RequestException "ConnectionError"))
                    (RequestException "ConnectionError")).
  { intros url params w. by exists w. }
  split; [exact H3|]. split; [exact Hdown|].
  destruct (@transport_error_escapes_at_once unit
              (down_world (RequestException "ConnectionError"))
              (RequestException "ConnectionError") 3 H3) as (_ & Hget & _).
  destruct (Hget Hdown default_service (Some "2023-05-14") (Some "2023-05-16")
              ["day"] 100000 0 ∅ (init_state tt))
    as (st' & params & Hrun & Hreq & _).
  exists st'. split; [exact Hrun|]. rewrite Hreq. reflexivity.
Defined.

(** C4, the claim at a concrete call: extra arguments named [api_key] and
    [start] are not held back. The one request that is sent carries their
    values, not the key of the service object and not the start date that was
    passed. *)
Lemma kwargs_replace_identity_fields :
  map (fun req => (req.2 !! "api_key", req.2 !! "start", req.2 !! "end"))
      (requests_made (log run_with_identity_kwargs.2))
  = [(Some (PStr "OTHER"), Some (PStr "1999-01-01"), Some (PStr "2023-05-16"))]
  ∧ ¬ (map (fun req => (req.2 !! "api_key", req.2 !! "start"))
           (requests_made (log run_with_identity_kwargs.2))
       = [(Some (PStr "KEY"), Some (PStr "2023-05-14"))]).
Proof. vm_compute. split; [reflexivity|discriminate]. Qed.

Section ExtraParameters.
Context {W : Type} `{World W}.
Import RevenueReport.

(** C4, amended. The extra arguments are merged into the request
    parameters last, so they take precedence over every computed entry, the
    identity fields included. In [get_report], in [get_report_batch] and in
    the dictionary that [UserAdRevenueReport.get_report] starts from, the
    value that reaches the request under a key is the one [kwargs] gives it,
    be the key [api_key], [start] or [end], and for a key that [kwargs] does
    not hold it is the computed one (none for any other key). The one thing
    written after the merge, and so not open to [kwargs], is the
    [application] entry (platform android) or the [store_id] entry (platform
    ios) of [UserAdRevenueReport.get_report]. These dictionaries are what
    the requests carry. *)
Theorem kwargs_override_every_computed_entry
    (kwargs : gmap string PyVal) (k : string) :
  (∀ self start_date end_date columns limit,
     get_report_params self start_date end_date columns limit kwargs !! k
     = match kwargs !! k with
       | Some v => Some v
       | None =>
           assoc_get k
             [("api_key", api_key self); ("start", PStr start_date);
              ("end", PStr end_date);
              ("columns", PStr (str_join "," columns));
              ("format", PStr "json"); ("limit", PInt limit)]
       end)
  ∧ (∀ self start_date end_date columns batch_size max_retries retry_interval
       offset has_next,
       batch_params
         (mkFrame self start_date end_date columns batch_size max_retries
            retry_interval kwargs offset has_next) !! k
       = match kwargs !! k with
         | Some v => Some v
         | None =>
             assoc_get k
               [("api_key", api_key self); ("start", PStr start_date);
                ("end", PStr end_date);
                ("columns", PStr (str_join "," columns));
                ("format", PStr "json"); ("offset", PInt offset);
                ("limit", PInt batch_size)]
         end)
  ∧ (∀ self date aggregated application store_id platform,
       let merged :=
         match kwargs !! k with
         | Some v => Some v
         | None =>
             assoc_get k
               [("api_key", UserAdRevenueReport.api_key self);
                ("date", PStr date); ("aggregated", PBool aggregated);
                ("platform", PStr platform)]
         end in
       UserAdRevenueReport.base_params self date aggregated platform kwargs
         !! k = merged
       ∧ (UserAdRevenueReport.platform_params self date aggregated
            application store_id platform kwargs).1.1 !! k
         = if String.eqb platform "android" then
             if String.eqb k "application" then Some (PStr application)
             else merged
           else if String.eqb platform "ios" then
             if String.eqb k "store_id" then Some (PStr store_id)
             else merged
           else merged)
  ∧ (∀ self start_date end_date columns limit max_retries retry_interval
       (st : St W) res st',
       0 <= max_retries →
       get_report self start_date end_date columns limit max_retries
         retry_interval kwargs st = (res, st') →
       ∃ dates (n : nat),
         requests_made (log st')
         = requests_made (log st)
           ++ replicate (S n)
                (ENDPOINT,
                 get_report_params self dates.1 dates.2 columns limit kwargs))
  ∧ (∀ self start_date end_date columns batch_size max_retries retry_interval
       (st : St W) res st',
       0 <= max_retries →
       next (get_report_batch self start_date end_date columns batch_size
               max_retries retry_interval kwargs) st = (res, st') →
       ∃ dates (n : nat),
         requests_made (log st')
         = requests_made (log st)
           ++ replicate (S n)
                (ENDPOINT,
                 batch_params
                   (mkFrame self dates.1 dates.2 columns batch_size
                      max_retries retry_interval kwargs 0 true)))
  ∧ (∀ self date aggregated application store_id platform (st : St W),
       ∃ res st',
         UserAdRevenueReport.get_report self date aggregated application
           store_id platform kwargs st = (res, st')
         ∧ session_gets (log st')
           = session_gets (log st)
             ++ [(UserAdRevenueReport.ENDPOINT,
                  (UserAdRevenueReport.platform_params self date aggregated
                     application store_id platform kwargs).1.1)]).
Proof.
  split_and!.
  - intros. unfold get_report_params, dict_update.
    destruct (kwargs !! k) as [v|] eqn:Hk; [by apply lookup_union_Some_l|].
    rewrite lookup_union_r by done. simpl.
    repeat match goal with
           | |- context [String.eqb k ?s] =>
               destruct (String.eqb_spec k s) as [->|?]; simpl
           end; by simplify_map_eq.
  - intros. unfold batch_params, dict_update. simpl.
    destruct (kwargs !! k) as [v|] eqn:Hk; [by apply lookup_union_Some_l|].
    rewrite lookup_union_r by done. simpl.
    repeat match goal with
           | |- context [String.eqb k ?s] =>
               destruct (String.eqb_spec k s) as [->|?]; simpl
           end; by simplify_map_eq.
  - intros self date aggregated application store_id platform merged.
    assert (Hbase : UserAdRevenueReport.base_params self date aggregated
                      platform kwargs !! k = merged).
    { subst merged. unfold UserAdRevenueReport.base_params, dict_update.
      destruct (kwargs !! k) as [v|] eqn:Hk; [by apply lookup_union_Some_l|].
      rewrite lookup_union_r by done. simpl.
      repeat match goal with
             | |- context [String.eqb k ?s] =>
                 destruct (String.eqb_spec k s) as [->|?]; simpl
             end; by simplify_map_eq. }
    split; [exact Hbase|].
    unfold UserAdRevenueReport.platform_params.
    destruct (String.eqb platform "android"); simpl.
    + destruct (String.eqb_spec k "application") as [->|Hne].
      * by rewrite lookup_insert.
      * by rewrite lookup_insert_ne.
    + destruct (String.eqb platform "ios"); simpl; [|exact Hbase].
      destruct (String.eqb_spec k "store_id") as [->|Hne].
      * by rewrite lookup_insert.
      * by rewrite lookup_insert_ne.
  - intros self start_date end_date columns limit max_retries retry_interval
      st res st' Hmax Hrun.
    apply get_report_requests in Hrun as (dates & _ & n & _ & Hreq);
      [|exact Hmax].
    by exists dates, n.
  - intros self start_date end_date columns batch_size max_retries
      retry_interval st res st' Hmax Hrun.
    apply first_page_requests in Hrun as (dates & _ & n & _ & Hreq & _);
      [|exact Hmax].
    by exists dates, n.
  - intros self date aggregated application store_id platform st.
    destruct (user_get_report_single_call self date aggregated application
                store_id platform kwargs st) as (res & st' & Hrun & Hget & _).
    by exists res, st'.
Qed.
End ExtraParameters.

Lemma kwargs_override_witness :
  0 <= 3
  ∧ RevenueReport.get_report_params default_service "2023-05-14" "2023-05-16"
      ["day"] 100000 identity_kwargs !! "api_key"
    = Some (PStr "OTHER")
  ∧ ∃ dates (n : nat),
      requests_made (log run_with_identity_kwargs.2)
      = replicate (S n)
          (RevenueReport.ENDPOINT,
           RevenueReport.get_report_params default_service dates.1 dates.2
             ["day"] 100000 identity_kwargs).
Proof.
  assert (H3 : 0 <= 3) by lia.
  split; [exact H3|].
  destruct (@kwargs_override_every_computed_entry unit (dataset_world [])
              identity_kwargs "api_key") as (Hget & _ & _ & Hsent & _).
  split; [exact (Hget default_service "2023-05-14" "2023-05-16" ["day"]
                   100000)|].
  destruct (Hsent default_service (Some "2023-05-14") (Some "2023-05-16")
              ["day"] 100000 3 0 (init_state tt)
              run_with_identity_kwargs.1 run_with_identity_kwargs.2 H3)
    as (dates & n & Hreq).
  { unfold run_with_identity_kwargs. by destruct RevenueReport.get_report. }
  by exists dates, n.
Defined.

(** C8. Page size 2 against a service that holds five rows: the requests go
    out at offsets 0, 2 and 4, each with limit 2 and each answered at once
    (three requests, no sleep); three tables of 2, 2 and 1 rows are yielded,
    which together are the five rows in order; then the generator is
    exhausted. *)
Theorem five_rows_in_pages_of_two :
  ∃ pages,
    (pages_of_two five_rows).1 = Ok (Some pages)
    ∧ length pages = 3%nat
    ∧ page_sizes pages = [2; 2; 1]%nat
    ∧ concat (map df_rows pages) = five_rows
    ∧ offsets_and_limits (log (pages_of_two five_rows).2)
      = [(Some (PInt 0), Some (PInt 2));
         (Some (PInt 2), Some (PInt 2));
         (Some (PInt 4), Some (PInt 2))]
    ∧ sleeps_made (log (pages_of_two five_rows).2) = [].
Proof. eexists. vm_compute. repeat split. Qed.

(** When the number of rows is a multiple of the page size, the last full
    page is followed by one more request, which brings an empty table. *)
Example four_rows_in_pages_of_two :
  ∃ pages,
    (pages_of_two four_rows).1 = Ok (Some pages)
    ∧ page_sizes pages = [2; 2; 0]%nat
    ∧ offsets_and_limits (log (pages_of_two four_rows).2)
      = [(Some (PInt 0), Some (PInt 2));
         (Some (PInt 2), Some (PInt 2));
         (Some (PInt 4), Some (PInt 2))].
Proof. eexists. vm_compute. repeat split. Qed.

(** C2, the claim at a concrete call: with page size 2, a page of three rows
    is no shorter than the page size, and yet it is the last one: the
    sequence ends after it, with no further request. *)
Lemma overfull_page_ends_the_sequence :
  pages_of_two_overfull.1 = Ok (Some [pd_DataFrame (PList three_rows)])
  ∧ length (requests_made (log pages_of_two_overfull.2)) = 1%nat
  ∧ ¬ (Z.of_nat (length three_rows) < 2).
Proof. vm_compute. repeat split. intros H. discriminate H. Qed.

Section PageLength.
Context {W : Type} `{World W}.
Import RevenueReport.

(** What follows a turn of the loop that yielded a table of [n] rows. *)
Lemma batch_loop_then (fr : BatchFrame) (st st' : St W) df g' :
  batch_loop fr st = (Ok (Some df, g'), st') →
  ∃ n fr',
    py_len (df_data df) = Ok n
    ∧ g' = GenSuspended fr'
    ∧ f_has_next_batch fr' = (n =? f_batch_size fr')
    ∧ f_offset fr' = f_offset fr + f_batch_size fr
    ∧ f_batch_size fr' = f_batch_size fr
    ∧ (n ≠ f_batch_size fr' →
       ∀ st1 : St W, next g' st1 = (Ok (None, GenClosed), st1))
    ∧ (n = f_batch_size fr' →
       ∀ (st1 : St W) res st2,
         next g' st1 = (res, st2) →
         (∀ g2, res ≠ Ok (None, g2))
         ∧ ∃ k : nat,
             requests_made (log st2)
             = requests_made (log st1)
               ++ replicate (S k) (ENDPOINT, batch_params fr')).
Proof.
  intros Hy. apply batch_loop_yield in Hy as (n & Hlen & Hg' & Hrange).
  eexists n, _. split; [exact Hlen|]. split; [exact Hg'|].
  simpl. do 3 (split; [done|]). split.
  - intros Hne st1. rewrite Hg'. simpl. unfold batch_loop. simpl.
    by replace (n =? f_batch_size fr) with false
      by (symmetry; apply Z.eqb_neq; lia).
  - intros Heq st1 res st2. rewrite Hg'. simpl.
    unfold batch_loop, batch_iteration. simpl.
    replace (n =? f_batch_size fr) with true
      by (symmetry; apply Z.eqb_eq; lia).
    unfold bind at 1. unfold bind at 1.
    match goal with
    | |- context [batch_attempts ?p ?a ?b ?c ?d st1] =>
        destruct (batch_attempts p a b c d st1) as [r1 st1'] eqn:Hloop
    end.
    apply batch_attempts_requests in Hloop as (_ & k & _ & Hpos & Hreq).
    specialize (Hpos Hrange). destruct k as [|k]; [lia|].
    intros Hrun.
    cut ((∀ g2, res ≠ Ok (None, g2))
         ∧ requests_made (log st2) = requests_made (log st1'));
      [intros [Hres ->]; split; [exact Hres|exists k; exact Hreq]|].
    destruct r1 as [[response|]|e].
    + revert Hrun. destruct (negb (status_code response =? 200)).
      * unfold_monad. simpl. intros [= <- <-]. simpl.
        rewrite requests_made_app. simpl. by rewrite app_nil_r.
      * unfold_monad. simpl.
        destruct (response_json response) as [body|e]; simpl;
          [|by intros [= <- <-]].
        destruct (py_getitem body "results") as [results|e]; simpl;
          [|by intros [= <- <-]].
        destruct (py_len results) as [m|e]; simpl;
          [destruct (DataFrame_call results); simpl|]; by intros [= <- <-].
    + revert Hrun. unfold raise. by intros [= <- <-].
    + by inversion Hrun; subst.
Qed.

(** C2, amended. The sequence of [get_report_batch] ends exactly when a
    page has a number of rows other than [batch_size]. Whenever [next]
    yields a table of [n] rows: if [n < batch_size] (or [n > batch_size])
    that table is the last element, the following [next] stops the
    iteration without any request; if [n = batch_size] the following
    [next] sends at least one more request, for the page at the next
    offset, whatever that request brings. *)
Theorem page_length_decides_the_end
    (g g' : Generator) (df : DataFrame) (st st' : St W) :
  next g st = (Ok (Some df, g'), st') →
  ∃ n fr',
    py_len (df_data df) = Ok n
    ∧ g' = GenSuspended fr'
    ∧ f_has_next_batch fr' = (n =? f_batch_size fr')
    ∧ (n < f_batch_size fr' →
       ∀ st1 : St W, next g' st1 = (Ok (None, GenClosed), st1))
    ∧ (n > f_batch_size fr' →
       ∀ st1 : St W, next g' st1 = (Ok (None, GenClosed), st1))
    ∧ (n = f_batch_size fr' →
       ∀ (st1 : St W) res st2,
         next g' st1 = (res, st2) →
         ∃ k : nat,
           requests_made (log st2)
           = requests_made (log st1)
             ++ replicate (S k) (ENDPOINT, batch_params fr'))
    ∧ (∀ fr, g = GenSuspended fr →
             f_offset fr' = f_offset fr + f_batch_size fr
             ∧ f_batch_size fr' = f_batch_size fr)
    ∧ (∀ st1 : St W,
         (∃ st2, next g' st1 = (Ok (None, GenClosed), st2))
         ↔ n ≠ f_batch_size fr').
Proof.
  intros Hnext.
  assert (Hthen : ∃ fr st0,
            batch_loop fr st0 = (Ok (Some df, g'), st')
            ∧ ∀ fr0, g = GenSuspended fr0 → fr0 = fr).
  { destruct g as [self sd ed cols bs mr ri kw|fr|]; simpl in Hnext.
    - unfold bind at 1 in Hnext.
      destruct (default_dates_quiet sd ed st) as (dates & st0 & Hd & _).
      rewrite Hd in Hnext. eexists _, _. split; [exact Hnext|]. intros ? [=].
    - exists fr, st. split; [exact Hnext|]. by intros ? [=].
    - unfold ret in Hnext. discriminate Hnext. }
  destruct Hthen as (fr & st0 & Hy & Hfr).
  apply batch_loop_then in Hy
    as (n & fr' & Hlen & Hg' & Hhas & Hoff & Hbs & Hstop & Hmore).
  exists n, fr'. repeat split; try done.
  - intros Hlt. apply Hstop. lia.
  - intros Hgt. apply Hstop. lia.
  - intros Heq st1 res st2 Hrun. by apply (Hmore Heq st1 res st2 Hrun).
  - apply Hfr in H0. by subst.
  - apply Hfr in H0. by subst.
  - intros (st2 & Hrun) Heq.
    destruct (Hmore Heq st1 _ _ Hrun) as (Hres & _).
    by apply (Hres GenClosed).
  - intros Hne. exists st1. by apply Hstop.
Qed.
End PageLength.

Lemma page_length_witness :
  first_page_of_two
  = (Ok (Some (pd_DataFrame (PList (take 2 five_rows))),
         RevenueReport.GenSuspended
           (frame_at default_service "2023-05-14" "2023-05-16"
              ["day"; "impressions"] 2 3 30 ∅ 2 true)),
     first_page_of_two.2)
  ∧ ∃ n fr',
      py_len (PList (take 2 five_rows)) = Ok n
      ∧ RevenueReport.f_has_next_batch fr'
        = (n =? RevenueReport.f_batch_size fr').
Proof.
  assert (Hrun : first_page_of_two
                 = (Ok (Some (pd_DataFrame (PList (take 2 five_rows))),
                        RevenueReport.GenSuspended
                          (frame_at default_service "2023-05-14" "2023-05-16"
                             ["day"; "impressions"] 2 3 30 ∅ 2 true)),
                    first_page_of_two.2))
    by (vm_compute; reflexivity).
  split; [exact Hrun|].
  destruct (@page_length_decides_the_end unit (dataset_world five_rows)
              _ _ _ _ _ Hrun) as (n & fr' & Hlen & _ & Hhas & _).
  by exists n, fr'.
Defined.

Section Pagination.
Variable rows : list PyVal.
Variable self : RevenueReport.t.
Variable columns : list string.
Variables batch_size max_retries retry_interval : Z.
Variable kwargs : gmap string PyVal.
Hypothesis Hsize : 0 < batch_size.
Hypothesis Hmax : 0 <= max_retries.
Hypothesis Hoffset : kwargs !! "offset" = None.
Hypothesis Hlimit : kwargs !! "limit" = None.

Import RevenueReport.

(** The page that the service cuts for the frame at [offset]. *)
Lemma dataset_page_of_frame start_date end_date offset has_next :
  dataset_page rows
    (batch_params (frame_at self start_date end_date columns batch_size
                     max_retries retry_interval kwargs offset has_next))
  = take (Z.to_nat batch_size) (drop (Z.to_nat offset) rows).
Proof using Hoffset Hlimit.
  unfold dataset_page, param_nat, batch_params, dict_update, frame_at. simpl.
  rewrite !lookup_union_r by done. by simplify_map_eq.
Qed.

(** One turn of the loop against the service that holds [rows]: a single
    request, answered at once, and the table of the page. *)
Lemma dataset_batch_loop start_date end_date offset (st : St unit) :
  ∃ st',
    @batch_loop unit (dataset_world rows)
      (frame_at self start_date end_date columns batch_size max_retries
         retry_interval kwargs offset true) st
    = (Ok (Some (pd_DataFrame
                   (PList (take (Z.to_nat batch_size)
                             (drop (Z.to_nat offset) rows)))),
           GenSuspended
             (frame_at self start_date end_date columns batch_size max_retries
                retry_interval kwargs (offset + batch_size)
                (Z.of_nat (length (take (Z.to_nat batch_size)
                                     (drop (Z.to_nat offset) rows)))
                 =? batch_size))),
       st').
Proof using Hmax Hoffset Hlimit.
  unfold batch_loop, batch_iteration. simpl.
  destruct (range_attempts_cons max_retries Hmax) as (i0 & rest0 & ->).
  simpl. unfold_monad. simpl. unfold dataset_response.
  rewrite (dataset_page_of_frame start_date end_date offset true).
  simpl. eexists. reflexivity.
Qed.

(** Draining the generator from the frame at [offset]: the tables that are
    still to come hold the rows from [offset] on, in order. *)
Lemma dataset_collect_suspended start_date end_date :
  ∀ (fuel : nat) offset (has_next : bool) (st : St unit),
    0 <= offset →
    ((if has_next then length (drop (Z.to_nat offset) rows) + 2 else 1)
     ≤ fuel)%nat →
    ∃ pages st',
      @collect unit (dataset_world rows) fuel
        (GenSuspended
           (frame_at self start_date end_date columns batch_size max_retries
              retry_interval kwargs offset has_next)) st
      = (Ok (Some pages), st')
      ∧ concat (map df_rows pages)
        = (if has_next then drop (Z.to_nat offset) rows else [])
      ∧ Forall (fun df => ∃ n m : nat,
                  df = pd_DataFrame (PList (take n (drop m rows)))) pages.
Proof using All.
  induction fuel as [|fuel IH]; intros offset has_next st Hoff Hfuel.
  - destruct has_next; lia.
  - destruct has_next.
    + simpl. unfold bind at 1.
      destruct (dataset_batch_loop start_date end_date offset st)
        as (st1 & Hloop).
      rewrite Hloop.
      set (page := take (Z.to_nat batch_size) (drop (Z.to_nat offset) rows)).
      destruct (IH (offset + batch_size)
                  (Z.of_nat (length page) =? batch_size) st1)
        as (pages & st2 & Hrest & Hrows & Hpages); [lia| |].
      { destruct (Z.of_nat (length page) =? batch_size) eqn:Hfull; [|lia].
        apply Z.eqb_eq in Hfull. subst page.
        rewrite length_take, length_drop in Hfull.
        rewrite length_drop in Hfuel |- *. lia. }
      unfold bind at 1. fold page. rewrite Hrest. unfold ret. simpl.
      eexists _, _. split; [reflexivity|].
      split; [|constructor; [by eexists _, _|exact Hpages]].
      simpl. rewrite Hrows.
      change (df_rows (pd_DataFrame (PList page))) with page.
      destruct (Z.of_nat (length page) =? batch_size) eqn:Hfull.
      * replace (Z.to_nat (offset + batch_size))
          with (Z.to_nat offset + Z.to_nat batch_size)%nat by lia.
        rewrite <- drop_drop. subst page. apply take_drop.
      * rewrite app_nil_r. apply Z.eqb_neq in Hfull. subst page.
        apply take_ge. rewrite length_take in Hfull. lia.
    + simpl. unfold bind at 1. unfold batch_loop. simpl. unfold ret.
      eexists _, _. split; [reflexivity|]. by split.
Qed.

Lemma uniform_rows_page (cols : list string) (n m : nat) :
  uniform_rows cols rows → uniform_rows cols (take n (drop m rows)).
Proof.
  intros [Hnd Hall]. split; [done|]. by apply Forall_take, Forall_drop.
Qed.

(** C7, amended. Against a service that holds a fixed list of rows and cuts
    pages by [offset] and [limit], with a page size of at least 1, a row
    limit that the rows fit in, and extra arguments that leave [offset] and
    [limit] alone: the single fetch builds its table from the rows, the
    paginated fetch comes to an end (any number of [next] calls from two more
    than the number of rows drains it), and the rows that its tables are
    built from, one table after the other, are the rows of the single fetch,
    in the same order, none lost and none twice (the rows being records, as
    in a report). When the rows all have the
    same columns and hold no null and no float, the records of every table
    are the rows it was built from, so that the records of the pages,
    concatenated, are the records of the single table. *)
Theorem pages_hand_on_the_rows_of_single_fetch
    (start_date end_date : option string) (limit : Z) (st : St unit) :
  Z.of_nat (length rows) <= limit →
  Forall (fun row => ∃ kvs, row = PDict kvs) rows →
  ∃ df st1,
    @get_report unit (dataset_world rows) self start_date end_date columns
      limit max_retries retry_interval kwargs st = (Ok df, st1)
    ∧ df_data df = PList rows
    ∧ ∀ fuel : nat,
        (length rows + 2 ≤ fuel)%nat →
        ∃ pages st2,
          @collect unit (dataset_world rows) fuel
            (get_report_batch self start_date end_date columns batch_size
               max_retries retry_interval kwargs) st
          = (Ok (Some pages), st2)
          ∧ concat (map df_rows pages) = rows
          ∧ ∀ cols, uniform_rows cols rows →
              records_of_fetch (Ok df) = Some rows
              ∧ Forall (fun page =>
                          table_records (df_data page) = Some (df_rows page))
                  pages
              ∧ records_of_pages (Ok (Some pages)) = Some rows.
Proof using All.
  intros Hfits _.
  assert (Hsingle : ∃ st1,
            @get_report unit (dataset_world rows) self start_date end_date
              columns limit max_retries retry_interval kwargs st
            = (Ok (pd_DataFrame (PList rows)), st1)).
  { unfold get_report. unfold bind at 1.
    destruct (@default_dates_quiet unit (dataset_world rows) start_date
                end_date st) as (dates & st0 & Hdates & _).
    rewrite Hdates.
    destruct (range_attempts_cons max_retries Hmax) as (i0 & rest0 & ->).
    simpl. unfold_monad. simpl. unfold dataset_response, dataset_page, param_nat.
    unfold get_report_params, dict_update.
    rewrite !lookup_union_r by done. simplify_map_eq.
    rewrite drop_0, take_ge by lia. simpl. eexists. reflexivity. }
  destruct Hsingle as (st1 & Hsingle).
  exists (pd_DataFrame (PList rows)), st1. split; [exact Hsingle|].
  split; [reflexivity|].
  intros fuel Hfuel. destruct fuel as [|fuel]; [lia|].
  simpl. unfold bind at 1. unfold bind at 1.
  destruct (@default_dates_quiet unit (dataset_world rows) start_date
              end_date st) as (dates & st0 & Hdates & _).
  rewrite Hdates.
  destruct (dataset_batch_loop dates.1 dates.2 0 st0) as (st2 & Hloop).
  unfold frame_at in Hloop. rewrite Hloop.
  set (page := take (Z.to_nat batch_size) (drop (Z.to_nat 0) rows)).
  destruct (dataset_collect_suspended dates.1 dates.2 fuel (0 + batch_size)
              (Z.of_nat (length page) =? batch_size) st2)
    as (pages & st3 & Hrest & Hrows & Hpages); [lia| |].
  { destruct (Z.of_nat (length page) =? batch_size) eqn:Hfull; [|lia].
    apply Z.eqb_eq in Hfull. subst page.
    rewrite length_take, length_drop in Hfull. rewrite length_drop. lia. }
  unfold frame_at in Hrest. unfold bind at 1. fold page. rewrite Hrest.
  unfold ret. simpl. eexists _, _. split; [reflexivity|].
  assert (Hcat : concat (map df_rows (pd_DataFrame (PList page) :: pages))
                 = rows).
  { simpl. rewrite Hrows. change (df_rows (pd_DataFrame (PList page))) with page.
    destruct (Z.of_nat (length page) =? batch_size) eqn:Hfull.
    - replace (Z.to_nat (0 + batch_size)) with (Z.to_nat batch_size) by lia.
      subst page. simpl. apply take_drop.
    - rewrite app_nil_r. apply Z.eqb_neq in Hfull. subst page.
      rewrite length_take, length_drop in Hfull. simpl. apply take_ge. lia. }
  split; [exact Hcat|].
  intros cols Huni.
  assert (Hall : Forall (fun df => table_records (df_data df)
                                   = Some (df_rows df))
                   (pd_DataFrame (PList page) :: pages)).
  { constructor.
    - simpl. apply (table_records_uniform cols). subst page.
      by apply uniform_rows_page.
    - eapply Forall_impl; [exact Hpages|]. intros df (n & m & ->). simpl.
      apply (table_records_uniform cols). by apply uniform_rows_page. }
  split; [simpl; by apply (table_records_uniform cols)|].
  split; [exact Hall|].
  unfold records_of_pages.
  assert (Hm : mapM (fun df => table_records (df_data df))
                 (pd_DataFrame (PList page) :: pages)
               = Some (map df_rows (pd_DataFrame (PList page) :: pages))).
  { apply mapM_Some. clear Hcat. induction Hall as [|df dfs Hdf Hall IH].
    - constructor.
    - simpl. constructor; [exact Hdf|exact IH]. }
  rewrite Hm. by rewrite Hcat.
Qed.
End Pagination.

Lemma pages_hand_on_witness :
  0 < 2 ∧ 0 <= 3
  ∧ (∅ : gmap string PyVal) !! "offset" = None
  ∧ (∅ : gmap string PyVal) !! "limit" = None
  ∧ Z.of_nat (length five_rows) <= 100000
  ∧ Forall (fun row => ∃ kvs, row = PDict kvs) five_rows
  ∧ uniform_rows ["day"; "impressions"] five_rows
  ∧ ∃ pages st2,
      @RevenueReport.collect unit (dataset_world five_rows) 7
        (RevenueReport.get_report_batch default_service (Some "2023-05-14")
           (Some "2023-05-16") ["day"; "impressions"] 2 3 30 ∅)
        (init_state tt)
      = (Ok (Some pages), st2)
      ∧ concat (map df_rows pages) = five_rows
      ∧ records_of_pages (Ok (Some pages)) = Some five_rows.
Proof.
  assert (H2 : 0 < 2) by lia.
  assert (H3 : 0 <= 3) by lia.
  assert (Ho : (∅ : gmap string PyVal) !! "offset" = None) by reflexivity.
  assert (Hl : (∅ : gmap string PyVal) !! "limit" = None) by reflexivity.
  assert (Hfits : Z.of_nat (length five_rows) <= 100000)
    by (vm_compute; discriminate).
  assert (Hr : Forall (fun row => ∃ kvs, row = PDict kvs) five_rows).
  { unfold five_rows. apply Forall_fmap, Forall_forall. intros n _.
    by eexists. }
  assert (Hu : uniform_rows ["day"; "impressions"] five_rows).
  { split.
    - apply NoDup_cons. split; [|apply NoDup_singleton].
      rewrite list_elem_of_singleton. discriminate.
    - unfold five_rows. apply Forall_fmap, Forall_forall. intros n _.
      eexists. split; [reflexivity|]. split; [reflexivity|].
      by repeat constructor. }
  repeat (split; [assumption|]).
  destruct (pages_hand_on_the_rows_of_single_fetch five_rows default_service
              ["day"; "impressions"] 2 3 30 ∅ H2 H3 Ho Hl
              (Some "2023-05-14") (Some "2023-05-16") 100000 (init_state tt)
              Hfits Hr) as (df & st1 & _ & _ & Hpages).
  destruct (Hpages 7%nat) as (pages & st2 & Hrun & Hcat & Huniform).
  { vm_compute. lia. }
  destruct (Huniform _ Hu) as (_ & _ & Hrecs).
  by exists pages, st2.
Defined.

(** C7, the claim at a concrete call: two rows that do not have the same
    columns, fetched at once and in pages of one. The single table has both
    columns in both rows, with NaN where a row had no value and the integers
    turned into floats; the page tables have one column each. The records of
    the pages, concatenated, are not the records of the single table. The
    same with two rows of one column, an integer and a [null]: the single
    table holds 1.0 and NaN, the page tables the integer 1 and [None]. *)
Lemma odd_rows_differ_between_fetches :
  records_of_fetch (single_fetch two_odd_rows).1
  = Some [PDict [("a", PFloat 1); ("b", PNaN)];
          PDict [("a", PNaN); ("b", PFloat 2)]]
  ∧ records_of_pages (pages_of_one two_odd_rows).1
    = Some [PDict [("a", PInt 1)]; PDict [("b", PInt 2)]]
  ∧ records_of_pages (pages_of_one two_odd_rows).1
    ≠ records_of_fetch (single_fetch two_odd_rows).1
  ∧ records_of_fetch (single_fetch two_null_rows).1
    = Some [PDict [("a", PFloat 1)]; PDict [("a", PNaN)]]
  ∧ records_of_pages (pages_of_one two_null_rows).1
    = Some [PDict [("a", PInt 1)]; PDict [("a", PNone)]]
  ∧ records_of_pages (pages_of_one two_null_rows).1
    ≠ records_of_fetch (single_fetch two_null_rows).1.
Proof. vm_compute. split_and!; done || discriminate. Qed.

(** C9, the claim at a concrete call: a CSV report with an empty field, read
    with [dtype='object'], does not come back as strings only: the cell of
    the empty field is NaN. *)
Lemma missing_csv_field_is_not_a_string :
  run_gapped_csv.1
  = Ok (pd_DataFrame
          (PList [PDict [("User ID", PStr "00123456789012345678");
                         ("Revenue", PNaN)]]))
  ∧ ¬ (∃ df, run_gapped_csv.1 = Ok df ∧ all_cells_str df = true).
Proof.
  split; [by vm_compute|]. intros (df & Hrun & Hstr).
  vm_compute in Hrun. injection Hrun as <-. vm_compute in Hstr.
  discriminate Hstr.
Qed.

Section RowValues.
Context {W : Type} `{World W}.

(** C9, amended. The code converts nothing itself. In
    [RevenueReport.get_report] the value under [results] of a 200 answer goes
    into [pd.DataFrame] as it came: records that all have the same columns
    and hold no null and no float come back as the records of the table, so
    the body [{"results": [{"day": "2023-05-14", "impressions": "10"}]}]
    gives a table of one row with the columns [day] and [impressions] and the
    string ["10"], not a number; and a [results] that is a string, a number
    or a boolean makes [pd.DataFrame] fail. In
    [UserAdRevenueReport.get_report] an answer other than 404 that names a
    CSV is read by one call of [pandas.read_csv] with [dtype='object'], and
    what that call gives (a table or an exception) is the outcome of
    [get_report]; with the reader of [csv_world], every field that is there
    is kept as the text found, with no parsing of numbers, and every empty
    field or NA marker becomes NaN. *)
Theorem rows_are_handed_on_unconverted :
  (∀ r body rows cols self start_date end_date columns limit max_retries
     retry_interval kwargs (st : St W),
     always_answers r → status_code r = 200 → json r = Some body →
     py_getitem body "results" = Ok (PList rows) → uniform_rows cols rows →
     0 <= max_retries →
     ∃ df st',
       RevenueReport.get_report self start_date end_date columns limit
         max_retries retry_interval kwargs st = (Ok df, st')
       ∧ df_data df = PList rows
       ∧ table_records (df_data df) = Some rows
       ∧ length (requests_made (log st'))
         = S (length (requests_made (log st))))
  ∧ (run_one_row.1
     = Ok (pd_DataFrame
             (PList [PDict [("day", PStr "2023-05-14");
                            ("impressions", PStr "10")]]))
     ∧ table_records
         (PList [PDict [("day", PStr "2023-05-14");
                        ("impressions", PStr "10")]])
       = Some [PDict [("day", PStr "2023-05-14"); ("impressions", PStr "10")]])
  ∧ (∀ r body results self start_date end_date columns limit max_retries
       retry_interval kwargs (st : St W),
       always_answers r → status_code r = 200 → json r = Some body →
       py_getitem body "results" = Ok results →
       is_scalar results = true → results ≠ PNone → 0 <= max_retries →
       ∃ st',
         RevenueReport.get_report self start_date end_date columns limit
           max_retries retry_interval kwargs st
         = (Raise (ValueError "DataFrame constructor not properly called!"),
            st')
         ∧ length (requests_made (log st'))
           = S (length (requests_made (log st))))
  ∧ (∀ self date aggregated application store_id platform kwargs (st : St W)
       r w1 body url res w2,
       session_get (UserAdRevenueReport.session self)
         UserAdRevenueReport.ENDPOINT
         (UserAdRevenueReport.platform_params self date aggregated application
            store_id platform kwargs).1.1 (world st) = (Ok r, w1) →
       status_code r ≠ 404 → json r = Some body →
       py_getitem body "ad_revenue_report_url" = Ok (PStr url) →
       pd_read_csv url DtypeObject w1 = (res, w2) →
       ∃ st',
         UserAdRevenueReport.get_report self date aggregated application
           store_id platform kwargs st = (res, st')
         ∧ csv_reads (log st') = csv_reads (log st) ++ [(url, DtypeObject)])
  ∧ (∀ file self date aggregated application store_id platform kwargs
       (st : St unit),
       ∃ st',
         @UserAdRevenueReport.get_report unit (csv_world file) self date
           aggregated application store_id platform kwargs st
         = (Ok (csv_frame DtypeObject file), st')
         ∧ csv_reads (log st')
           = csv_reads (log st) ++ [(report_url, DtypeObject)]
         ∧ df_rows (csv_frame DtypeObject file)
           = map (fun row =>
                    PDict (map (fun c : string * (string * option Z) =>
                                  (c.1, if is_na c.2.1 then PNaN
                                        else PStr c.2.1)) row))
               file).
Proof.
  assert (Hone : ∀ r body results self start_date end_date columns limit
            max_retries retry_interval kwargs (st : St W),
            always_answers r → status_code r = 200 → json r = Some body →
            py_getitem body "results" = Ok results → 0 <= max_retries →
            ∃ st',
              RevenueReport.get_report self start_date end_date columns limit
                max_retries retry_interval kwargs st
              = (match DataFrame_call results with
                 | Ok df => Ok df
                 | Raise e => Raise e
                 end, st')
              ∧ length (requests_made (log st'))
                = S (length (requests_made (log st)))).
  { intros r body results self start_date end_date columns limit max_retries
      retry_interval kwargs st Hr H200 Hjson Hresults Hmax.
    unfold RevenueReport.get_report. unfold bind at 1.
    destruct (default_dates_quiet start_date end_date st)
      as (dates & st0 & Hdates & Hreq0 & _).
    rewrite Hdates.
    destruct (range_attempts_cons max_retries Hmax) as (i0 & rest0 & ->).
    simpl. unfold bind at 1. unfold bind at 1. unfold do_requests_get.
    match goal with
    | |- context [requests_get ?u ?p (world st0)] =>
        destruct (Hr u p (world st0)) as (w' & ->)
    end.
    rewrite H200. simpl. unfold_monad. unfold response_json.
    rewrite Hjson. simpl. rewrite Hresults. simpl.
    destruct (DataFrame_call results); simpl;
      (eexists; split; [reflexivity|]); simpl;
      rewrite requests_made_app, Hreq0, length_app; simpl; lia. }
  split_and!.
  - intros r body rows cols self start_date end_date columns limit max_retries
      retry_interval kwargs st Hr H200 Hjson Hresults Huni Hmax.
    destruct (Hone r body (PList rows) self start_date end_date columns limit
                max_retries retry_interval kwargs st Hr H200 Hjson Hresults
                Hmax) as (st' & Hrun & Hreq).
    simpl in Hrun. exists (pd_DataFrame (PList rows)), st'.
    split_and!; try done. simpl. by apply (table_records_uniform cols).
  - by vm_compute.
  - reflexivity.
  - intros r body results self start_date end_date columns limit max_retries
      retry_interval kwargs st Hr H200 Hjson Hresults Hscalar Hnone Hmax.
    destruct (Hone r body results self start_date end_date columns limit
                max_retries retry_interval kwargs st Hr H200 Hjson Hresults
                Hmax) as (st' & Hrun & Hreq).
    exists st'. split; [|exact Hreq]. rewrite Hrun.
    by destruct results.
  - intros self date aggregated application store_id platform kwargs st
      r w1 body url res w2 Hget H404 Hjson Hurl Hcsv.
    unfold UserAdRevenueReport.get_report.
    destruct (UserAdRevenueReport.platform_params self date aggregated
                application store_id platform kwargs)
      as [[params app_id] wrong].
    simpl in Hget.
    assert (Hne : (status_code r =? 404) = false) by (apply Z.eqb_neq; lia).
    destruct wrong; unfold_monad; simpl; rewrite Hget; simpl; rewrite Hne;
      unfold response_json; rewrite Hjson; simpl; rewrite Hurl; simpl;
      rewrite Hcsv; destruct res as [df|e]; simpl;
      (eexists; split; [reflexivity|]); simpl;
      rewrite ?csv_reads_app; simpl; by rewrite ?app_nil_r.
  - intros file self date aggregated application store_id platform kwargs st.
    unfold UserAdRevenueReport.get_report.
    destruct (UserAdRevenueReport.platform_params self date aggregated
                application store_id platform kwargs)
      as [[params app_id] wrong].
    destruct wrong; unfold_monad; simpl;
      (eexists; split; [reflexivity|]); simpl;
      rewrite ?csv_reads_app; simpl; rewrite ?app_nil_r;
      (split; [done|]); unfold df_rows, csv_frame; simpl;
      apply map_ext; intros row; f_equal; apply map_ext;
      intros [c [text num]]; unfold csv_cell; simpl;
      by destruct (is_na text).
Qed.
End RowValues.

Lemma rows_handed_on_witness :
  @always_answers unit (constant_world one_row_response) one_row_response
  ∧ uniform_rows ["day"; "impressions"]
      [PDict [("day", PStr "2023-05-14"); ("impressions", PStr "10")]]
  ∧ 0 <= 3
  ∧ ∃ df st',
      run_one_row = (Ok df, st')
      ∧ table_records (df_data df)
        = Some [PDict [("day", PStr "2023-05-14"); ("impressions", PStr "10")]].
Proof.
  assert (Hs : @always_answers unit (constant_world one_row_response)
                 one_row_response).
  { intros url params w. by exists w. }
  assert (Hu : uniform_rows ["day"; "impressions"]
                 [PDict [("day", PStr "2023-05-14");
                         ("impressions", PStr "10")]]).
  { split.
    - apply NoDup_cons. split; [|apply NoDup_singleton].
      rewrite list_elem_of_singleton. discriminate.
    - constructor; [|constructor]. eexists. split; [reflexivity|].
      split; [reflexivity|]. by repeat constructor. }
  assert (H3 : 0 <= 3) by lia.
  split; [exact Hs|]. split; [exact Hu|]. split; [exact H3|].
  destruct (@rows_are_handed_on_unconverted unit
              (constant_world one_row_response)) as (Hinline & _).
  destruct (Hinline one_row_response one_row_body _ _ default_service None
              None ["day"; "impressions"] 100000 3 30 ∅ (init_state tt)
              Hs eq_refl eq_refl eq_refl Hu H3)
    as (df & st' & Hrun & _ & Hrec & _).
  by exists df, st'.
Defined.

(** ** Further scenarios *)

(** A failure that passes: one 503, then the report. Two requests, one sleep,
    and the table of the second answer. *)
Example one_retry_then_success :
  (run_script [Ok response_503; Ok one_row_response]).1
  = Ok (pd_DataFrame
          (PList [PDict [("day", PStr "2023-05-14"); ("impressions", PStr "10")]]))
  ∧ length (requests_made
              (log (run_script [Ok response_503; Ok one_row_response]).2))
    = 2%nat
  ∧ sleeps_made (log (run_script [Ok response_503; Ok one_row_response]).2)
    = [0].
Proof. by vm_compute. Qed.

(** A connection error on the second attempt ends the call there, with two
    of the four attempts unused. *)
Example error_on_second_attempt :
  (run_script [Ok response_503; Raise (RequestException "Timeout");
               Ok one_row_response]).1
  = Raise (RequestException "Timeout")
  ∧ length (requests_made
              (log (run_script [Ok response_503;
                                Raise (RequestException "Timeout");
                                Ok one_row_response]).2))
    = 2%nat.
Proof. by vm_compute. Qed.

Section NoAttempt.
Context {W : Type} `{World W}.

(** With a negative [max_retries] the loop has no index: no request is made
    and reading [response] after the loop fails. *)
Lemma get_report_without_attempt self start_date end_date columns limit
    max_retries retry_interval kwargs (st : St W) :
  max_retries < 0 →
  ∃ st',
    RevenueReport.get_report self start_date end_date columns limit
      max_retries retry_interval kwargs st
    = (Raise (UnboundLocalError "response"), st')
    ∧ requests_made (log st') = requests_made (log st).
Proof.
  intros Hneg. unfold RevenueReport.get_report. unfold bind at 1.
  destruct (default_dates_quiet start_date end_date st)
    as (dates & st0 & Hdates & Hreq0 & _).
  rewrite Hdates, range_nonpos by lia. simpl. unfold_monad. simpl.
  eexists. split; [reflexivity|]. simpl.
  rewrite requests_made_app, Hreq0. simpl. by rewrite app_nil_r.
Qed.
End NoAttempt.


(** ** More about the retry loops *)

Lemma prints_made_app (l1 l2 : list Event) :
  prints_made (l1 ++ l2) = prints_made l1 ++ prints_made l2.
Proof. unfold prints_made. apply (omap_app _ l1 l2). Qed.

Lemma warnings_logged_app (l1 l2 : list Event) :
  warnings_logged (l1 ++ l2) = warnings_logged l1 ++ warnings_logged l2.
Proof. unfold warnings_logged. apply (omap_app _ l1 l2). Qed.

Lemma infos_logged_app (l1 l2 : list Event) :
  infos_logged (l1 ++ l2) = infos_logged l1 ++ infos_logged l2.
Proof. unfold infos_logged. apply (omap_app _ l1 l2). Qed.

Lemma clock_reads_app (l1 l2 : list Event) :
  clock_reads (l1 ++ l2) = clock_reads l1 ++ clock_reads l2.
Proof. unfold clock_reads. apply (omap_app _ l1 l2). Qed.

Ltac project_log :=
  rewrite ?requests_made_app, ?sleeps_made_app, ?prints_made_app,
    ?clock_reads_app, ?warnings_logged_app, ?infos_logged_app,
    ?csv_reads_app, ?session_gets_app;
  simpl; rewrite ?app_nil_r.

Section ScriptedService.
Import RevenueReport.

(** The scripted service does not move when the dates are decided. *)
Lemma script_default_dates start_date end_date (st : St (list (Res Response))) :
  ∃ dates st0,
    @default_dates _ script_world start_date end_date st = (Ok dates, st0)
    ∧ world st0 = world st
    ∧ requests_made (log st0) = requests_made (log st)
    ∧ sleeps_made (log st0) = sleeps_made (log st).
Proof.
  rewrite default_dates_run. simpl.
  destruct (falsy start_date || falsy end_date).
  - eexists _, _. split; [reflexivity|]. simpl. by project_log.
  - by eexists _, _.
Qed.

(** The loop of [get_report] when the service first plays the failures
    [fails] and then the answer [ok]. *)
Lemma get_report_attempts_recover params max_retries retry_interval
    (ok : Response) body results (rest : list (Res Response)) :
  status_code ok = 200 → json ok = Some body →
  py_getitem body "results" = Ok results →
  @DataFrame_call _ script_world results = Ok (pd_DataFrame results) →
  0 <= retry_interval →
  ∀ (fails : list Response) idxs response l,
    Forall (fun r => status_code r ≠ 200) fails →
    (length fails < length idxs)%nat →
    ∃ l',
      @get_report_attempts _ script_world params max_retries retry_interval
        idxs response (script_state (map Ok fails ++ Ok ok :: rest) l)
      = (Ok (inl (pd_DataFrame results)), script_state rest l')
      ∧ requests_made l'
        = requests_made l ++ replicate (S (length fails)) (ENDPOINT, params)
      ∧ sleeps_made l' = sleeps_made l ++ replicate (length fails) retry_interval.
Proof.
  intros H200 Hjson Hres Hdf Hri.
  induction fails as [|r fails IH]; intros idxs response l Hfails Hlen.
  - destruct idxs as [|i idxs]; [simpl in Hlen; lia|].
    simpl. unfold_monad. simpl. rewrite H200. simpl.
    unfold response_json. rewrite Hjson, Hres. simpl. rewrite Hdf. simpl.
    eexists. split; [reflexivity|]. by project_log.
  - destruct idxs as [|i idxs]; [simpl in Hlen; lia|].
    apply Forall_cons in Hfails as [Hr Hfails].
    simpl. unfold bind at 1. unfold do_requests_get. simpl.
    replace (status_code r =? 200) with false
      by (symmetry; apply Z.eqb_neq; lia).
    unfold_monad. simpl.
    replace (retry_interval <? 0) with false
      by (symmetry; apply Z.ltb_ge; lia).
    match goal with
    | |- context [get_report_attempts _ _ _ idxs (Some r) ?s] =>
        destruct (IH idxs (Some r) (log s) Hfails) as (l' & Hrun & Hreq & Hsl);
          [simpl in Hlen; lia|]
    end.
    unfold script_state in *. simpl in *. rewrite Hrun.
    eexists. split; [reflexivity|]. rewrite Hreq, Hsl. project_log.
    by rewrite <- !app_assoc.
Qed.

(** The same for the loop of [get_report_batch]. *)
Lemma batch_attempts_recover params max_retries retry_interval
    (ok : Response) (rest : list (Res Response)) :
  status_code ok = 200 → 0 <= retry_interval →
  ∀ (fails : list Response) idxs response l,
    Forall (fun r => status_code r ≠ 200) fails →
    (length fails < length idxs)%nat →
    ∃ l',
      @batch_attempts _ script_world params max_retries retry_interval
        idxs response (script_state (map Ok fails ++ Ok ok :: rest) l)
      = (Ok (Some ok), script_state rest l')
      ∧ requests_made l'
        = requests_made l ++ replicate (S (length fails)) (ENDPOINT, params)
      ∧ sleeps_made l' = sleeps_made l ++ replicate (length fails) retry_interval.
Proof.
  intros H200 Hri.
  induction fails as [|r fails IH]; intros idxs response l Hfails Hlen.
  - destruct idxs as [|i idxs]; [simpl in Hlen; lia|].
    simpl. unfold_monad. simpl. rewrite H200. simpl.
    eexists. split; [reflexivity|]. by project_log.
  - destruct idxs as [|i idxs]; [simpl in Hlen; lia|].
    apply Forall_cons in Hfails as [Hr Hfails].
    simpl. unfold bind at 1. unfold do_requests_get. simpl.
    replace (status_code r =? 200) with false
      by (symmetry; apply Z.eqb_neq; lia).
    unfold_monad. simpl.
    replace (retry_interval <? 0) with false
      by (symmetry; apply Z.ltb_ge; lia).
    match goal with
    | |- context [batch_attempts _ _ _ idxs (Some r) ?s] =>
        destruct (IH idxs (Some r) (log s) Hfails) as (l' & Hrun & Hreq & Hsl);
          [simpl in Hlen; lia|]
    end.
    unfold script_state in *. simpl in *. rewrite Hrun.
    eexists. split; [reflexivity|]. rewrite Hreq, Hsl. project_log.
    by rewrite <- !app_assoc.
Qed.

(** X1. A failure that passes is absorbed. When the service answers [k]
    times with a status other than 200 and then with a 200 whose body holds
    a list of records under [results], and [k <= max_retries], [get_report]
    returns the table of these records after exactly [k + 1] requests and
    [k] sleeps of [retry_interval], leaving the rest of the answers unread;
    and a page of [get_report_batch] is yielded after the same [k + 1]
    requests. *)
Theorem transient_failures_are_absorbed
    (fails : list Response) (ok : Response) (rest : list (Res Response))
    (body : PyVal) (rows : list PyVal) (max_retries retry_interval : Z) :
  Forall (fun r => status_code r ≠ 200) fails →
  status_code ok = 200 → json ok = Some body →
  py_getitem body "results" = Ok (PList rows) →
  Forall (fun row => ∃ kvs, row = PDict kvs) rows →
  Z.of_nat (length fails) <= max_retries → 0 <= retry_interval →
  (∀ self start_date end_date columns limit kwargs l,
     ∃ st' params,
       @get_report _ script_world self start_date end_date columns limit
         max_retries retry_interval kwargs
         (script_state (map Ok fails ++ Ok ok :: rest) l)
       = (Ok (pd_DataFrame (PList rows)), st')
       ∧ world st' = rest
       ∧ requests_made (log st')
         = requests_made l ++ replicate (S (length fails)) (ENDPOINT, params)
       ∧ sleeps_made (log st')
         = sleeps_made l ++ replicate (length fails) retry_interval)
  ∧ (∀ fr l,
       f_has_next_batch fr = true → f_max_retries fr = max_retries →
       f_retry_interval fr = retry_interval →
       ∃ st' fr',
         @next _ script_world (GenSuspended fr)
           (script_state (map Ok fails ++ Ok ok :: rest) l)
         = (Ok (Some (pd_DataFrame (PList rows)), GenSuspended fr'), st')
         ∧ f_has_next_batch fr'
           = (Z.of_nat (length rows) =? f_batch_size fr)
         ∧ world st' = rest
         ∧ requests_made (log st')
           = requests_made l
             ++ replicate (S (length fails)) (ENDPOINT, batch_params fr)).
Proof.
  intros Hfails H200 Hjson Hres _ Hk Hri.
  assert (Hlen : (length fails < length (range (max_retries + 1)))%nat)
    by (rewrite range_length; lia).
  split.
  - intros self start_date end_date columns limit kwargs l.
    unfold get_report. unfold bind at 1.
    destruct (script_default_dates start_date end_date
                (script_state (map Ok fails ++ Ok ok :: rest) l))
      as (dates & [w0 l0] & Hdates & Hw & Hreq0 & Hsl0).
    rewrite Hdates. simpl in Hw, Hreq0, Hsl0. subst w0. unfold bind at 1.
    destruct (get_report_attempts_recover
                (get_report_params self dates.1 dates.2 columns limit kwargs)
                max_retries retry_interval ok body (PList rows) rest H200
                Hjson Hres eq_refl Hri fails (range (max_retries + 1)) None l0
                Hfails Hlen)
      as (l' & Hrun & Hreq & Hsl).
    unfold script_state in Hrun. rewrite Hrun. unfold ret.
    eexists _, _. split; [reflexivity|]. simpl.
    by rewrite Hreq, Hsl, Hreq0, Hsl0.
  - intros fr l Hnext Hm Hr. simpl.
    unfold batch_loop, batch_iteration. rewrite Hnext, Hm, Hr.
    unfold bind at 1. unfold bind at 1.
    destruct (batch_attempts_recover (batch_params fr) max_retries
                retry_interval ok rest H200 Hri fails
                (range (max_retries + 1)) None l Hfails Hlen)
      as (l' & Hrun & Hreq & _).
    unfold script_state in Hrun. unfold script_state. rewrite Hrun.
    rewrite H200. simpl. unfold_monad. unfold response_json.
    rewrite Hjson, Hres. simpl.
    eexists _, _. split; [reflexivity|]. simpl. by rewrite Hreq.
Qed.
End ScriptedService.

Lemma transient_failures_witness :
  ∃ st',
    run_script [Ok response_503; Ok response_400; Ok one_row_response;
                Ok response_503]
    = (Ok (pd_DataFrame
             (PList [PDict [("day", PStr "2023-05-14");
                            ("impressions", PStr "10")]])), st')
    ∧ world st' = [Ok response_503]
    ∧ length (requests_made (log st')) = 3%nat
    ∧ sleeps_made (log st') = [0; 0].
Proof.
  assert (Hfails : Forall (fun r => status_code r ≠ 200)
                     [response_503; response_400]).
  { repeat constructor; simpl; lia. }
  assert (Hk : Z.of_nat (length [response_503; response_400]) <= 3)
    by (simpl; lia).
  assert (H0 : 0 <= 0) by lia.
  assert (Hrec : Forall (fun row => ∃ kvs, row = PDict kvs)
                    [PDict [("day", PStr "2023-05-14");
                            ("impressions", PStr "10")]]).
  { constructor; [by eexists|constructor]. }
  destruct (transient_failures_are_absorbed [response_503; response_400]
              one_row_response [Ok response_503] one_row_body _ 3 0
              Hfails eq_refl eq_refl eq_refl Hrec Hk H0) as [Hget _].
  destruct (Hget default_service (Some "2023-05-14") (Some "2023-05-16")
              ["day"] 100000 ∅ []) as (st' & params & Hrun & Hw & Hreq & Hsl).
  exists st'. split; [exact Hrun|]. split; [exact Hw|].
  rewrite Hreq, Hsl. split; reflexivity.
Defined.

Section LoopAccounts.
Context {W : Type} `{World W}.
Import RevenueReport.

(** The account of a run of the loop of [get_report], whatever the service
    does: [n] requests and [m] sleeps, never the clock. *)
Lemma get_report_attempts_account params max_retries retry_interval :
  ∀ idxs response (st : St W) res st',
    get_report_attempts params max_retries retry_interval idxs response st
      = (res, st') →
    ∃ n m : nat,
      (n ≤ length idxs)%nat ∧ (m ≤ n)%nat ∧ (idxs ≠ [] → (1 ≤ n)%nat)
      ∧ requests_made (log st')
        = requests_made (log st) ++ replicate n (ENDPOINT, params)
      ∧ sleeps_made (log st')
        = sleeps_made (log st) ++ replicate m retry_interval
      ∧ clock_reads (log st') = clock_reads (log st)
      ∧ (∀ df, res = Ok (inl df) → n = S m)
      ∧ (∀ r, res = Ok (inr r) → n = length idxs ∧ m = n).
Proof.
  induction idxs as [|i rest IH]; intros response st res st' Hrun.
  - simpl in Hrun. unfold ret in Hrun. injection Hrun as <- <-.
    exists O, O. project_log. split_and!; try done; try lia.
  - simpl in Hrun. unfold bind at 1 in Hrun. unfold do_requests_get in Hrun.
    destruct (requests_get ENDPOINT params (world st)) as [[r|e] w'].
    + destruct (status_code r =? 200).
      * exists 1%nat, O. revert Hrun. unfold_monad.
        destruct (response_json r) as [body|e]; simpl;
          [destruct (py_getitem body "results") as [results0|]; simpl;
           [destruct (DataFrame_call results0); simpl|]|];
          intros [= <- <-]; simpl; project_log;
          split_and!; try done; simpl; lia.
      * revert Hrun. unfold bind at 1. unfold print, emit. simpl.
        unfold bind at 1. unfold do_sleep. simpl.
        destruct (retry_interval <? 0).
        -- intros [= <- <-]. exists 1%nat, O. simpl. project_log.
           split_and!; try done; lia.
        -- intros Hrun.
           apply IH in Hrun
             as (n & m & Hn & Hm & _ & Hreq & Hsl & Hck & Hok & Hout).
           exists (S n), (S m). simpl in *. rewrite Hreq, Hsl, Hck.
           project_log. rewrite <- !app_assoc. simpl.
           split_and!; try done; try lia.
           ++ intros df Hdf. by rewrite (Hok df Hdf).
           ++ intros r0 Hr0. destruct (Hout r0 Hr0). split; lia.
    + injection Hrun as <- <-. exists 1%nat, O. simpl. project_log.
      split_and!; try done; lia.
Qed.

(** The same account for the loop of [get_report_batch]; a response that
    comes out of it is either a 200, met at the last request made, or the
    last of a full round of failures. *)
Lemma batch_attempts_account params max_retries retry_interval :
  ∀ idxs response (st : St W) res st',
    batch_attempts params max_retries retry_interval idxs response st
      = (res, st') →
    ∃ n m : nat,
      (n ≤ length idxs)%nat ∧ (m ≤ n)%nat ∧ (idxs ≠ [] → (1 ≤ n)%nat)
      ∧ requests_made (log st')
        = requests_made (log st) ++ replicate n (ENDPOINT, params)
      ∧ sleeps_made (log st')
        = sleeps_made (log st) ++ replicate m retry_interval
      ∧ clock_reads (log st') = clock_reads (log st)
      ∧ (idxs ≠ [] → ∀ r, res = Ok (Some r) →
           (status_code r = 200 ∧ n = S m)
           ∨ (status_code r ≠ 200 ∧ n = length idxs ∧ m = n)).
Proof.
  induction idxs as [|i rest IH]; intros response st res st' Hrun.
  - simpl in Hrun. unfold ret in Hrun. injection Hrun as <- <-.
    exists O, O. project_log. split_and!; try done; try lia.
  - simpl in Hrun. unfold bind at 1 in Hrun. unfold do_requests_get in Hrun.
    destruct (requests_get ENDPOINT params (world st)) as [[r|e] w'].
    + destruct (status_code r =? 200) eqn:H200.
      * exists 1%nat, O. revert Hrun. unfold_monad.
        intros [= <- <-]; simpl; project_log.
        split_and!; try done; try lia.
        intros _ r0 [= <-]. left. apply Z.eqb_eq in H200. by split.
      * revert Hrun. unfold bind at 1. unfold print, emit. simpl.
        unfold bind at 1. unfold do_sleep. simpl.
        destruct (retry_interval <? 0).
        -- intros [= <- <-]. exists 1%nat, O. simpl. project_log.
           split_and!; try done; lia.
        -- intros Hrun. destruct rest as [|i' rest'].
           ++ simpl in Hrun. unfold ret in Hrun. injection Hrun as <- <-.
              exists 1%nat, 1%nat. simpl. project_log.
              split_and!; try done; try lia.
              intros _ r0 [= <-]. right. apply Z.eqb_neq in H200. by split.
           ++ apply IH in Hrun
                as (n & m & Hn & Hm & _ & Hreq & Hsl & Hck & Hout).
              exists (S n), (S m). simpl in *. rewrite Hreq, Hsl, Hck.
              project_log. rewrite <- !app_assoc. simpl.
              split_and!; try done; try lia.
              intros _ r0 Hr0.
              destruct (Hout ltac:(done) r0 Hr0) as [[? ?]|(? & ? & ?)];
                [left|right]; split_and!; try done; lia.
    + injection Hrun as <- <-. exists 1%nat, O. simpl. project_log.
      split_and!; try done; lia.
Qed.
End LoopAccounts.

Section Bounds.
Context {W : Type} `{World W}.
Import RevenueReport.

(** X2. Whatever the service does, with [max_retries >= 0] a call of
    [get_report] and a turn of [get_report_batch] make at least one and at
    most [max_retries + 1] requests, all alike, and never sleep more often
    than they ask; when they come back with a table, every request but the
    last was followed by a sleep of [retry_interval]. *)
Theorem attempts_stay_within_budget (max_retries retry_interval : Z) :
  0 <= max_retries →
  (∀ self start_date end_date columns limit kwargs (st : St W) res st',
     get_report self start_date end_date columns limit max_retries
       retry_interval kwargs st = (res, st') →
     ∃ (n m : nat) params,
       (1 ≤ n ≤ Z.to_nat (max_retries + 1))%nat ∧ (m ≤ n)%nat
       ∧ requests_made (log st')
         = requests_made (log st) ++ replicate n (ENDPOINT, params)
       ∧ sleeps_made (log st')
         = sleeps_made (log st) ++ replicate m retry_interval
       ∧ (∀ df, res = Ok df → n = S m))
  ∧ (∀ fr (st : St W) res st',
       f_has_next_batch fr = true → f_max_retries fr = max_retries →
       f_retry_interval fr = retry_interval →
       next (GenSuspended fr) st = (res, st') →
       ∃ n m : nat,
         (1 ≤ n ≤ Z.to_nat (max_retries + 1))%nat ∧ (m ≤ n)%nat
         ∧ requests_made (log st')
           = requests_made (log st) ++ replicate n (ENDPOINT, batch_params fr)
         ∧ sleeps_made (log st')
           = sleeps_made (log st) ++ replicate m retry_interval
         ∧ (∀ page, res = Ok page → n = S m)).
Proof.
  intros Hmax.
  destruct (range_attempts_cons max_retries Hmax) as (i0 & rest0 & Hidx).
  assert (Hne : range (max_retries + 1) ≠ []) by (by rewrite Hidx).
  split.
  - intros self start_date end_date columns limit kwargs st res st'.
    unfold get_report. unfold bind at 1.
    destruct (default_dates_quiet start_date end_date st)
      as (dates & st0 & Hdates & Hreq0 & Hsl0).
    rewrite Hdates. unfold bind at 1.
    destruct (get_report_attempts _ _ _ _ _ st0) as [r st1] eqn:Hloop.
    apply get_report_attempts_account in Hloop
      as (n & m & Hn & Hm & Hpos & Hreq & Hsl & _ & Hok & Hout).
    rewrite range_length in Hn. specialize (Hpos Hne).
    intros Hrun.
    exists n, m, (get_report_params self dates.1 dates.2 columns limit kwargs).
    split; [lia|]. split; [lia|].
    rewrite <- Hreq0, <- Hsl0, <- Hreq, <- Hsl.
    destruct r as [[df|response]|e].
    + injection Hrun as <- <-. split_and!; try done.
      intros df' [= <-]. by apply (Hok df).
    + revert Hrun. unfold_monad. simpl.
      destruct response; intros [= <- <-]; simpl; project_log;
        split_and!; done.
    + injection Hrun as <- <-. split_and!; done.
  - intros fr st res st' Hnext Hm Hr. simpl.
    unfold batch_loop, batch_iteration. rewrite Hnext, Hm, Hr.
    unfold bind at 1. unfold bind at 1.
    destruct (batch_attempts _ _ _ _ _ st) as [r st1] eqn:Hloop.
    apply batch_attempts_account in Hloop
      as (n & m & Hn & Hmn & Hpos & Hreq & Hsl & _ & Hout).
    rewrite range_length in Hn. specialize (Hpos Hne). specialize (Hout Hne).
    intros Hrun. exists n, m. split; [lia|]. split; [lia|].
    rewrite <- Hreq, <- Hsl.
    destruct r as [[response|]|e].
    + destruct (Hout response eq_refl) as [[H200 HnS]|(H200 & _ & _)].
      * revert Hrun. rewrite H200. simpl. unfold_monad.
        destruct (response_json response) as [body|e]; simpl;
          [|by intros [= <- <-]].
        destruct (py_getitem body "results") as [results|e]; simpl;
          [|by intros [= <- <-]].
        destruct (py_len results) as [k|e]; simpl;
          [destruct (DataFrame_call results); simpl|]; by intros [= <- <-].
      * revert Hrun.
        replace (status_code response =? 200) with false
          by (symmetry; apply Z.eqb_neq; lia).
        simpl. unfold_monad. simpl. intros [= <- <-]. simpl. project_log.
        split_and!; done.
    + revert Hrun. unfold raise. intros [= <- <-]. split_and!; done.
    + injection Hrun as <- <-. split_and!; done.
Qed.

(** X8. The clock is read only to fill in missing dates, and only before the
    first request: [get_report] and the first [next] of [get_report_batch]
    read it twice when a date is missing and not at all otherwise, and no
    later [next] ever reads it, so all pages of one run are asked for with
    the same two dates. *)
Theorem clock_is_read_only_for_missing_dates :
  (∀ self start_date end_date columns limit max_retries retry_interval kwargs
     (st : St W) res st',
     get_report self start_date end_date columns limit max_retries
       retry_interval kwargs st = (res, st') →
     clock_reads (log st')
     = clock_reads (log st)
       ++ (if falsy start_date || falsy end_date then [(); ()] else []))
  ∧ (∀ self start_date end_date columns batch_size max_retries retry_interval
       kwargs (st : St W) res st',
       next (get_report_batch self start_date end_date columns batch_size
               max_retries retry_interval kwargs) st = (res, st') →
       clock_reads (log st')
       = clock_reads (log st)
         ++ (if falsy start_date || falsy end_date then [(); ()] else []))
  ∧ (∀ fr (st : St W) res st',
       next (GenSuspended fr) st = (res, st') →
       clock_reads (log st') = clock_reads (log st)
       ∧ ∀ df fr', res = Ok (Some df, GenSuspended fr') →
           f_start_date fr' = f_start_date fr ∧ f_end_date fr' = f_end_date fr).
Proof.
  assert (Hdates : ∀ start_date end_date (st : St W), ∃ dates st0,
            default_dates start_date end_date st = (Ok dates, st0)
            ∧ clock_reads (log st0)
              = clock_reads (log st)
                ++ (if falsy start_date || falsy end_date
                    then [(); ()] else [])).
  { intros start_date end_date st. rewrite default_dates_run.
    destruct (falsy start_date || falsy end_date).
    - destruct (datetime_now (world st)) as [now1 w1].
      destruct (datetime_now w1) as [now2 w2].
      eexists _, _. split; [reflexivity|]. simpl. by project_log.
    - eexists _, _. split; [reflexivity|]. by rewrite app_nil_r. }
  assert (Hloop : ∀ fr (st : St W) res st',
            batch_loop fr st = (res, st') →
            clock_reads (log st') = clock_reads (log st)
            ∧ ∀ df fr', res = Ok (Some df, GenSuspended fr') →
                f_start_date fr' = f_start_date fr
                ∧ f_end_date fr' = f_end_date fr).
  { intros fr st res st'. unfold batch_loop.
    destruct (f_has_next_batch fr);
      [|unfold ret; intros [= <- <-]; split; [done|intros ? ? [=]]].
    unfold batch_iteration. unfold bind at 1. unfold bind at 1.
    destruct (batch_attempts _ _ _ _ _ st) as [r st1] eqn:Hrun.
    apply batch_attempts_account in Hrun
      as (n & m & _ & _ & _ & _ & _ & Hck & _).
    rewrite <- Hck.
    destruct r as [[response|]|e]; [| |by intros [= <- <-]].
    - destruct (negb (status_code response =? 200)).
      + unfold_monad. simpl. intros [= <- <-]. simpl. by project_log.
      + unfold_monad. simpl.
        destruct (response_json response) as [body|e]; simpl;
          [|by intros [= <- <-]].
        destruct (py_getitem body "results") as [results|e]; simpl;
          [|by intros [= <- <-]].
        destruct (py_len results) as [k|e]; simpl; [|by intros [= <- <-]].
        destruct (DataFrame_call results) as [df0|e]; simpl;
          [|by intros [= <- <-]].
        intros [= <- <-]. split; [done|]. by intros df fr' [= _ <-].
    - unfold raise. by intros [= <- <-]. }
  split_and!.
  - intros self start_date end_date columns limit max_retries retry_interval
      kwargs st res st'.
    unfold get_report. unfold bind at 1.
    destruct (Hdates start_date end_date st) as (dates & st0 & -> & <-).
    unfold bind at 1.
    destruct (get_report_attempts _ _ _ _ _ st0) as [r st1] eqn:Hrun.
    apply get_report_attempts_account in Hrun
      as (n & m & _ & _ & _ & _ & _ & Hck & _).
    rewrite <- Hck.
    destruct r as [[df|response]|e]; [by intros [= <- <-]| |by intros [= <- <-]].
    unfold_monad. simpl.
    destruct response; intros [= <- <-]; simpl; by project_log.
  - intros self start_date end_date columns batch_size max_retries
      retry_interval kwargs st res st'.
    unfold get_report_batch, next. unfold bind at 1.
    destruct (Hdates start_date end_date st) as (dates & st0 & -> & <-).
    intros Hrun. by apply Hloop in Hrun as [-> _].
  - intros fr st res st' Hrun. simpl in Hrun. by apply Hloop in Hrun.
Qed.
End Bounds.

Lemma attempts_budget_witness :
  0 <= 3
  ∧ ∃ n : nat,
      (1 ≤ n ≤ 4)%nat
      ∧ length (requests_made
                  (log (run_script [Ok response_503; Ok one_row_response]).2))
        = n.
Proof.
  assert (H3 : 0 <= 3) by lia.
  split; [exact H3|].
  destruct (@attempts_stay_within_budget _ script_world 3 0 H3) as [Hget _].
  destruct (Hget default_service (Some "2023-05-14") (Some "2023-05-16")
              ["day"] 100000 ∅ (init_state [Ok response_503; Ok one_row_response])
              _ _ (surjective_pairing _))
    as (n & m & params & Hn & _ & Hreq & _).
  exists n. split; [exact Hn|].
  unfold run_script. rewrite Hreq. simpl. by rewrite length_replicate.
Defined.

Lemma clock_reads_witness :
  clock_reads (log (run_script [Ok one_row_response]).2) = [].
Proof.
  destruct (@clock_is_read_only_for_missing_dates _ script_world) as [Hget _].
  rewrite (Hget default_service (Some "2023-05-14") (Some "2023-05-16")
             ["day"] 100000 3 0 ∅ (init_state [Ok one_row_response])
             _ _ (surjective_pairing _)).
  reflexivity.
Defined.

Section EdgeArguments.
Context {W : Type} `{World W}.
Import RevenueReport.

(** X3. A negative [max_retries] leaves the loop without a single turn: no
    request is made at all. [get_report] then prints the traceback line and
    fails on the unassigned [response]; a turn of [get_report_batch] fails on
    [None.status_code] and changes nothing. *)
Theorem negative_max_retries_makes_no_request (max_retries : Z) :
  max_retries < 0 →
  (∀ self start_date end_date columns limit retry_interval kwargs (st : St W),
     ∃ st',
       get_report self start_date end_date columns limit max_retries
         retry_interval kwargs st
       = (Raise (UnboundLocalError "response"), st')
       ∧ requests_made (log st') = requests_made (log st)
       ∧ prints_made (log st')
         = prints_made (log st) ++ [format_exc_no_exception])
  ∧ (∀ fr (st : St W),
       f_has_next_batch fr = true → f_max_retries fr = max_retries →
       next (GenSuspended fr) st = (Raise (AttributeError "status_code"), st)).
Proof.
  intros Hneg. split.
  - intros self start_date end_date columns limit retry_interval kwargs st.
    unfold get_report. unfold bind at 1.
    rewrite default_dates_run.
    destruct (falsy start_date || falsy end_date).
    + destruct (datetime_now (world st)) as [now1 w1].
      destruct (datetime_now w1) as [now2 w2].
      rewrite range_nonpos by lia. simpl. unfold_monad. simpl.
      eexists. split; [reflexivity|]. simpl. by project_log.
    + rewrite range_nonpos by lia. simpl. unfold_monad. simpl.
      eexists. split; [reflexivity|]. simpl. by project_log.
  - intros fr st Hnext Hm. simpl. unfold batch_loop, batch_iteration.
    rewrite Hnext, Hm, range_nonpos by lia. reflexivity.
Qed.

(** X4. A negative [retry_interval] turns the first failed attempt into the
    end of the call: [time.sleep] refuses it, so after one request that was
    not answered with 200 the [ValueError] of the sleep escapes, from
    [get_report] and from a turn of [get_report_batch] alike, whatever
    [max_retries >= 0] allows. *)
Theorem negative_retry_interval_stops_at_first_failure
    (code max_retries retry_interval : Z) :
  always_status code → code ≠ 200 → 0 <= max_retries → retry_interval < 0 →
  (∀ self start_date end_date columns limit kwargs (st : St W),
     ∃ st' params,
       get_report self start_date end_date columns limit max_retries
         retry_interval kwargs st
       = (Raise (ValueError "sleep length must be non-negative"), st')
       ∧ requests_made (log st')
         = requests_made (log st) ++ [(ENDPOINT, params)]
       ∧ sleeps_made (log st') = sleeps_made (log st))
  ∧ (∀ fr (st : St W),
       f_has_next_batch fr = true → f_max_retries fr = max_retries →
       f_retry_interval fr = retry_interval →
       ∃ st',
         next (GenSuspended fr) st
         = (Raise (ValueError "sleep length must be non-negative"), st')
         ∧ requests_made (log st')
           = requests_made (log st) ++ [(ENDPOINT, batch_params fr)]
         ∧ sleeps_made (log st') = sleeps_made (log st)).
Proof.
  intros Hserver Hcode Hmax Hri.
  destruct (range_attempts_cons max_retries Hmax) as (i0 & rest0 & Hidx).
  assert (Hlt : (retry_interval <? 0) = true) by (apply Z.ltb_lt; lia).
  split.
  - intros self start_date end_date columns limit kwargs st.
    unfold get_report. unfold bind at 1.
    destruct (default_dates_quiet start_date end_date st)
      as (dates & st0 & Hdates & Hreq0 & Hsl0).
    rewrite Hdates, Hidx. simpl. unfold bind at 1. unfold bind at 1.
    unfold do_requests_get.
    match goal with
    | |- context [requests_get ?u ?p (world st0)] =>
        destruct (Hserver u p (world st0)) as (r & w' & -> & Hr)
    end.
    replace (status_code r =? 200) with false
      by (symmetry; apply Z.eqb_neq; lia).
    unfold_monad. simpl. rewrite Hlt.
    eexists _, _. split; [reflexivity|]. simpl. project_log.
    by rewrite Hreq0, Hsl0.
  - intros fr st Hnext Hm Hr. simpl. unfold batch_loop, batch_iteration.
    rewrite Hnext, Hm, Hr, Hidx. simpl. unfold bind at 1. unfold bind at 1.
    unfold bind at 1. unfold do_requests_get.
    destruct (Hserver ENDPOINT (batch_params fr) (world st))
      as (r & w' & -> & Hcode').
    replace (status_code r =? 200) with false
      by (symmetry; apply Z.eqb_neq; lia).
    unfold_monad. simpl. rewrite Hlt.
    eexists. split; [reflexivity|]. simpl. by project_log.
Qed.

(** X5. A 200 answer is final even when it is useless: if its body is not
    JSON the call fails with the decoding error, and if it is JSON without a
    [results] entry with [KeyError], after that single request, with no sleep
    and no further attempt; so does a turn of [get_report_batch]. *)
Theorem unusable_200_answer_is_not_retried (r : Response) (max_retries : Z) :
  always_answers r → status_code r = 200 → 0 <= max_retries →
  ∀ e, (json r = None ∧ e = JSONDecodeError
        ∨ ∃ body, json r = Some body ∧ py_getitem body "results" = Raise e) →
  (∀ self start_date end_date columns limit retry_interval kwargs (st : St W),
     ∃ st' params,
       get_report self start_date end_date columns limit max_retries
         retry_interval kwargs st = (Raise e, st')
       ∧ requests_made (log st')
         = requests_made (log st) ++ [(ENDPOINT, params)]
       ∧ sleeps_made (log st') = sleeps_made (log st))
  ∧ (∀ fr (st : St W),
       f_has_next_batch fr = true → f_max_retries fr = max_retries →
       ∃ st',
         next (GenSuspended fr) st = (Raise e, st')
         ∧ requests_made (log st')
           = requests_made (log st) ++ [(ENDPOINT, batch_params fr)]
         ∧ sleeps_made (log st') = sleeps_made (log st)).
Proof.
  intros Hserver H200 Hmax e Hbody.
  destruct (range_attempts_cons max_retries Hmax) as (i0 & rest0 & Hidx).
  split.
  - intros self start_date end_date columns limit retry_interval kwargs st.
    unfold get_report. unfold bind at 1.
    destruct (default_dates_quiet start_date end_date st)
      as (dates & st0 & Hdates & Hreq0 & Hsl0).
    rewrite Hdates, Hidx. simpl. unfold bind at 1. unfold bind at 1.
    unfold do_requests_get.
    match goal with
    | |- context [requests_get ?u ?p (world st0)] =>
        destruct (Hserver u p (world st0)) as (w' & ->)
    end.
    rewrite H200. simpl. unfold response_json. unfold_monad.
    destruct Hbody as [[-> ->]|(body & -> & ->)]; simpl;
      eexists _, _; (split; [reflexivity|]); simpl; project_log;
      by rewrite Hreq0, Hsl0.
  - intros fr st Hnext Hm. simpl. unfold batch_loop, batch_iteration.
    rewrite Hnext, Hm, Hidx. simpl. unfold bind at 1. unfold bind at 1.
    unfold bind at 1. unfold do_requests_get.
    destruct (Hserver ENDPOINT (batch_params fr) (world st)) as (w' & ->).
    rewrite H200. simpl. unfold response_json. unfold_monad.
    rewrite ?H200. simpl.
    destruct Hbody as [[-> ->]|(body & -> & ->)]; simpl;
      eexists; (split; [reflexivity|]); simpl; by project_log.
Qed.
End EdgeArguments.

Lemma negative_max_retries_witness :
  -1 < 0
  ∧ ∃ st',
      @RevenueReport.get_report unit (dataset_world five_rows) default_service
        None None ["day"] 100000 (-1) 30 ∅ (init_state tt)
      = (Raise (UnboundLocalError "response"), st')
      ∧ requests_made (log st') = [].
Proof.
  assert (Hneg : -1 < 0) by lia.
  split; [exact Hneg|].
  destruct (@negative_max_retries_makes_no_request unit
              (dataset_world five_rows) (-1) Hneg) as [Hget _].
  destruct (Hget default_service None None ["day"] 100000 30 ∅ (init_state tt))
    as (st' & Hrun & Hreq & _).
  by exists st'.
Defined.

Lemma negative_retry_interval_witness :
  @always_status unit (constant_world response_503) 503
  ∧ 503 ≠ 200 ∧ 0 <= 3 ∧ -1 < 0
  ∧ ∃ st',
      @RevenueReport.get_report unit (constant_world response_503)
        default_service None None ["day"] 100000 3 (-1) ∅ (init_state tt)
      = (Raise (ValueError "sleep length must be non-negative"), st')
      ∧ length (requests_made (log st')) = 1%nat.
Proof.
  assert (Hs : @always_status unit (constant_world response_503) 503).
  { intros url params w. by exists response_503, w. }
  assert (Hc : 503 ≠ 200) by lia.
  assert (H3 : 0 <= 3) by lia.
  assert (Hneg : -1 < 0) by lia.
  split_and!; try assumption.
  destruct (@negative_retry_interval_stops_at_first_failure unit
              (constant_world response_503) 503 3 (-1) Hs Hc H3 Hneg)
    as [Hget _].
  destruct (Hget default_service None None ["day"] 100000 ∅ (init_state tt))
    as (st' & params & Hrun & Hreq & _).
  exists st'. split; [exact Hrun|]. by rewrite Hreq.
Defined.

Lemma unusable_200_answer_witness :
  @always_answers unit (constant_world response_without_results)
    response_without_results
  ∧ ∃ st',
      @RevenueReport.get_report unit (constant_world response_without_results)
        default_service None None ["day"] 100000 3 30 ∅ (init_state tt)
      = (Raise (KeyError "results"), st')
      ∧ length (requests_made (log st')) = 1%nat.
Proof.
  assert (Hs : @always_answers unit (constant_world response_without_results)
                 response_without_results).
  { intros url params w. by exists w. }
  assert (H3 : 0 <= 3) by lia.
  split; [exact Hs|].
  destruct (@unusable_200_answer_is_not_retried unit
              (constant_world response_without_results)
              response_without_results 3 Hs eq_refl H3 (KeyError "results"))
    as [Hget _].
  { right. by exists (PDict []). }
  destruct (Hget default_service None None ["day"] 100000 30 ∅ (init_state tt))
    as (st' & params & Hrun & Hreq & _).
  exists st'. split; [exact Hrun|]. by rewrite Hreq.
Defined.

Section ProgressLines.
Context {W : Type} `{World W}.
Variable code : Z.
Hypothesis Hserver : always_status code.
Hypothesis Hcode : code ≠ 200.
Import RevenueReport.

(** On a service that always refuses, the loop of [get_report] prints one
    line per index. *)
Lemma get_report_attempts_lines params max_retries retry_interval :
  0 <= retry_interval →
  ∀ idxs response (st : St W), ∃ res st',
    get_report_attempts params max_retries retry_interval idxs response st
      = (Ok (inr res), st')
    ∧ prints_made (log st')
      = prints_made (log st)
        ++ map (fun i => retrying_line i max_retries) idxs.
Proof using All.
  intros Hri idxs. induction idxs as [|i rest IH]; intros response st.
  - exists response, st. simpl. by rewrite app_nil_r.
  - destruct (Hserver ENDPOINT params (world st)) as (r & w' & Hget & Hr).
    simpl. unfold bind at 1. unfold do_requests_get. rewrite Hget.
    replace (status_code r =? 200) with false
      by (symmetry; apply Z.eqb_neq; lia).
    unfold_monad. simpl.
    replace (retry_interval <? 0) with false
      by (symmetry; apply Z.ltb_ge; lia).
    match goal with
    | |- context [get_report_attempts _ _ _ rest (Some r) ?s] =>
        destruct (IH (Some r) s) as (res & st' & Hrun & Hpr)
    end.
    exists res, st'. split; [exact Hrun|]. rewrite Hpr. simpl. project_log.
    by rewrite <- !app_assoc.
Qed.

(** X6. What a failing [get_report] prints. Against a service that always
    answers a status other than 200, with [max_retries = N >= 0], the lines
    are ["Retrying... (1/N)"] up to ["Retrying... (N+1/N)"], one per
    attempt, so that the count of the last line exceeds the announced total
    by one, and then what [traceback.format_exc()] returns with no exception
    at hand, ["NoneType: None"] and a line feed. *)
Theorem failing_get_report_prints
    (max_retries retry_interval : Z) self start_date end_date columns limit
    kwargs (st : St W) :
  0 <= max_retries → 0 <= retry_interval →
  ∃ res st',
    get_report self start_date end_date columns limit max_retries
      retry_interval kwargs st = (res, st')
    ∧ prints_made (log st')
      = prints_made (log st)
        ++ map (fun i => "Retrying... (" +:+ str_of_int (i + 1) +:+ "/"
                         +:+ str_of_int max_retries +:+ ")")
             (range max_retries)
        ++ ["Retrying... (" +:+ str_of_int (max_retries + 1) +:+ "/"
            +:+ str_of_int max_retries +:+ ")";
            "NoneType: None" +:+ String "010"%char ""].
Proof using All.
  intros Hmax Hri. unfold get_report. unfold bind at 1.
  rewrite default_dates_run.
  assert (Hgo : ∀ dates (st0 : St W),
            prints_made (log st0) = prints_made (log st) →
            ∃ res st',
              (r <- get_report_attempts
                      (get_report_params self dates.1 dates.2 columns limit
                         kwargs)
                      max_retries retry_interval (range (max_retries + 1))
                      None ;;
               match r with
               | inl df => ret df
               | inr response =>
                   print format_exc_no_exception ;;;
                   match response with
                   | None => raise (UnboundLocalError "response")
                   | Some response =>
                       raise (Exception ("Error: " +:+
                                         str_of_int (status_code response)))
                   end
               end) st0 = (res, st')
              ∧ prints_made (log st')
                = prints_made (log st)
                  ++ map (fun i => retrying_line i max_retries)
                       (range max_retries)
                  ++ [retrying_line max_retries max_retries;
                      format_exc_no_exception]).
  { intros dates st0 Hpr0. unfold bind at 1.
    destruct (get_report_attempts_lines
                (get_report_params self dates.1 dates.2 columns limit kwargs)
                max_retries retry_interval Hri (range (max_retries + 1)) None
                st0) as (resp & st1 & -> & Hpr).
    unfold_monad. simpl.
    destruct resp; eexists _, _; (split; [reflexivity|]); simpl; project_log;
      rewrite Hpr, Hpr0, range_succ, map_app by lia; simpl;
      by rewrite <- !app_assoc. }
  destruct (falsy start_date || falsy end_date).
  - destruct (datetime_now (world st)) as [now1 w1].
    destruct (datetime_now w1) as [now2 w2].
    apply Hgo. simpl. by project_log.
  - by apply Hgo.
Qed.
End ProgressLines.

Lemma failing_get_report_prints_witness :
  ∃ res st',
    @RevenueReport.get_report unit (constant_world response_503)
      default_service None None ["day"] 100000 3 0 ∅ (init_state tt)
    = (res, st')
    ∧ prints_made (log st')
      = ["Retrying... (1/3)"; "Retrying... (2/3)"; "Retrying... (3/3)";
         "Retrying... (4/3)"; "NoneType: None" +:+ String "010"%char ""].
Proof.
  assert (Hs : @always_status unit (constant_world response_503) 503).
  { intros url params w. by exists response_503, w. }
  assert (Hc : 503 ≠ 200) by lia.
  assert (H3 : 0 <= 3) by lia.
  assert (H0 : 0 <= 0) by lia.
  destruct (@failing_get_report_prints unit (constant_world response_503)
              503 Hs Hc 3 0 default_service None None ["day"] 100000 ∅
              (init_state tt) H3 H0) as (res & st' & Hrun & Hpr).
  exists res, st'. split; [exact Hrun|]. rewrite Hpr. reflexivity.
Defined.

Section FullPages.
Context {W : Type} `{World W}.
Variables batch_size max_retries : Z.
Hypothesis Hfull : always_full_page batch_size.
Hypothesis Hmax : 0 <= max_retries.
Import RevenueReport.

(** A turn of the loop against a service that only has full pages: one
    request, a table of [batch_size] rows, and a frame that asks for more. *)
Lemma full_page_turn (fr : BatchFrame) (st : St W) :
  f_has_next_batch fr = true → f_batch_size fr = batch_size →
  f_max_retries fr = max_retries →
  ∃ df fr' st',
    batch_loop fr st = (Ok (Some df, GenSuspended fr'), st')
    ∧ Z.of_nat (length (df_rows df)) = batch_size
    ∧ f_has_next_batch fr' = true ∧ f_batch_size fr' = batch_size
    ∧ f_max_retries fr' = max_retries
    ∧ f_offset fr' = f_offset fr + batch_size
    ∧ requests_made (log st')
      = requests_made (log st) ++ [(ENDPOINT, batch_params fr)].
Proof using All.
  intros Hnext Hbs Hm. unfold batch_loop, batch_iteration.
  rewrite Hnext, Hm.
  destruct (range_attempts_cons max_retries Hmax) as (i0 & rest0 & ->).
  simpl. unfold bind at 1. unfold bind at 1. unfold bind at 1.
  unfold do_requests_get.
  destruct (Hfull ENDPOINT (batch_params fr) (world st))
    as (r & w' & body & rows & -> & H200 & Hjson & Hres & Hlen).
  rewrite H200. simpl. unfold_monad. rewrite ?H200. simpl.
  unfold response_json. rewrite Hjson, Hres. simpl.
  eexists _, _, _. split; [reflexivity|]. simpl.
  unfold df_rows. simpl. project_log.
  split_and!; try done.
  - rewrite Hbs. by apply Z.eqb_eq.
  - by rewrite Hbs.
Qed.

Lemma full_pages_from_frame :
  ∀ (fuel : nat) (fr : BatchFrame) (st : St W),
    f_has_next_batch fr = true → f_batch_size fr = batch_size →
    f_max_retries fr = max_retries →
    ∃ st',
      collect fuel (GenSuspended fr) st = (Ok None, st')
      ∧ length (requests_made (log st'))
        = (length (requests_made (log st)) + fuel)%nat.
Proof using All.
  induction fuel as [|fuel IH]; intros fr st Hnext Hbs Hm.
  - exists st. simpl. split; [done|lia].
  - simpl. unfold bind at 1.
    destruct (full_page_turn fr st Hnext Hbs Hm)
      as (df & fr' & st1 & -> & _ & Hnext' & Hbs' & Hm' & _ & Hreq).
    destruct (IH fr' st1 Hnext' Hbs' Hm') as (st2 & Hrest & Hcount).
    unfold bind at 1. rewrite Hrest. unfold ret. simpl.
    eexists. split; [reflexivity|]. rewrite Hcount, Hreq, length_app. simpl.
    lia.
Qed.

(** X7. Pagination has no end of its own: against a service whose every
    answer is a page of exactly [batch_size] rows (for [batch_size = 0], a
    service that answers with empty pages), the generator of
    [get_report_batch] yields a table at every [next], each time after one
    request at an offset [batch_size] further, and is never exhausted:
    however many [next] calls are spent, it has not finished and has sent
    that many requests. *)
Theorem full_pages_never_end self start_date end_date columns retry_interval
    kwargs :
  (∀ (fr : BatchFrame) (st : St W),
     f_has_next_batch fr = true → f_batch_size fr = batch_size →
     f_max_retries fr = max_retries →
     ∃ df fr' st',
       next (GenSuspended fr) st = (Ok (Some df, GenSuspended fr'), st')
       ∧ Z.of_nat (length (df_rows df)) = batch_size
       ∧ f_has_next_batch fr' = true
       ∧ f_offset fr' = f_offset fr + batch_size
       ∧ requests_made (log st')
         = requests_made (log st) ++ [(ENDPOINT, batch_params fr)])
  ∧ (∀ (fuel : nat) (st : St W),
       ∃ st',
         collect fuel
           (get_report_batch self start_date end_date columns batch_size
              max_retries retry_interval kwargs) st
         = (Ok None, st')
         ∧ length (requests_made (log st'))
           = (length (requests_made (log st)) + fuel)%nat).
Proof using All.
  split.
  - intros fr st Hnext Hbs Hm. simpl.
    destruct (full_page_turn fr st Hnext Hbs Hm)
      as (df & fr' & st1 & Hrun & Hlen & Hnext' & _ & _ & Hoff & Hreq).
    by exists df, fr', st1.
  - intros fuel st. destruct fuel as [|fuel].
    + exists st. simpl. split; [done|lia].
    + simpl. unfold bind at 1. unfold bind at 1.
      destruct (default_dates_quiet start_date end_date st)
        as (dates & st0 & -> & Hreq0 & _).
      match goal with
      | |- context [batch_loop ?fr st0] =>
          destruct (full_page_turn fr st0 eq_refl eq_refl eq_refl)
            as (df & fr' & st1 & -> & _ & Hnext' & Hbs' & Hm' & _ & Hreq)
      end.
      destruct (full_pages_from_frame fuel fr' st1 Hnext' Hbs' Hm')
        as (st2 & Hrest & Hcount).
      unfold bind at 1. rewrite Hrest. unfold ret. simpl.
      eexists. split; [reflexivity|].
      rewrite Hcount, Hreq, Hreq0, length_app. simpl. lia.
Qed.
End FullPages.

Lemma full_pages_witness :
  @always_full_page unit (constant_world three_rows_response) 3
  ∧ 0 <= 3
  ∧ ∃ st',
      @RevenueReport.collect unit (constant_world three_rows_response) 5
        (RevenueReport.get_report_batch default_service (Some "2023-05-14")
           (Some "2023-05-16") ["day"; "impressions"] 3 3 30 ∅)
        (init_state tt)
      = (Ok None, st')
      ∧ length (requests_made (log st')) = 5%nat.
Proof.
  assert (Hfull : @always_full_page unit (constant_world three_rows_response) 3).
  { intros url params w.
    by exists three_rows_response, w,
         (PDict [("results", PList three_rows)]), three_rows. }
  assert (H3 : 0 <= 3) by lia.
  split; [exact Hfull|]. split; [exact H3|].
  destruct (@full_pages_never_end unit (constant_world three_rows_response)
              3 3 Hfull H3 default_service (Some "2023-05-14")
              (Some "2023-05-16") ["day"; "impressions"] 30 ∅) as [_ Hnever].
  destruct (Hnever 5%nat (init_state tt)) as (st' & Hrun & Hcount).
  by exists st'.
Defined.

Section PageCount.
Variable rows : list PyVal.
Variable self : RevenueReport.t.
Variable columns : list string.
Variables batch_size max_retries retry_interval : Z.
Variable kwargs : gmap string PyVal.
Hypothesis Hsize : 0 < batch_size.
Hypothesis Hmax : 0 <= max_retries.
Hypothesis Hoffset : kwargs !! "offset" = None.
Hypothesis Hlimit : kwargs !! "limit" = None.
Import RevenueReport.

(** The first [next] decides the dates; from then on the generator is the
    frame at offset 0. *)
Lemma collect_created start_date end_date (st st0 : St unit) dates fuel :
  @default_dates unit (dataset_world rows) start_date end_date st
    = (Ok dates, st0) →
  @collect unit (dataset_world rows) (S fuel)
    (get_report_batch self start_date end_date columns batch_size max_retries
       retry_interval kwargs) st
  = @collect unit (dataset_world rows) (S fuel)
      (GenSuspended
         (frame_at self dates.1 dates.2 columns batch_size max_retries
            retry_interval kwargs 0 true)) st0.
Proof.
  intros Hdates. simpl. unfold bind. by rewrite Hdates.
Qed.

(** One turn of the loop against the service that holds [rows], with the
    request it logs. *)
Lemma dataset_turn start_date end_date offset (st : St unit) :
  @batch_loop unit (dataset_world rows)
    (frame_at self start_date end_date columns batch_size max_retries
       retry_interval kwargs offset true) st
  = (Ok (Some (pd_DataFrame
                 (PList (take (Z.to_nat batch_size)
                           (drop (Z.to_nat offset) rows)))),
         GenSuspended
           (frame_at self start_date end_date columns batch_size max_retries
              retry_interval kwargs (offset + batch_size)
              (Z.of_nat (length (take (Z.to_nat batch_size)
                                   (drop (Z.to_nat offset) rows)))
               =? batch_size))),
     mkSt tt
       (log st
        ++ [EvGet ENDPOINT
              (batch_params
                 (frame_at self start_date end_date columns batch_size
                    max_retries retry_interval kwargs offset true))])).
Proof using Hmax Hoffset Hlimit.
  unfold batch_loop, batch_iteration. simpl.
  destruct (range_attempts_cons max_retries Hmax) as (i0 & rest0 & ->).
  simpl. unfold_monad. simpl. unfold dataset_response.
  rewrite (dataset_page_of_frame rows self columns batch_size max_retries
             retry_interval kwargs Hoffset Hlimit start_date end_date offset
             true).
  simpl. by destruct (world st).
Qed.

(** Draining from the frame at [offset]: full pages as long as [batch_size]
    rows are left, then one page with the remainder. *)
Lemma dataset_pages_from start_date end_date :
  ∀ (fuel : nat) offset (st : St unit),
    0 <= offset →
    ((length rows - Z.to_nat offset) / Z.to_nat batch_size + 2 ≤ fuel)%nat →
    ∃ pages st',
      @collect unit (dataset_world rows) fuel
        (GenSuspended
           (frame_at self start_date end_date columns batch_size max_retries
              retry_interval kwargs offset true)) st
      = (Ok (Some pages), st')
      ∧ page_sizes pages
        = replicate ((length rows - Z.to_nat offset) / Z.to_nat batch_size)
            (Z.to_nat batch_size)
          ++ [((length rows - Z.to_nat offset) `mod` Z.to_nat batch_size)%nat]
      ∧ length (requests_made (log st'))
        = (length (requests_made (log st))
           + (length rows - Z.to_nat offset) / Z.to_nat batch_size + 1)%nat.
Proof using All.
  induction fuel as [|fuel IH]; intros offset st Hoff Hfuel; [lia|].
  simpl. unfold bind at 1. rewrite dataset_turn.
  set (bs := Z.to_nat batch_size) in *.
  set (rem := (length rows - Z.to_nat offset)%nat) in *.
  assert (Hbs : (0 < bs)%nat) by (subst bs; lia).
  assert (Hpage : length (take bs (drop (Z.to_nat offset) rows))
                  = Nat.min bs rem).
  { by rewrite length_take, length_drop. }
  rewrite Hpage.
  destruct (decide (bs ≤ rem)%nat) as [Hge|Hlt].
  - replace (Z.of_nat (Nat.min bs rem) =? batch_size) with true
      by (symmetry; apply Z.eqb_eq; subst bs; lia).
    assert (Hrem : rem = ((rem - bs) + 1 * bs)%nat) by lia.
    assert (Hdiv : (rem / bs = (rem - bs) / bs + 1)%nat).
    { rewrite Hrem at 1. rewrite Nat.div_add by lia. lia. }
    assert (Hmod : (rem `mod` bs = (rem - bs) `mod` bs)%nat).
    { rewrite Hrem at 1. by rewrite Nat.Div0.mod_add. }
    assert (Hnext : (length rows - Z.to_nat (offset + batch_size))%nat
                    = (rem - bs)%nat) by (subst rem bs; lia).
    destruct (IH (offset + batch_size)
                (mkSt tt
                   (log st
                    ++ [EvGet ENDPOINT
                          (batch_params
                             (frame_at self start_date end_date columns
                                batch_size max_retries retry_interval kwargs
                                offset true))])))
      as (pages & st' & Hrun & Hsizes & Hcount); [lia|rewrite Hnext; lia|].
    unfold bind at 1. rewrite Hrun. unfold ret. simpl.
    eexists _, _. split; [reflexivity|]. rewrite Hnext in Hsizes, Hcount.
    split.
    + simpl. rewrite Hsizes. unfold df_rows. simpl. rewrite Hpage, Hdiv, Hmod.
      replace ((rem - bs) / bs + 1)%nat with (S ((rem - bs) / bs)) by lia.
      simpl. f_equal. lia.
    + rewrite Hcount. simpl. project_log. rewrite length_app. simpl. lia.
  - replace (Z.of_nat (Nat.min bs rem) =? batch_size) with false
      by (symmetry; apply Z.eqb_neq; subst bs; lia).
    destruct fuel as [|fuel]; [lia|]. simpl. unfold_monad. simpl.
    eexists _, _. split; [reflexivity|].
    rewrite Nat.div_small, Nat.mod_small by lia. simpl.
    unfold df_rows. simpl. rewrite Hpage. project_log.
    rewrite length_app. simpl. split; [f_equal; lia|lia].
Qed.

(** X13. How many pages there are. Against a service that holds [rows] and
    cuts pages by [offset] and [limit], with a page size [b >= 1] and extra
    arguments that leave [offset] and [limit] alone, the generator of
    [get_report_batch] sends exactly [len(rows) // b + 1] requests and yields
    as many tables: [len(rows) // b] full ones and a last one of
    [len(rows) % b] rows, which is empty when [b] divides the number of
    rows. *)
Theorem number_of_pages start_date end_date (st : St unit) (fuel : nat) :
  (length rows / Z.to_nat batch_size + 2 ≤ fuel)%nat →
  ∃ pages st',
    @collect unit (dataset_world rows) fuel
      (get_report_batch self start_date end_date columns batch_size
         max_retries retry_interval kwargs) st
    = (Ok (Some pages), st')
    ∧ length pages = (length rows / Z.to_nat batch_size + 1)%nat
    ∧ page_sizes pages
      = replicate (length rows / Z.to_nat batch_size) (Z.to_nat batch_size)
        ++ [(length rows `mod` Z.to_nat batch_size)%nat]
    ∧ length (requests_made (log st'))
      = (length (requests_made (log st))
         + length rows / Z.to_nat batch_size + 1)%nat.
Proof using All.
  intros Hfuel. destruct fuel as [|fuel]; [lia|].
  destruct (@default_dates_quiet unit (dataset_world rows) start_date end_date
              st) as (dates & st0 & Hdates & Hreq0 & _).
  rewrite (collect_created _ _ _ _ _ _ Hdates).
  destruct (dataset_pages_from dates.1 dates.2 (S fuel) 0 st0)
    as (pages & st' & Hrun & Hsizes & Hcount); [lia| |].
  { replace (length rows - Z.to_nat 0)%nat with (length rows) by lia. lia. }
  replace (length rows - Z.to_nat 0)%nat with (length rows) in * by lia.
  exists pages, st'. split; [exact Hrun|]. split; [|split].
  - apply (f_equal length) in Hsizes. unfold page_sizes in Hsizes.
    rewrite length_map, length_app, length_replicate in Hsizes. simpl in Hsizes.
    lia.
  - exact Hsizes.
  - by rewrite Hcount, Hreq0.
Qed.
End PageCount.

Lemma number_of_pages_witness :
  0 < 2 ∧ 0 <= 3
  ∧ (∅ : gmap string PyVal) !! "offset" = None
  ∧ (∅ : gmap string PyVal) !! "limit" = None
  ∧ (length four_rows / Z.to_nat 2 + 2 ≤ 4)%nat
  ∧ ∃ pages st',
      @RevenueReport.collect unit (dataset_world four_rows) 4
        (RevenueReport.get_report_batch default_service (Some "2023-05-14")
           (Some "2023-05-16") ["day"; "impressions"] 2 3 30 ∅)
        (init_state tt)
      = (Ok (Some pages), st')
      ∧ page_sizes pages = [2; 2; 0]%nat.
Proof.
  assert (H2 : 0 < 2) by lia.
  assert (H3 : 0 <= 3) by lia.
  assert (Ho : (∅ : gmap string PyVal) !! "offset" = None) by reflexivity.
  assert (Hl : (∅ : gmap string PyVal) !! "limit" = None) by reflexivity.
  assert (Hfuel : (length four_rows / Z.to_nat 2 + 2 ≤ 4)%nat)
    by (vm_compute; lia).
  split_and!; try assumption.
  destruct (number_of_pages four_rows default_service ["day"; "impressions"]
              2 3 30 ∅ H2 H3 Ho Hl (Some "2023-05-14") (Some "2023-05-16")
              (init_state tt) 4%nat Hfuel)
    as (pages & st' & Hrun & _ & Hsizes & _).
  exists pages, st'. split; [exact Hrun|]. rewrite Hsizes. reflexivity.
Defined.

(** ** More about the per-user report *)

Section UserReport.
Context {W : Type} `{World W}.
Import UserAdRevenueReport.

Lemma platform_params_android self date aggregated application store_id kwargs :
  platform_params self date aggregated application store_id "android" kwargs
  = (<["application" := PStr application]>
       (base_params self date aggregated "android" kwargs),
     application, false).
Proof. reflexivity. Qed.

Lemma platform_params_ios self date aggregated application store_id kwargs :
  platform_params self date aggregated application store_id "ios" kwargs
  = (<["store_id" := PStr store_id]>
       (base_params self date aggregated "ios" kwargs),
     store_id, false).
Proof. reflexivity. Qed.

Lemma platform_params_other self date aggregated application store_id platform
    kwargs :
  platform ≠ "android" → platform ≠ "ios" →
  platform_params self date aggregated application store_id platform kwargs
  = (base_params self date aggregated platform kwargs,
     "no_platform_app_id", true).
Proof.
  intros Ha Hi. unfold platform_params.
  apply String.eqb_neq in Ha, Hi. by rewrite Ha, Hi.
Qed.

(** X9. Which application parameter goes out. For [platform = "android"]
    the request carries [application] and the [store_id] argument is not
    used; for ["ios"] it carries [store_id] and [application] is not used.
    For any other platform, the default [""] and ["Android"] included, the
    call is not refused: it logs the warning ["Wrong platform: ...!"] and
    still sends the request, with neither of the two. *)
Theorem platform_decides_the_app_parameter self date aggregated application
    store_id platform kwargs (st : St W) :
  ∃ res st' params,
    get_report self date aggregated application store_id platform kwargs st
      = (res, st')
    ∧ session_gets (log st') = session_gets (log st) ++ [(ENDPOINT, params)]
    ∧ (platform = "android" →
       params = <["application" := PStr application]>
                  (base_params self date aggregated platform kwargs)
       ∧ params !! "store_id" = kwargs !! "store_id")
    ∧ (platform = "ios" →
       params = <["store_id" := PStr store_id]>
                  (base_params self date aggregated platform kwargs)
       ∧ params !! "application" = kwargs !! "application")
    ∧ (platform ≠ "android" → platform ≠ "ios" →
       params = base_params self date aggregated platform kwargs
       ∧ params !! "application" = kwargs !! "application"
       ∧ params !! "store_id" = kwargs !! "store_id"
       ∧ ∃ more,
           warnings_logged (log st')
           = warnings_logged (log st)
             ++ ("Wrong platform: " +:+ platform +:+ "!") :: more).
Proof.
  assert (Hbase : ∀ p k, k ≠ "api_key" → k ≠ "date" → k ≠ "aggregated" →
            k ≠ "platform" →
            base_params self date aggregated p kwargs !! k = kwargs !! k).
  { intros p k ? ? ? ?. unfold base_params, dict_update.
    destruct (kwargs !! k) as [v|] eqn:Hk.
    - by apply lookup_union_Some_l.
    - rewrite lookup_union_r by done. by simplify_map_eq. }
  destruct (user_get_report_single_call self date aggregated application
              store_id platform kwargs st) as (res & st' & Hrun & Hcalls & _).
  exists res, st',
    (platform_params self date aggregated application store_id platform
       kwargs).1.1.
  split; [exact Hrun|]. split; [exact Hcalls|].
  split_and!.
  - intros ->. rewrite platform_params_android. simpl. split; [done|].
    rewrite lookup_insert_ne by done. by apply Hbase.
  - intros ->. rewrite platform_params_ios. simpl. split; [done|].
    rewrite lookup_insert_ne by done. by apply Hbase.
  - intros Ha Hi. rewrite platform_params_other by done. simpl.
    split; [done|]. split; [by apply Hbase|]. split; [by apply Hbase|].
    revert Hrun. unfold get_report. rewrite platform_params_other by done.
    unfold_monad. simpl.
    destruct (session_get _ _ _ _) as [[r|e] w1]; simpl.
    + destruct (status_code r =? 404); simpl.
      * intros [= <- <-]. simpl. project_log. rewrite <- ?app_assoc. simpl. by eexists.
      * destruct (response_json r) as [body|e]; simpl.
        -- destruct (py_getitem body "ad_revenue_report_url") as [url|e];
             simpl.
           ++ destruct url; simpl;
                try (intros [= <- <-]; simpl; project_log; rewrite <- ?app_assoc; simpl; by eexists).
              destruct (pd_read_csv s DtypeObject w1) as [[df|e] w2]; simpl;
                intros [= <- <-]; simpl; project_log; rewrite <- ?app_assoc; simpl; by eexists.
           ++ intros [= <- <-]. simpl. project_log. rewrite <- ?app_assoc. simpl. by eexists.
        -- intros [= <- <-]. simpl. project_log. rewrite <- ?app_assoc. simpl. by eexists.
    + intros [= <- <-]. simpl. project_log. rewrite <- ?app_assoc. simpl. by eexists.
Qed.

(** X10. Only 404 is told apart. Any other answer is taken for a report:
    when its body is not JSON the call fails with the decoding error, and
    when it is JSON without [ad_revenue_report_url] with [KeyError], whatever
    the status was (a 403 or a 500 as much as a 200); nothing is read as CSV
    and no success is logged. *)
Theorem answer_without_report_url_fails self date aggregated application
    store_id platform kwargs (st : St W) r w1 e :
  session_get (session self) ENDPOINT
    (platform_params self date aggregated application store_id platform
       kwargs).1.1 (world st) = (Ok r, w1) →
  status_code r ≠ 404 →
  (json r = None ∧ e = JSONDecodeError
   ∨ ∃ body, json r = Some body
             ∧ py_getitem body "ad_revenue_report_url" = Raise e) →
  ∃ st',
    get_report self date aggregated application store_id platform kwargs st
      = (Raise e, st')
    ∧ csv_reads (log st') = csv_reads (log st)
    ∧ infos_logged (log st') = infos_logged (log st).
Proof.
  intros Hget H404 Hbody. unfold get_report.
  destruct (platform_params self date aggregated application store_id
              platform kwargs) as [[params app_id] wrong].
  simpl in Hget.
  assert (Hne : (status_code r =? 404) = false) by (apply Z.eqb_neq; lia).
  destruct wrong; unfold_monad; simpl; rewrite Hget; simpl; rewrite Hne;
    unfold response_json;
    destruct Hbody as [[-> ->]|(body & -> & ->)]; simpl;
    eexists; (split; [reflexivity|]); simpl; by project_log.
Qed.

(** X11. Success is logged only once the CSV is in hand. For an answer other
    than 404 that names a CSV: if [pandas.read_csv] returns a table, that
    table is returned and exactly one info line is logged, naming the app id
    ([application] for android, [store_id] for ios, ["no_platform_app_id"]
    otherwise) and the platform; if [pandas.read_csv] raises, the exception
    escapes and no info line is logged. *)
Theorem success_is_logged_after_the_read self date aggregated application
    store_id platform kwargs (st : St W) r w1 body url res w2 :
  session_get (session self) ENDPOINT
    (platform_params self date aggregated application store_id platform
       kwargs).1.1 (world st) = (Ok r, w1) →
  status_code r ≠ 404 → json r = Some body →
  py_getitem body "ad_revenue_report_url" = Ok (PStr url) →
  pd_read_csv url DtypeObject w1 = (res, w2) →
  ∃ st',
    get_report self date aggregated application store_id platform kwargs st
      = (res, st')
    ∧ world st' = w2
    ∧ infos_logged (log st')
      = infos_logged (log st)
        ++ match res with
           | Ok _ =>
               ["Collected successful ad revenue report of App id: "
                +:+ (if String.eqb platform "android" then application
                     else if String.eqb platform "ios" then store_id
                     else "no_platform_app_id")
                +:+ ", Platform: " +:+ platform +:+ "."]
           | Raise _ => []
           end.
Proof.
  intros Hget H404 Hjson Hurl Hcsv. unfold get_report.
  assert (Hne : (status_code r =? 404) = false) by (apply Z.eqb_neq; lia).
  revert Hget. unfold platform_params.
  destruct (String.eqb platform "android"); simpl;
    [|destruct (String.eqb platform "ios"); simpl];
    intros Hget; unfold_monad; simpl; rewrite Hget; simpl; rewrite Hne;
    unfold response_json; rewrite Hjson; simpl; rewrite Hurl; simpl;
    rewrite Hcsv; destruct res as [df|e]; simpl;
    eexists; (split; [reflexivity|]); simpl; by project_log.
Qed.
End UserReport.

Lemma platform_parameter_witness :
  "" ≠ "android" ∧ "" ≠ "ios"
  ∧ ∃ res st' more,
      @UserAdRevenueReport.get_report unit (constant_world response_404)
        default_user_service "2023-05-14" true "com.example.app" "123" "" ∅
        (init_state tt) = (res, st')
      ∧ warnings_logged (log st') = "Wrong platform: !" :: more.
Proof.
  assert (Ha : "" ≠ "android") by discriminate.
  assert (Hi : "" ≠ "ios") by discriminate.
  split; [exact Ha|]. split; [exact Hi|].
  destruct (@platform_decides_the_app_parameter unit
              (constant_world response_404) default_user_service "2023-05-14"
              true "com.example.app" "123" "" ∅ (init_state tt))
    as (res & st' & params & Hrun & _ & _ & _ & Hother).
  destruct (Hother Ha Hi) as (_ & _ & _ & more & Hwarn).
  by exists res, st', more.
Defined.

Lemma answer_without_report_url_witness :
  ∃ st',
    @UserAdRevenueReport.get_report unit (constant_world response_403)
      default_user_service "2023-05-14" true "com.example.app" "" "android" ∅
      (init_state tt)
    = (Raise (KeyError "ad_revenue_report_url"), st')
    ∧ csv_reads (log st') = [].
Proof.
  assert (H404 : status_code response_403 ≠ 404) by (simpl; lia).
  destruct (@answer_without_report_url_fails unit (constant_world response_403)
              default_user_service "2023-05-14" true "com.example.app" ""
              "android" ∅ (init_state tt) response_403 tt
              (KeyError "ad_revenue_report_url") eq_refl H404)
    as (st' & Hrun & Hcsv & _).
  { right. by exists (PDict [("error", PStr "forbidden")]). }
  by exists st'.
Defined.

Lemma success_log_witness :
  ∃ st',
    @UserAdRevenueReport.get_report unit (csv_world user_csv)
      default_user_service "2023-05-14" true "com.example.app" "" "android" ∅
      (init_state tt)
    = (Ok (csv_frame DtypeObject user_csv), st')
    ∧ infos_logged (log st')
      = ["Collected successful ad revenue report of App id: com.example.app, Platform: android."].
Proof.
  assert (H404 : 200 ≠ 404) by lia.
  destruct (@success_is_logged_after_the_read unit (csv_world user_csv)
              default_user_service "2023-05-14" true "com.example.app" ""
              "android" ∅ (init_state tt) _ tt _ report_url
              (Ok (csv_frame DtypeObject user_csv)) tt
              eq_refl H404 eq_refl eq_refl eq_refl)
    as (st' & Hrun & _ & Hinfo).
  exists st'. split; [exact Hrun|]. exact Hinfo.
Defined.

Lemma offsets_and_limits_app (l1 l2 : list Event) :
  offsets_and_limits (l1 ++ l2) = offsets_and_limits l1 ++ offsets_and_limits l2.
Proof.
  unfold offsets_and_limits. by rewrite requests_made_app, map_app.
Qed.

Section PageOffsets.
Variable rows : list PyVal.
Variable self : RevenueReport.t.
Variable columns : list string.
Variables batch_size max_retries retry_interval : Z.
Variable kwargs : gmap string PyVal.
Hypothesis Hsize : 0 < batch_size.
Hypothesis Hmax : 0 <= max_retries.
Hypothesis Hoffset : kwargs !! "offset" = None.
Hypothesis Hlimit : kwargs !! "limit" = None.
Import RevenueReport.

(** The [offset] and [limit] that the request of a frame carries when the
    extra arguments do not set them. *)
Lemma frame_offset_and_limit start_date end_date offset has_next :
  offsets_and_limits
    [EvGet ENDPOINT
       (batch_params
          (frame_at self start_date end_date columns batch_size max_retries
             retry_interval kwargs offset has_next))]
  = [(Some (PInt offset), Some (PInt batch_size))].
Proof using Hoffset Hlimit.
  unfold offsets_and_limits, batch_params, dict_update, frame_at. simpl.
  rewrite !lookup_union_r by done. by simplify_map_eq.
Qed.

Lemma dataset_offsets_from start_date end_date :
  ∀ (fuel : nat) offset (st : St unit),
    0 <= offset →
    ((length rows - Z.to_nat offset) / Z.to_nat batch_size + 2 ≤ fuel)%nat →
    ∃ pages st',
      @collect unit (dataset_world rows) fuel
        (GenSuspended
           (frame_at self start_date end_date columns batch_size max_retries
              retry_interval kwargs offset true)) st
      = (Ok (Some pages), st')
      ∧ offsets_and_limits (log st')
        = offsets_and_limits (log st)
          ++ map (fun k : nat =>
                    (Some (PInt (offset + Z.of_nat k * batch_size)),
                     Some (PInt batch_size)))
               (seq 0 ((length rows - Z.to_nat offset) / Z.to_nat batch_size
                       + 1)).
Proof using All.
  induction fuel as [|fuel IH]; intros offset st Hoff Hfuel; [lia|].
  simpl. unfold bind at 1.
  rewrite (dataset_turn rows self columns batch_size max_retries
             retry_interval kwargs Hmax Hoffset Hlimit).
  set (bs := Z.to_nat batch_size) in *.
  set (rem := (length rows - Z.to_nat offset)%nat) in *.
  assert (Hbs : (0 < bs)%nat) by (subst bs; lia).
  assert (Hpage : length (take bs (drop (Z.to_nat offset) rows))
                  = Nat.min bs rem).
  { by rewrite length_take, length_drop. }
  rewrite Hpage.
  destruct (decide (bs ≤ rem)%nat) as [Hge|Hlt].
  - replace (Z.of_nat (Nat.min bs rem) =? batch_size) with true
      by (symmetry; apply Z.eqb_eq; subst bs; lia).
    assert (Hrem : rem = ((rem - bs) + 1 * bs)%nat) by lia.
    assert (Hdiv : (rem / bs = (rem - bs) / bs + 1)%nat).
    { rewrite Hrem at 1. rewrite Nat.div_add by lia. lia. }
    assert (Hnext : (length rows - Z.to_nat (offset + batch_size))%nat
                    = (rem - bs)%nat) by (subst rem bs; lia).
    destruct (IH (offset + batch_size)
                (mkSt tt
                   (log st
                    ++ [EvGet ENDPOINT
                          (batch_params
                             (frame_at self start_date end_date columns
                                batch_size max_retries retry_interval kwargs
                                offset true))])))
      as (pages & st' & Hrun & Hoffs); [lia|rewrite Hnext; lia|].
    unfold bind at 1. rewrite Hrun. unfold ret. simpl.
    eexists _, _. split; [reflexivity|].
    rewrite Hoffs, Hnext, Hdiv. simpl.
    rewrite offsets_and_limits_app, frame_offset_and_limit, <- app_assoc.
    f_equal.
    replace ((rem - bs) / bs + 1 + 1)%nat with (S ((rem - bs) / bs + 1)) by lia.
    simpl. f_equal; [do 3 f_equal; lia|].
    rewrite <- seq_shift, map_map. apply map_ext. intros k.
    do 3 f_equal. lia.
  - replace (Z.of_nat (Nat.min bs rem) =? batch_size) with false
      by (symmetry; apply Z.eqb_neq; subst bs; lia).
    destruct fuel as [|fuel]; [lia|]. simpl. unfold_monad. simpl.
    eexists _, _. split; [reflexivity|].
    rewrite Nat.div_small by lia. simpl.
    rewrite offsets_and_limits_app, frame_offset_and_limit.
    repeat (f_equal; try lia).
Qed.

(** X12. Where the pages are asked for. Against a service that holds [rows],
    with a page size [b >= 1] and extra arguments that leave [offset] and
    [limit] alone, the requests of a drained [get_report_batch] go out with
    [limit = b] at the offsets [0, b, 2b, ...], one for every multiple of
    [b] up to the number of rows, in that order and with none skipped or
    repeated. *)
Theorem pages_are_requested_at_multiples start_date end_date (st : St unit)
    (fuel : nat) :
  (length rows / Z.to_nat batch_size + 2 ≤ fuel)%nat →
  ∃ pages st',
    @collect unit (dataset_world rows) fuel
      (get_report_batch self start_date end_date columns batch_size
         max_retries retry_interval kwargs) st
    = (Ok (Some pages), st')
    ∧ offsets_and_limits (log st')
      = offsets_and_limits (log st)
        ++ map (fun k : nat =>
                  (Some (PInt (Z.of_nat k * batch_size)),
                   Some (PInt batch_size)))
             (seq 0 (length rows / Z.to_nat batch_size + 1)).
Proof using All.
  intros Hfuel. destruct fuel as [|fuel]; [lia|].
  destruct (@default_dates_quiet unit (dataset_world rows) start_date end_date
              st) as (dates & st0 & Hdates & Hreq0 & _).
  rewrite (collect_created rows self columns batch_size max_retries
             retry_interval kwargs _ _ _ _ _ _ Hdates).
  destruct (dataset_offsets_from dates.1 dates.2 (S fuel) 0 st0)
    as (pages & st' & Hrun & Hoffs); [lia| |].
  { replace (length rows - Z.to_nat 0)%nat with (length rows) by lia. lia. }
  replace (length rows - Z.to_nat 0)%nat with (length rows) in * by lia.
  exists pages, st'. split; [exact Hrun|]. rewrite Hoffs.
  f_equal. unfold offsets_and_limits. by rewrite Hreq0.
Qed.
End PageOffsets.

Lemma page_offsets_witness :
  0 < 2 ∧ 0 <= 3
  ∧ (∅ : gmap string PyVal) !! "offset" = None
  ∧ (∅ : gmap string PyVal) !! "limit" = None
  ∧ (length five_rows / Z.to_nat 2 + 2 ≤ 4)%nat
  ∧ ∃ pages st',
      @RevenueReport.collect unit (dataset_world five_rows) 4
        (RevenueReport.get_report_batch default_service (Some "2023-05-14")
           (Some "2023-05-16") ["day"; "impressions"] 2 3 30 ∅)
        (init_state tt)
      = (Ok (Some pages), st')
      ∧ offsets_and_limits (log st')
        = [(Some (PInt 0), Some (PInt 2)); (Some (PInt 2), Some (PInt 2));
           (Some (PInt 4), Some (PInt 2))].
Proof.
  assert (H2 : 0 < 2) by lia.
  assert (H3 : 0 <= 3) by lia.
  assert (Ho : (∅ : gmap string PyVal) !! "offset" = None) by reflexivity.
  assert (Hl : (∅ : gmap string PyVal) !! "limit" = None) by reflexivity.
  assert (Hfuel : (length five_rows / Z.to_nat 2 + 2 ≤ 4)%nat)
    by (vm_compute; lia).
  split_and!; try assumption.
  destruct (pages_are_requested_at_multiples five_rows default_service
              ["day"; "impressions"] 2 3 30 ∅ H2 H3 Ho Hl (Some "2023-05-14")
              (Some "2023-05-16") (init_state tt) 4%nat Hfuel)
    as (pages & st' & Hrun & Hoffs).
  exists pages, st'. split; [exact Hrun|]. rewrite Hoffs. reflexivity.
Defined.
